(** * BlenderGIS basemaps: tile pyramid, GeoPackage cache and tile fetching

    A shallow embedding of [basemaps/mapviewer.py]: the [TileMatrix] grid
    arithmetic, the [GeoPackage] tile cache kept in an SQLite file, the
    [MapService] request construction and tile resolution, and the
    [MapImage.load] worker loop.

    Numbers that Python keeps as floats are rationals here (exact
    arithmetic); Python exceptions are the [Raise] branch of [result].

    Further on: the tile list and the request of [MapImage], the slices
    of [run_multi], the wheel and keypad events of [MAP_VIEW.modal], and
    from [io_shapefile/op_import_shp.py] the geometry of the parts of a
    feature, the merged mesh and the georeferencing of the scene. *)

From Stdlib Require Import ZArith QArith Qround Qpower Qabs Qminmax DecimalString.
From Stdlib Require Import Lqa.
From stdpp Require Import base option list strings gmap.

Local Open Scope Z_scope.

(** ** Exceptions and the error monad *)

Inductive exn : Type :=
  | ZeroDivisionError
  | IndexError
  | KeyError
  | TypeError
  | NotImplementedError
  | OperationalError
  | IntegrityError.

Inductive result (A : Type) : Type :=
  | Ok (a : A)
  | Raise (e : exn).
Arguments Ok {A} a.
Arguments Raise {A} e.

#[global] Instance result_ret : MRet result := fun A a => Ok a.
#[global] Instance result_bind : MBind result := fun A B f m =>
  match m with
  | Ok a => f a
  | Raise e => Raise e
  end.

(** [try: m except: h], the bare [except] of the source. *)
Definition try_except {A} (m : result A) (h : A) : A :=
  match m with
  | Ok a => a
  | Raise _ => h
  end.

(** ** Python arithmetic and sequences *)

(** [a / b] on numbers. *)
Definition py_div (a b : Q) : result Q :=
  if Qeq_bool b 0 then Raise ZeroDivisionError else Ok (a / b)%Q.

(** [a ** n] for an integer exponent. *)
Definition py_pow (a : Q) (n : Z) : result Q :=
  if Qeq_bool a 0 && (n <? 0) then Raise ZeroDivisionError else Ok (a ^ n)%Q.

(** [l[i]]: a negative index counts from the end, an index outside the
    list raises [IndexError]. *)
Definition py_index {A} (l : list A) (i : Z) : result A :=
  let n := Z.of_nat (length l) in
  let j := if i <? 0 then i + n else i in
  if (j <? 0) || (n <=? j) then Raise IndexError
  else match l !! Z.to_nat j with
       | Some a => Ok a
       | None => Raise IndexError
       end.

(** [math.floor] and [math.ceil]. *)
Definition py_floor (q : Q) : Z := Qfloor q.
Definition py_ceil (q : Q) : Z := Qceiling q.

(** ** TileMatrix *)

Module TileMatrix.

(** The attributes a [TileMatrix] carries once [__init__] has run.
    [resolutions] and [initRes] are [None] when the grid definition
    leaves them out. *)
Record t : Type := mk {
  CRS : Z;
  tileSize : Z;
  originLoc : string;
  xmin : Q; ymin : Q; xmax : Q; ymax : Q;
  resolutions : option (list Q);
  initRes : option Q;
  resFactor : Q;
  nbLevels : Z;
  originx : Q; originy : Q
}.

Definition globalbbox (tm : t) : Q * Q * Q * Q :=
  (xmin tm, ymin tm, xmax tm, ymax tm).

(** [self.initRes / self.resFactor**zoom] *)
Definition computedRes (tm : t) (zoom : Z) : result Q :=
  match initRes tm with
  | None => Raise TypeError
  | Some r0 => p ← py_pow (resFactor tm) zoom; py_div r0 p
  end.

Definition getResList (tm : t) : result (list Q) :=
  match resolutions tm with
  | Some l => Ok l
  | None => mapM (fun zoom => computedRes tm (Z.of_nat zoom))
                 (seq 0 (Z.to_nat (nbLevels tm)))
  end.

Definition getRes (tm : t) (zoom : Z) : result Q :=
  match resolutions tm with
  | Some l =>
      let zoom := if Z.of_nat (length l) <? zoom
                  then Z.of_nat (length l) else zoom in
      py_index l zoom
  | None => computedRes tm zoom
  end.

Definition getTileNumber (tm : t) (x y : Q) (zoom : Z) : result (Z * Z) :=
  res ← getRes tm zoom;
  let geoTileSize := (inject_Z (tileSize tm) * res)%Q in
  let dx := (x - originx tm)%Q in
  let dy := if String.eqb (originLoc tm) "NW"
            then (originy tm - y)%Q else (y - originy tm)%Q in
  col ← py_div dx geoTileSize;
  row ← py_div dy geoTileSize;
  Ok (py_floor col, py_floor row).

Definition getTileCoords (tm : t) (col row : Z) (zoom : Z) : result (Q * Q) :=
  res ← getRes tm zoom;
  let geoTileSize := (inject_Z (tileSize tm) * res)%Q in
  let x := (originx tm + inject_Z col * geoTileSize)%Q in
  let y := if String.eqb (originLoc tm) "NW"
           then (originy tm - inject_Z row * geoTileSize)%Q
           else (originy tm + inject_Z row * geoTileSize + geoTileSize)%Q in
  Ok (x, y).

(** The grid dictionary [__init__] copies onto the object; a key that is
    absent or [None] is [None] here. *)
Record gridDef : Type := {
  g_CRS : Z;
  g_bbox : Q * Q * Q * Q;
  g_bboxCRS : Z;
  g_tileSize : Z;
  g_originLoc : string;
  g_resolutions : option (list Q);
  g_initRes : option Q;
  g_resFactor : Q;
  g_nbLevels : option Z
}.

Definition defaultNbLevels : Z := 24.

Section Construction.

(** [reproj crs1 crs2 x y], which needs logarithms and tangents. *)
Variable reproj : Z -> Z -> Q -> Q -> result (Q * Q).

Definition geoToProj (crs : Z) (long lat : Q) : result (Q * Q) :=
  if crs =? 4326 then Ok (long, lat) else reproj 4326 crs long lat.

Definition init (g : gridDef) : result t :=
  '(xmin, ymin, xmax, ymax) ←
    (if negb (g_bboxCRS g =? g_CRS g) then
       let '(lonMin, latMin, lonMax, latMax) := g_bbox g in
       '(xmin, ymax) ← geoToProj (g_CRS g) lonMin latMax;
       '(xmax, ymin) ← geoToProj (g_CRS g) lonMax latMin;
       Ok (xmin, ymin, xmax, ymax)
     else Ok (g_bbox g));
  initRes ←
    match g_resolutions g with
    | Some _ => Ok (g_initRes g)
    | None =>
        match g_initRes g with
        | Some r => Ok (Some r)
        | None =>
            let dx := Qabs (xmax - xmin) in
            let dy := Qabs (ymax - ymin) in
            let dst := Qminmax.Qmax dx dy in
            r ← py_div dst (inject_Z (g_tileSize g)); Ok (Some r)
        end
    end;
  let nbLevels :=
    match g_resolutions g with
    | Some l => Z.of_nat (length l)
    | None => default defaultNbLevels (g_nbLevels g)
    end in
  '(originx, originy) ←
    (if String.eqb (g_originLoc g) "NW" then Ok (xmin, ymax)
     else if String.eqb (g_originLoc g) "SW" then Ok (xmin, ymin)
     else Raise NotImplementedError);
  Ok {| CRS := g_CRS g; tileSize := g_tileSize g; originLoc := g_originLoc g;
        xmin := xmin; ymin := ymin; xmax := xmax; ymax := ymax;
        resolutions := g_resolutions g; initRes := initRes;
        resFactor := g_resFactor g; nbLevels := nbLevels;
        originx := originx; originy := originy |}.

End Construction.

End TileMatrix.

(** ** The SQLite file behind a cache *)

Definition bytes : Type := list Byte.byte.

(** Local time in microseconds.  SQLite's [datetime('now','localtime')]
    keeps whole seconds. *)
Definition usec_per_day : Z := 86400 * 1000000.
Definition sqlite_datetime (now : Z) : Z := now / 1000000 * 1000000.

(** [timedelta.days] of [now - stamp]: the whole days, rounded down. *)
Definition timedelta_days (now stamp : Z) : Z := (now - stamp) / usec_per_day.

(** One record type per [CREATE TABLE] of [GeoPackage.create]. *)
Record contents_row : Type := {
  c_table_name : string; c_data_type : string; c_identifier : string;
  c_description : string; c_last_change : Z;
  c_min_x : Q; c_min_y : Q; c_max_x : Q; c_max_y : Q; c_srs_id : Z
}.

Record srs_row : Type := {
  s_srs_name : string; s_srs_id : Z; s_organization : string;
  s_organization_coordsys_id : Z; s_definition : string;
  s_description : option string
}.

Record tms_row : Type := {
  ms_table_name : string; ms_srs_id : Z;
  ms_min_x : Q; ms_min_y : Q; ms_max_x : Q; ms_max_y : Q
}.

Record tm_row : Type := {
  m_table_name : string; m_zoom_level : Z;
  m_matrix_width : Z; m_matrix_height : Z;
  m_tile_width : Z; m_tile_height : Z;
  m_pixel_x_size : Q; m_pixel_y_size : Q
}.

Record tile_row : Type := {
  t_id : Z; t_zoom_level : Z; t_tile_column : Z; t_tile_row : Z;
  t_tile_data : bytes; t_last_modified : Z
}.

(** A database file: the application id of its header and the five
    tables the cache uses, [None] while a table does not exist.
    [tiles_seq] is the AUTOINCREMENT counter of [gpkg_tiles].  A table is
    there with the columns of [create] or not at all; files that SQLite
    cannot read are left out. *)
Record db : Type := {
  application_id : Z;
  gpkg_contents : option (list contents_row);
  gpkg_spatial_ref_sys : option (list srs_row);
  gpkg_tile_matrix_set : option (list tms_row);
  gpkg_tile_matrix : option (list tm_row);
  gpkg_tiles : option (list tile_row);
  tiles_seq : Z
}.

(** What [sqlite3.connect] sees on a path with no file. *)
Definition empty_db : db :=
  {| application_id := 0; gpkg_contents := None;
     gpkg_spatial_ref_sys := None; gpkg_tile_matrix_set := None;
     gpkg_tile_matrix := None; gpkg_tiles := None; tiles_seq := 0 |}.

Definition GP10 : Z := 1196437808.

(** The key of the UNIQUE constraint of [gpkg_tiles]. *)
Definition tile_key (r : tile_row) : Z * Z * Z :=
  (t_zoom_level r, t_tile_column r, t_tile_row r).

Definition key_eqb (k1 k2 : Z * Z * Z) : bool :=
  let '(z1, c1, r1) := k1 in
  let '(z2, c2, r2) := k2 in
  (z1 =? z2) && (c1 =? c2) && (r1 =? r2).

Module Sql.

(** [SELECT ... FROM tbl LIMIT 1]: fails when the table is missing. *)
Definition probe {R} (tbl : option (list R)) : result unit :=
  match tbl with
  | Some _ => Ok ()
  | None => Raise OperationalError
  end.

(** [CREATE TABLE]: fails when the table is already there. *)
Definition create_table {R} (tbl : option (list R)) : result (list R) :=
  match tbl with
  | Some _ => Raise OperationalError
  | None => Ok []
  end.

(** [INSERT INTO]: a row whose unique key is taken is refused. *)
Definition insert {R} (clash : R -> R -> bool) (r : R)
    (tbl : option (list R)) : result (list R) :=
  match tbl with
  | None => Raise OperationalError
  | Some rows =>
      if existsb (clash r) rows then Raise IntegrityError
      else Ok (rows ++ [r])
  end.

(** [INSERT OR REPLACE INTO]: the rows whose unique key is taken are
    deleted, then the row is inserted. *)
Definition insert_or_replace {R} (clash : R -> R -> bool) (r : R)
    (tbl : option (list R)) : result (list R) :=
  match tbl with
  | None => Raise OperationalError
  | Some rows => Ok (List.filter (fun r' => negb (clash r r')) rows ++ [r])
  end.

(** [SELECT ... WHERE ...] followed by [fetchone()]. *)
Definition fetchone {R} (p : R -> bool) (tbl : option (list R))
    : result (option R) :=
  match tbl with
  | None => Raise OperationalError
  | Some rows => Ok (List.find p rows)
  end.

End Sql.

Definition set_application_id (v : Z) (d : db) : db :=
  {| application_id := v; gpkg_contents := gpkg_contents d;
     gpkg_spatial_ref_sys := gpkg_spatial_ref_sys d;
     gpkg_tile_matrix_set := gpkg_tile_matrix_set d;
     gpkg_tile_matrix := gpkg_tile_matrix d;
     gpkg_tiles := gpkg_tiles d; tiles_seq := tiles_seq d |}.

Definition set_gpkg_contents (v : list contents_row) (d : db) : db :=
  {| application_id := application_id d; gpkg_contents := Some v;
     gpkg_spatial_ref_sys := gpkg_spatial_ref_sys d;
     gpkg_tile_matrix_set := gpkg_tile_matrix_set d;
     gpkg_tile_matrix := gpkg_tile_matrix d;
     gpkg_tiles := gpkg_tiles d; tiles_seq := tiles_seq d |}.

Definition set_gpkg_spatial_ref_sys (v : list srs_row) (d : db) : db :=
  {| application_id := application_id d; gpkg_contents := gpkg_contents d;
     gpkg_spatial_ref_sys := Some v;
     gpkg_tile_matrix_set := gpkg_tile_matrix_set d;
     gpkg_tile_matrix := gpkg_tile_matrix d;
     gpkg_tiles := gpkg_tiles d; tiles_seq := tiles_seq d |}.

Definition set_gpkg_tile_matrix_set (v : list tms_row) (d : db) : db :=
  {| application_id := application_id d; gpkg_contents := gpkg_contents d;
     gpkg_spatial_ref_sys := gpkg_spatial_ref_sys d;
     gpkg_tile_matrix_set := Some v;
     gpkg_tile_matrix := gpkg_tile_matrix d;
     gpkg_tiles := gpkg_tiles d; tiles_seq := tiles_seq d |}.

Definition set_gpkg_tile_matrix (v : list tm_row) (d : db) : db :=
  {| application_id := application_id d; gpkg_contents := gpkg_contents d;
     gpkg_spatial_ref_sys := gpkg_spatial_ref_sys d;
     gpkg_tile_matrix_set := gpkg_tile_matrix_set d;
     gpkg_tile_matrix := Some v;
     gpkg_tiles := gpkg_tiles d; tiles_seq := tiles_seq d |}.

Definition set_gpkg_tiles (v : list tile_row) (seq : Z) (d : db) : db :=
  {| application_id := application_id d; gpkg_contents := gpkg_contents d;
     gpkg_spatial_ref_sys := gpkg_spatial_ref_sys d;
     gpkg_tile_matrix_set := gpkg_tile_matrix_set d;
     gpkg_tile_matrix := gpkg_tile_matrix d;
     gpkg_tiles := Some v; tiles_seq := seq |}.

(** ** The world a viewer runs in *)

(** The calls that are traced: tile lookups, requests and tile writes. *)
Inductive event : Type :=
  | EvGetTile (path : string) (x y z : Z)
  | EvRequest (url : string)
  | EvPutTile (path : string) (x y z : Z) (data : bytes).

(** A PIL image, as far as the mosaic needs it: a decoded tile or the
    white [Image.new("RGBA", (w, h), "white")]. *)
Inductive image : Type :=
  | Decoded (data : bytes)
  | Blank (w h : Z).

(** The attributes of a [GeoPackage] object. *)
Record GeoPackage_t : Type := {
  dbPath : string;
  name : string;
  crs : Z;
  gp_tileSize : Z;
  gp_xmin : Q; gp_ymin : Q; gp_xmax : Q; gp_ymax : Q;
  gp_resolutions : list Q
}.

(** The files on disk, the [caches] dict of the service, the calls made
    so far (oldest first), and the mutable attributes of [MapImage] the
    workers share. *)
Record world : Type := {
  files : gmap string db;
  caches : gmap string GeoPackage_t;
  trace : list event;
  mosaic : list (image * (Z * Z));
  cptTiles : Z;
  running : bool
}.

Definition set_files (f : gmap string db) (w : world) : world :=
  {| files := f; caches := caches w; trace := trace w;
     mosaic := mosaic w; cptTiles := cptTiles w; running := running w |}.

Definition set_caches (c : gmap string GeoPackage_t) (w : world) : world :=
  {| files := files w; caches := c; trace := trace w;
     mosaic := mosaic w; cptTiles := cptTiles w; running := running w |}.

Definition set_trace (t : list event) (w : world) : world :=
  {| files := files w; caches := caches w; trace := t;
     mosaic := mosaic w; cptTiles := cptTiles w; running := running w |}.

Definition set_mosaic (m : list (image * (Z * Z))) (w : world) : world :=
  {| files := files w; caches := caches w; trace := trace w;
     mosaic := m; cptTiles := cptTiles w; running := running w |}.

Definition set_cptTiles (n : Z) (w : world) : world :=
  {| files := files w; caches := caches w; trace := trace w;
     mosaic := mosaic w; cptTiles := n; running := running w |}.

(** Stateful code that may raise: the world is kept when it does. *)
Definition M (A : Type) : Type := world -> result A * world.

#[global] Instance M_ret : MRet M := fun A a w => (Ok a, w).
#[global] Instance M_bind : MBind M := fun A B f m w =>
  match m w with
  | (Ok a, w') => f a w'
  | (Raise e, w') => (Raise e, w')
  end.

Definition lift {A} (r : result A) : M A := fun w => (r, w).

Definition log (ev : event) : M unit :=
  fun w => (Ok (), set_trace (trace w ++ [ev]) w).

Definition get_cache (layKey : string) : M (option GeoPackage_t) :=
  fun w => (Ok (caches w !! layKey), w).

Definition put_cache (layKey : string) (cache : GeoPackage_t) : M unit :=
  fun w => (Ok (), set_caches (<[layKey := cache]> (caches w)) w).

Definition is_running : M bool := fun w => (Ok (running w), w).

Definition count_tile : M unit :=
  fun w => (Ok (), set_cptTiles (cptTiles w + 1) w).

(** One committed transaction on the file at [path]; [sqlite3.connect]
    starts from an empty database when there is no file.  Nothing is
    written when a statement raises. *)
Definition exec (path : string) (f : db -> result db) : M unit :=
  fun w =>
    match f (default empty_db (files w !! path)) with
    | Ok d' => (Ok (), set_files (<[path := d']> (files w)) w)
    | Raise e => (Raise e, w)
    end.

(** A read on the file at [path]. *)
Definition query {A} (path : string) (f : db -> result A) : M A :=
  fun w => (f (default empty_db (files w !! path)), w).

(** [str] of an integer. *)
Definition py_str_Z (z : Z) : string := NilZero.string_of_int (Z.to_int z).

(** ** GeoPackage *)

Module GeoPackage.

Definition MAX_DAYS : Z := 90.

Section Methods.

(** The local clock, read after the calls made so far, and
    [os.path.splitext(os.path.basename(path))[0]]. *)
Variable clock : list event -> Z.
Variable path_stem : string -> string.

Definition now : M Z := fun w => (Ok (clock (trace w)), w).

Definition isGPKG (self : GeoPackage_t) : M bool :=
  fun w =>
    match files w !! dbPath self with
    | None => (Ok false, w)
    | Some d =>
        if negb (application_id d =? GP10) then (Ok false, w)
        else
          (Ok (try_except
                 (Sql.probe (gpkg_contents d);;
                  Sql.probe (gpkg_spatial_ref_sys d);;
                  Sql.probe (gpkg_tile_matrix_set d);;
                  Sql.probe (gpkg_tile_matrix d);;
                  Sql.probe (gpkg_tiles d);;
                  Ok true)
                 false), w)
    end.

(** Each statement of [create] is committed on its own. *)
Definition create (self : GeoPackage_t) : M unit :=
  let p := dbPath self in
  exec p (fun d => Ok (set_application_id GP10 d));;
  exec p (fun d => rows ← Sql.create_table (gpkg_contents d);
                   Ok (set_gpkg_contents rows d));;
  exec p (fun d => rows ← Sql.create_table (gpkg_spatial_ref_sys d);
                   Ok (set_gpkg_spatial_ref_sys rows d));;
  exec p (fun d => rows ← Sql.create_table (gpkg_tile_matrix_set d);
                   Ok (set_gpkg_tile_matrix_set rows d));;
  exec p (fun d => rows ← Sql.create_table (gpkg_tile_matrix d);
                   Ok (set_gpkg_tile_matrix rows d));;
  exec p (fun d => rows ← Sql.create_table (gpkg_tiles d);
                   Ok (set_gpkg_tiles rows (tiles_seq d) d)).

Definition contents_clash (r r' : contents_row) : bool :=
  String.eqb (c_table_name r) (c_table_name r')
  || String.eqb (c_identifier r) (c_identifier r').

(** [last_change] takes its default, the time of the insert (its
    conversion to UTC and to milliseconds is left out). *)
Definition insertMetadata (self : GeoPackage_t) : M unit :=
  t ← now;
  exec (dbPath self) (fun d =>
    rows ← Sql.insert contents_clash
      {| c_table_name := "gpkg_tiles"; c_data_type := "tiles";
         c_identifier := name self;
         c_description := "Created with BlenderGIS";
         c_last_change := t;
         c_min_x := gp_xmin self; c_min_y := gp_ymin self;
         c_max_x := gp_xmax self; c_max_y := gp_ymax self;
         c_srs_id := crs self |} (gpkg_contents d);
    Ok (set_gpkg_contents rows d)).

Definition srs_clash (r r' : srs_row) : bool :=
  s_srs_id r =? s_srs_id r'.

Definition insertCRS (self : GeoPackage_t) (code : Z) (nm wkt : string)
    : M unit :=
  exec (dbPath self) (fun d =>
    rows ← Sql.insert srs_clash
      {| s_srs_name := nm; s_srs_id := code; s_organization := "EPSG";
         s_organization_coordsys_id := code; s_definition := wkt;
         s_description := None |} (gpkg_spatial_ref_sys d);
    Ok (set_gpkg_spatial_ref_sys rows d)).

Definition tms_clash (r r' : tms_row) : bool :=
  String.eqb (ms_table_name r) (ms_table_name r').

Definition tm_clash (r r' : tm_row) : bool :=
  String.eqb (m_table_name r) (m_table_name r')
  && (m_zoom_level r =? m_zoom_level r').

(** The row of one level: the body of the loop of
    [insertTileMatrixSet]. *)
Definition level_row (self : GeoPackage_t) (level : Z) (res : Q)
    : result tm_row :=
  let size := (inject_Z (gp_tileSize self) * res)%Q in
  w ← py_div (gp_xmax self - gp_xmin self)%Q size;
  h ← py_div (gp_ymax self - gp_ymin self)%Q size;
  Ok {| m_table_name := "gpkg_tiles"; m_zoom_level := level;
        m_matrix_width := py_ceil w; m_matrix_height := py_ceil h;
        m_tile_width := gp_tileSize self;
        m_tile_height := gp_tileSize self;
        m_pixel_x_size := res; m_pixel_y_size := res |}.

Fixpoint insertLevels (self : GeoPackage_t) (level : Z) (rs : list Q)
    (d : db) : result db :=
  match rs with
  | [] => Ok d
  | res :: rs' =>
      r ← level_row self level res;
      rows ← Sql.insert_or_replace tm_clash r (gpkg_tile_matrix d);
      insertLevels self (level + 1) rs' (set_gpkg_tile_matrix rows d)
  end.

(** One transaction: the commit comes after the loop. *)
Definition insertTileMatrixSet (self : GeoPackage_t) : M unit :=
  exec (dbPath self) (fun d =>
    rows ← Sql.insert_or_replace tms_clash
      {| ms_table_name := "gpkg_tiles"; ms_srs_id := crs self;
         ms_min_x := gp_xmin self; ms_min_y := gp_ymin self;
         ms_max_x := gp_xmax self; ms_max_y := gp_ymax self |}
      (gpkg_tile_matrix_set d);
    insertLevels self 0 (gp_resolutions self)
                 (set_gpkg_tile_matrix_set rows d)).

Definition init (path : string) (tm : TileMatrix.t) : M GeoPackage_t :=
  resolutions ← lift (TileMatrix.getResList tm);
  let self :=
    {| dbPath := path; name := path_stem path;
       crs := TileMatrix.CRS tm; gp_tileSize := TileMatrix.tileSize tm;
       gp_xmin := TileMatrix.xmin tm; gp_ymin := TileMatrix.ymin tm;
       gp_xmax := TileMatrix.xmax tm; gp_ymax := TileMatrix.ymax tm;
       gp_resolutions := resolutions |} in
  valid ← isGPKG self;
  if negb valid then
    create self;;
    insertMetadata self;;
    insertCRS self (crs self) (py_str_Z (crs self)) "";;
    insertTileMatrixSet self;;
    mret self
  else mret self.

Definition tile_clash (r r' : tile_row) : bool :=
  key_eqb (tile_key r) (tile_key r').

Definition putTile (self : GeoPackage_t) (x y z : Z) (data : bytes)
    : M unit :=
  log (EvPutTile (dbPath self) x y z data);;
  t ← now;
  exec (dbPath self) (fun d =>
    let id := tiles_seq d + 1 in
    rows ← Sql.insert_or_replace tile_clash
      {| t_id := id; t_zoom_level := z; t_tile_column := x;
         t_tile_row := y; t_tile_data := data;
         t_last_modified := sqlite_datetime t |} (gpkg_tiles d);
    Ok (set_gpkg_tiles rows id d)).

Definition getTile (self : GeoPackage_t) (x y z : Z) : M (option bytes) :=
  log (EvGetTile (dbPath self) x y z);;
  result ← query (dbPath self) (fun d =>
    Sql.fetchone (fun r => key_eqb (z, x, y) (tile_key r)) (gpkg_tiles d));
  match result with
  | None => mret None
  | Some r =>
      t ← now;
      if MAX_DAYS <? timedelta_days t (t_last_modified r) then mret None
      else mret (Some (t_tile_data r))
  end.

End Methods.

End GeoPackage.

(** ** Python strings and dicts *)

(** [s.replace(old, new)] for a non-empty [old]: the occurrences are
    taken from the left and do not overlap.  [skip] counts the
    characters of a match still to be dropped. *)
Fixpoint replace_from (old new : string) (skip : nat) (s : string) : string :=
  match s with
  | EmptyString => EmptyString
  | String c s' =>
      match skip with
      | S k => replace_from old new k s'
      | O =>
          if String.prefix old s
          then new +:+ replace_from old new (String.length old - 1) s'
          else String c (replace_from old new 0 s')
      end
  end.

Definition py_replace (old new s : string) : string := replace_from old new 0 s.

(** [s[-1]] *)
Fixpoint last_char (s : string) : result string :=
  match s with
  | EmptyString => Raise IndexError
  | String c EmptyString => Ok (String c EmptyString)
  | String _ s' => last_char s'
  end.

(** A dict with string keys and values, in the order of [items()];
    [d[k]] raises [KeyError] when the key is missing. *)
Definition dict : Type := list (string * string).

Fixpoint dict_get (d : dict) (k : string) : result string :=
  match d with
  | [] => Raise KeyError
  | (k', v) :: d' => if String.eqb k k' then Ok v else dict_get d' k
  end.

(** ** Python ranges and slices *)

(** [range(n)] *)
Definition py_range (n : Z) : list Z := List.map Z.of_nat (seq 0 (Z.to_nat n)).

(** [range(start, stop, step)] for a positive [step]. *)
Definition py_range_step (start stop step : Z) : list Z :=
  List.map (fun k => start + Z.of_nat k * step)
           (seq 0 (Z.to_nat ((stop - start + step - 1) / step))).

(** A bound of a slice on a list of length [n]: a negative index counts
    from the end, and the result is brought into [0 .. n]. *)
Definition slice_bound (n i : Z) : Z :=
  let i := if i <? 0 then i + n else i in
  Z.max 0 (Z.min n i).

(** [l[i:j]] *)
Definition py_slice {A} (l : list A) (i j : Z) : list A :=
  let n := Z.of_nat (length l) in
  let a := slice_bound n i in
  let b := slice_bound n j in
  take (Z.to_nat (b - a)) (drop (Z.to_nat a) l).

(** ** MapService and MapImage *)

Record Layer : Type := {
  urlKey : string;
  format : string;
  style : string
}.

(** [urlTemplate] is a string for a TMS source and a dict for the others. *)
Inductive template : Type :=
  | TString (s : string)
  | TDict (d : dict).

(** The attributes of a [MapImage] (a [MapService]) that the tile code
    reads; [zoom], [layKey], [col1] and [row1] are those [update] and
    [request] have set for the running cycle. *)
Module Self.
Record MapService_t : Type := {
srcKey : string;
service : string;
quadTree : bool;
urlTemplate : template;
layers : gmap string Layer;
matrix : string;
tm1 : TileMatrix.t;
tm2 : TileMatrix.t;
cacheFolder : string;
layKey : string;
zoom : Z;
col1 : Z;
row1 : Z
}.
End Self.
Import Self.

Definition Qlt_bool (a b : Q) : bool := negb (Qle_bool b a).

Module MapService.

(** [range(z, 0, -1)] *)
Definition range_down (z : Z) : list Z :=
  List.map (fun k => z - Z.of_nat k) (seq 0 (Z.to_nat z)).

Definition quadDigit (x y i : Z) : Z :=
  let mask := Z.shiftl 1 (i - 1) in
  let digit := 0 in
  let digit := if negb (Z.land x mask =? 0) then digit + 1 else digit in
  let digit := if negb (Z.land y mask =? 0) then digit + 2 else digit in
  digit.

Definition getQuadKey (x y z : Z) : string :=
  fold_left (fun quadKey i => quadKey +:+ py_str_Z (quadDigit x y i))
            (range_down z) "".

(** [self.tileSize], the property of [MapImage]. *)
Definition tileSize (self : MapService_t) : Z := TileMatrix.tileSize (tm2 self).

Definition listTiles (self : MapService_t) (bbox : Q * Q * Q * Q) (zoom : Z)
    : result (list Z * list Z) :=
  let '(xmin, ymin, xmax, ymax) := bbox in
  '(firstCol, firstRow) ← TileMatrix.getTileNumber (tm1 self) xmin ymax zoom;
  res ← TileMatrix.getRes (tm1 self) zoom;
  nx ← py_div (xmax - xmin) (inject_Z (TileMatrix.tileSize (tm1 self)) * res);
  let nbTilesX := py_ceil nx in
  res ← TileMatrix.getRes (tm1 self) zoom;
  ny ← py_div (ymax - ymin) (inject_Z (TileMatrix.tileSize (tm1 self)) * res);
  let nbTilesY := py_ceil ny in
  let nbTilesX := nbTilesX + 1 in
  let nbTilesY := nbTilesY + 1 in
  let cols := List.map (fun i => firstCol + i) (py_range nbTilesX) in
  let rows :=
    if String.eqb (TileMatrix.originLoc (tm1 self)) "NW"
    then List.map (fun i => firstRow + i) (py_range nbTilesY)
    else List.map (fun i => firstRow - i) (py_range nbTilesY) in
  Ok (cols, rows).

Section Methods.

(** [str] of a float; the local clock, read after the calls made so
    far; [os.path.splitext(os.path.basename(path))[0]]; what
    [urlopen(req, timeout=3)] followed by [read()] gives after the
    calls made so far, [None] when it raises (error or timeout); and
    [imghdr.what(None, data)]. *)
Variable str_float : Q -> string.
Variable clock : list event -> Z.
Variable path_stem : string -> string.
Variable urlopen : list event -> string -> option bytes.
Variable imghdr_what : bytes -> option string.

(** The part the WMTS and WMS branches share: the base url and the
    query parameters. *)
Definition baseUrl (self : MapService_t) : result string :=
  match urlTemplate self with
  | TString _ => Raise TypeError
  | TDict d =>
      url ← dict_get d "BASE_URL";
      c ← last_char url;
      let url := if negb (String.eqb c "?") then url +:+ "?" else url in
      let params :=
        List.map (fun kv => String.concat "=" [kv.1; kv.2])
                 (List.filter (fun kv => negb (String.eqb kv.1 "BASE_URL")) d) in
      Ok (url +:+ String.concat "&" params)
  end.

(** The bounding box of the WMS request. *)
Definition wmsBBox (self : MapService_t) (col row zoom : Z) : result string :=
  '(xmin, ymax) ← TileMatrix.getTileCoords (tm1 self) col row zoom;
  res ← TileMatrix.getRes (tm1 self) zoom;
  let xmax := (xmin + inject_Z (TileMatrix.tileSize (tm1 self)) * res)%Q in
  res ← TileMatrix.getRes (tm1 self) zoom;
  let ymin := (ymax - inject_Z (TileMatrix.tileSize (tm1 self)) * res)%Q in
  version ← match urlTemplate self with
            | TString _ => Raise TypeError
            | TDict d => dict_get d "VERSION"
            end;
  if String.eqb version "1.3.0" && (TileMatrix.CRS (tm1 self) =? 4326)
  then Ok (String.concat "," (List.map str_float [ymin; xmin; ymax; xmax]))
  else Ok (String.concat "," (List.map str_float [xmin; ymin; xmax; ymax])).

Definition buildUrl (self : MapService_t) (layKey : string)
    (col row zoom : Z) : result template :=
  let url := urlTemplate self in
  lay ← match layers self !! layKey with
        | Some lay => Ok lay
        | None => Raise KeyError
        end;
  url ← (if String.eqb (service self) "TMS" then
           match url with
           | TDict _ => Raise TypeError
           | TString url =>
               let url := py_replace "{LAY}" (urlKey lay) url in
               if negb (quadTree self) then
                 let url := py_replace "{X}" (py_str_Z col) url in
                 let url := py_replace "{Y}" (py_str_Z row) url in
                 let url := py_replace "{Z}" (py_str_Z zoom) url in
                 Ok (TString url)
               else
                 let quadkey := getQuadKey col row zoom in
                 Ok (TString (py_replace "{QUADKEY}" quadkey url))
           end
         else Ok url);
  url ← (if String.eqb (service self) "WMTS" then
           url ← baseUrl self;
           let url := py_replace "{LAY}" (urlKey lay) url in
           let url := py_replace "{FORMAT}" (format lay) url in
           let url := py_replace "{STYLE}" (style lay) url in
           let url := py_replace "{MATRIX}" (matrix self) url in
           let url := py_replace "{X}" (py_str_Z col) url in
           let url := py_replace "{Y}" (py_str_Z row) url in
           let url := py_replace "{Z}" (py_str_Z zoom) url in
           Ok (TString url)
         else Ok url);
  url ← (if String.eqb (service self) "WMS" then
           url ← baseUrl self;
           let url := py_replace "{LAY}" (urlKey lay) url in
           let url := py_replace "{FORMAT}" (format lay) url in
           let url := py_replace "{STYLE}" (style lay) url in
           let url := py_replace "{CRS}"
                        (py_str_Z (TileMatrix.CRS (tm1 self))) url in
           let url := py_replace "{WIDTH}" (py_str_Z (tileSize self)) url in
           let url := py_replace "{HEIGHT}" (py_str_Z (tileSize self)) url in
           bbox ← wmsBBox self col row zoom;
           Ok (TString (py_replace "{BBOX}" bbox url))
         else Ok url);
  Ok url.

Definition getCache (self : MapService_t) (layKey : string)
    : M GeoPackage_t :=
  cache ← get_cache layKey;
  match cache with
  | None =>
      let mapKey := srcKey self +:+ "_" +:+ layKey in
      let dbPath := cacheFolder self +:+ mapKey +:+ ".gpkg" in
      cache ← GeoPackage.init clock path_stem dbPath (tm2 self);
      put_cache layKey cache;;
      mret cache
  | Some cache => mret cache
  end.

Definition request (u : string) : M (option bytes) :=
  fun w => (Ok (urlopen (trace w) u), set_trace (trace w ++ [EvRequest u]) w).

(** The [try] block of [getTile]: the request is made and read; any
    exception, also that of a url that is not a string, gives [None]. *)
Definition download (url : template) : M (option bytes) :=
  match url with
  | TDict _ => mret None
  | TString u => request u
  end.

(** [if data is not None: format = imghdr.what(None, data); if format is
    None: data = None]: bytes that are not an image count as no bytes. *)
Definition sniffed (data : option bytes) : option bytes :=
  match data with
  | Some d => match imghdr_what d with
              | None => None
              | Some _ => Some d
              end
  | None => None
  end.

Definition getTile (self : MapService_t) (layKey : string)
    (col row zoom : Z) : M (option bytes) :=
  cache ← getCache self layKey;
  '(x, y) ← lift (TileMatrix.getTileCoords (tm2 self) col row zoom);
  if (row <? 0) || (col <? 0) then mret None
  else if negb (Qle_bool (TileMatrix.xmin (tm2 self)) x
                && Qlt_bool x (TileMatrix.xmax (tm2 self)))
          || negb (Qlt_bool (TileMatrix.ymin (tm2 self)) y
                   && Qle_bool y (TileMatrix.ymax (tm2 self)))
  then mret None
  else
    data ← GeoPackage.getTile clock cache col row zoom;
    let data := sniffed data in
    match data with
    | Some d => mret (Some d)
    | None =>
        url ← lift (buildUrl self layKey col row zoom);
        data ← download url;
        match data with
        | None => mret None
        | Some d =>
            match imghdr_what d with
            | None => mret None
            | Some _ =>
                GeoPackage.putTile clock cache col row (Self.zoom self) d;;
                mret (Some d)
            end
        end
    end.

End Methods.

End MapService.

Module MapImage.

Section Methods.

Variable str_float : Q -> string.
Variable clock : list event -> Z.
Variable path_stem : string -> string.
Variable urlopen : list event -> string -> option bytes.
Variable imghdr_what : bytes -> option string.

(** Whether [Image.open] decodes the bytes; it raises otherwise. *)
Variable pil_open : bytes -> bool.

(** [Image.open(io.BytesIO(data))] under its bare [except]:
    [io.BytesIO(None)] is an empty stream, which does not decode. *)
Definition openOrBlank (self : MapService_t) (data : option bytes) : image :=
  match data with
  | Some d =>
      if pil_open d then Decoded d
      else Blank (MapService.tileSize self) (MapService.tileSize self)
  | None => Blank (MapService.tileSize self) (MapService.tileSize self)
  end.

Definition paste (img : image) (pos : Z * Z) : M unit :=
  fun w => (Ok (), set_mosaic (mosaic w ++ [(img, pos)]) w).

(** One pass of the loop body of [load], once the cancellation test
    has let it through. *)
Definition loadTile (self : MapService_t) (tile : Z * Z) : M unit :=
  let '(col, row) := tile in
  data ← MapService.getTile str_float clock path_stem urlopen imghdr_what
           self (layKey self) col row (zoom self);
  let img := openOrBlank self data in
  let posx := (col - col1 self) * MapService.tileSize self in
  let posy := Z.abs (row - row1 self) * MapService.tileSize self in
  paste img (posx, posy);;
  count_tile.

Fixpoint load (self : MapService_t) (tiles : list (Z * Z)) : M unit :=
  match tiles with
  | [] => mret ()
  | tile :: rest =>
      r ← is_running;
      if negb r then mret ()
      else loadTile self tile;; load self rest
  end.

End Methods.

(** What [request] reads besides the service: the size of the 3D view in
    pixels, the scene origin in projected coordinates, the cancellation
    flag and the tile lists of the previous request ([None] before the
    first one). *)
Record view : Type := {
  area_width : Z;
  area_height : Z;
  origin_x : Q;
  origin_y : Q;
  v_running : bool;
  previousCols : option (list Z);
  previousRows : option (list Z)
}.

(** The attributes [request] sets. *)
Record requested : Type := {
  cols : list Z;
  rows : list Z;
  r_col1 : Z;
  r_row1 : Z;
  img_w : Z;
  img_h : Z;
  img_ox : Q;
  img_oy : Q;
  r_running : bool;
  r_previousCols : option (list Z);
  r_previousRows : option (list Z)
}.

(** [self.res], the property: the resolution of [self.tm] at [self.zoom]. *)
Definition res (self : MapService_t) : result Q :=
  TileMatrix.getRes (tm2 self) (Self.zoom self).

Definition request (self : MapService_t) (v : view) : result requested :=
  let w := inject_Z (area_width v) in
  let h := inject_Z (area_height v) in
  r ← res self; let xmin := (origin_x v - w / 2 * r)%Q in
  r ← res self; let ymax := (origin_y v + h / 2 * r)%Q in
  r ← res self; let xmax := (origin_x v + w / 2 * r)%Q in
  r ← res self; let ymin := (origin_y v - h / 2 * r)%Q in
  let bbox := (xmin, ymin, xmax, ymax) in
  '(cols, rows) ← MapService.listTiles self bbox (Self.zoom self);
  col1 ← py_index cols 0;
  row1 ← py_index rows 0;
  let img_w := Z.of_nat (length cols) * MapService.tileSize self in
  let img_h := Z.of_nat (length rows) * MapService.tileSize self in
  '(img_xmin, img_ymax) ← TileMatrix.getTileCoords (tm2 self) col1 row1 (Self.zoom self);
  r ← res self; let img_ox := (img_xmin + inject_Z img_w / 2 * r)%Q in
  r ← res self; let img_oy := (img_ymax - inject_Z img_h / 2 * r)%Q in
  let same :=
    bool_decide (previousCols v = Some cols) && bool_decide (previousRows v = Some rows) in
  Ok {| cols := cols; rows := rows; r_col1 := col1; r_row1 := row1;
        img_w := img_w; img_h := img_h; img_ox := img_ox; img_oy := img_oy;
        r_running := if same then false else v_running v;
        r_previousCols := if same then previousCols v else Some cols;
        r_previousRows := if same then previousRows v else Some rows |}.

(** [run_multi]: the list of all tiles, column by column. *)
Definition allTiles (cols rows : list Z) : list (Z * Z) :=
  c ← cols; r ← rows; [(c, r)].

Definition nbThread : Z := 4.

(** [run_multi]: the slices handed to the threads.  [None] is the
    [ValueError] of [range] with a zero step, when there is no tile. *)
Definition parts (tiles : list (Z * Z)) : option (list (list (Z * Z))) :=
  let n := Z.of_nat (length tiles) in
  let q := py_ceil (inject_Z n / inject_Z nbThread) in
  if q =? 0 then None
  else Some (List.map (fun i => py_slice tiles i (i + q)) (py_range_step 0 n q)).

End MapImage.

(** ** MAP_VIEW *)

Module MAP_VIEW.

(** The calls [modal] makes on the map. *)
Inductive call : Type := Place | Get.

(** What the wheel and keypad events read and write: the scene properties
    "z" and "scale", the scale of the map object, the view distance of the
    3D region; [calls] is the log of [self.map.place()] and
    [self.map.get()]. *)
Record state : Type := {
  scn_z : Z;
  scn_scale : Q;
  map_scale : Q;
  view_distance : Q;
  calls : list call
}.

Record ui_event : Type := {
  type : string;
  value : string;
  alt : bool;
  ctrl : bool
}.

Definition py_in (s : string) (l : list string) : bool :=
  existsb (String.eqb s) l.

Definition set_view_distance (d : Q) (st : state) : state :=
  {| scn_z := scn_z st; scn_scale := scn_scale st; map_scale := map_scale st;
     view_distance := d; calls := calls st |}.

Definition set_scale (s : Q) (st : state) : state :=
  {| scn_z := scn_z st; scn_scale := s; map_scale := s;
     view_distance := view_distance st; calls := calls st ++ [Place] |}.

Definition set_z (z : Z) (st : state) : state :=
  {| scn_z := z; scn_scale := scn_scale st; map_scale := map_scale st;
     view_distance := view_distance st; calls := calls st ++ [Get] |}.

(** The two blocks of [modal] for the wheel and the keypad; [zmin] and
    [zmax] are those of [self.map.layer]. *)
Definition wheel (zmin zmax : Z) (event : ui_event) (st : state) : state :=
  let st :=
    if py_in (type event) ["WHEELUPMOUSE"; "NUMPAD_PLUS"] then
      if String.eqb (value event) "PRESS" then
        if alt event then set_scale (scn_scale st * 10) st
        else if ctrl event then set_view_distance (view_distance st - 100) st
        else
          let st := set_view_distance (view_distance st / 2) st in
          if scn_z st <? zmax then set_z (scn_z st + 1) st else st
      else st
    else st in
  if py_in (type event) ["WHEELDOWNMOUSE"; "NUMPAD_MINUS"] then
    if String.eqb (value event) "PRESS" then
      if alt event then
        let s := (scn_scale st / 10)%Q in
        let s := if Qlt_bool s 1 then 1%Q else s in
        set_scale s st
      else if ctrl event then set_view_distance (view_distance st + 100) st
      else
        let st := set_view_distance (view_distance st * 2) st in
        if zmin <? scn_z st then set_z (scn_z st - 1) st else st
    else st
  else st.

(** The events of a session, one after the other. *)
Definition wheels (zmin zmax : Z) (events : list ui_event) (st : state) : state :=
  fold_left (fun st event => wheel zmin zmax event st) events st.

End MAP_VIEW.

(** ** IMPORT_SHP *)

Module IMPORT_SHP.

Definition point3 : Type := Q * Q * Q.

(** [enumerate(l)] *)
Definition enumerate {A} (l : list A) : list (Z * A) :=
  imap (fun k a => (Z.of_nat k, a)) l.

(** Where the third coordinate comes from: the elevation field of the
    record ([useFieldElev]; [None] when [float] fails on the value), the
    [z] list of the shape ([useZGeom]), or nowhere. *)
Inductive elevation : Type :=
  | FieldElev (field : option Q)
  | ZGeom (shape_z : list Q)
  | NoElev.

Section Feature.

(** [ellpsGRS80.perimeter / 360], which needs pi. *)
Variable meters_per_degree : Q.

Definition dd2meters (val : Q) : Q := (val * meters_per_degree)%Q.

Variable angCoords : bool.
Variables dx dy : Q.

(** The shift of one point, with degrees converted when [angCoords]. *)
Definition shift (pt : point3) : point3 :=
  let '(x, y, z) := pt in
  if angCoords then (dd2meters x - dx, dd2meters y - dy, z)%Q
  else (x - dx, y - dy, z)%Q.

Variable pts : list (Q * Q).
Variable partsIdx : list Z.
Variable elev : elevation.

Definition point_z (idx1 idx2 k : Z) : result Q :=
  match elev with
  | FieldElev field => Ok (default 0%Q field)
  | ZGeom shape_z => py_index (py_slice shape_z idx1 idx2) k
  | NoElev => Ok 0%Q
  end.

(** The body of the loop over the parts, up to the shifted [geom]. *)
Definition part_geom (j : Z) : result (list point3) :=
  let nbParts := Z.of_nat (length partsIdx) in
  let nbPts := Z.of_nat (length pts) in
  idx1 ← py_index partsIdx j;
  idx2 ← (if j + 1 =? nbParts then Ok nbPts else py_index partsIdx (j + 1));
  geom ← mapM (fun kpt : Z * (Q * Q) =>
                 z ← point_z idx1 idx2 kpt.1;
                 Ok (kpt.2.1, kpt.2.2, z))
              (enumerate (py_slice pts idx1 idx2));
  Ok (shift <$> geom).

(** The [geom] of every part, in the order of the loop. *)
Definition parts_geom : result (list (list point3)) :=
  mapM part_geom (py_range (Z.of_nat (length partsIdx))).

End Feature.

(** The segments of a polyline. *)
Definition lines (geom : list point3) : result (list (point3 * point3)) :=
  let n := Z.of_nat (length geom) in
  mapM (fun i => a ← py_index geom i; b ← py_index geom (i + 1); Ok (a, b))
       (List.filter (fun i => i <? n - 1) (py_range n)).

(** [geom.reverse(); geom.pop()] and the test on what is left: the
    vertices of the face, when one is built.  [pop] on an empty list
    raises [IndexError]. *)
Definition face_verts (geom : list point3) : result (option (list point3)) :=
  let geom := rev geom in
  match geom with
  | [] => Raise IndexError
  | _ :: _ =>
      let geom := removelast geom in
      Ok (if 3 <=? Z.of_nat (length geom) then Some geom else None)
  end.

(** A bmesh after [index_update]: an edge or a face is the list of the
    indices of its vertices. *)
Record bmesh : Type := {
  verts : list point3;
  edges : list (list Z);
  faces : list (list Z)
}.

(** The lists handed to [from_pydata]. *)
Record pydata : Type := {
  meshVerts : list point3;
  meshEdges : list (list Z);
  meshFaces : list (list Z)
}.

(** The lists extended with the data of one bmesh. *)
Definition extend (mesh : pydata) (bm : bmesh) : pydata :=
  let offset := Z.of_nat (length (meshVerts mesh)) in
  {| meshVerts := meshVerts mesh ++ verts bm;
     meshEdges := meshEdges mesh
                  ++ List.map (fun e => List.map (fun i => i + offset) e) (edges bm);
     meshFaces := meshFaces mesh
                  ++ List.map (fun f => List.map (fun i => i + offset) f) (faces bm) |}.

(** The custom properties of the scene that hold numbers. *)
Definition scene : Type := gmap string Q.

(** The centre of the bounding box of the shapefile. *)
Definition center (meters_per_degree : Q) (angCoords : bool)
    (bbox : Q * Q * Q * Q) : Q * Q :=
  let '(xmin, ymin, xmax, ymax) := bbox in
  let '(xmin, xmax, ymin, ymax) :=
    if angCoords
    then (dd2meters meters_per_degree xmin, dd2meters meters_per_degree xmax,
          dd2meters meters_per_degree ymin, dd2meters meters_per_degree ymax)
    else (xmin, xmax, ymin, ymax) in
  let bbox_dx := (xmax - xmin)%Q in
  let bbox_dy := (ymax - ymin)%Q in
  (xmin + bbox_dx / 2, ymin + bbox_dy / 2)%Q.

(** The shift [dx, dy] of an import, and the scene after it. *)
Definition georef (scn : scene) (center : Q * Q) : (Q * Q) * scene :=
  match scn !! "Georef X", scn !! "Georef Y" with
  | Some dx, Some dy => ((dx, dy), scn)
  | _, _ => (center, <["Georef Y" := center.2]> (<["Georef X" := center.1]> scn))
  end.

End IMPORT_SHP.

Module RESET_GEOREF.

Definition execute (scn : IMPORT_SHP.scene) : IMPORT_SHP.scene :=
  match scn !! "Georef X", scn !! "Georef Y" with
  | Some _, Some _ => delete "Georef Y" (delete "Georef X" scn)
  | _, _ => scn
  end.

End RESET_GEOREF.

(** ** Sample grids *)

(** A north-west grid with two explicit resolutions and a south-west grid
    whose resolution halves from 1/4 at each level. *)
Definition nw_grid : TileMatrix.t :=
  TileMatrix.mk 3857 256 "NW" (-10) (-10) 10 10
                (Some [1; 1 # 2]%Q) None 2 2 (-10) 10.

Definition sw_grid : TileMatrix.t :=
  TileMatrix.mk 3857 256 "SW" (-10) (-10) 10 10
                None (Some (1 # 4)%Q) 2 24 (-10) (-10).

(** A grid whose list of resolutions ends in a zero. *)
Definition flat_grid : TileMatrix.t :=
  TileMatrix.mk 3857 256 "NW" (-10) (-10) 10 10
                (Some [1; 0]%Q) None 2 2 (-10) 10.

(** [getTileNumber] applied to what [getTileCoords] returns. *)
Definition roundTrip (tm : TileMatrix.t) (col row zoom : Z) : result (Z * Z) :=
  '(x, y) ← TileMatrix.getTileCoords tm col row zoom;
  TileMatrix.getTileNumber tm x y zoom.


(** ** A sample WMS source *)

(** The geographic grid: one 256-pixel tile spans 180 degrees at zoom 0. *)
Definition wgs_grid : TileMatrix.t :=
  TileMatrix.mk 4326 256 "NW" (-180) (-90) 180 90
                None (Some (45 # 64)%Q) 2 24 (-180) 90.

Definition ortho : Layer := {| urlKey := "ORTHO"; format := "png"; style := "" |}.

Definition wms_template (version : string) : dict :=
  [("BASE_URL", "http://example.org/wms"); ("SERVICE", "WMS");
   ("VERSION", version); ("REQUEST", "GetMap"); ("LAYERS", "{LAY}");
   ("CRS", "EPSG:{CRS}"); ("BBOX", "{BBOX}"); ("WIDTH", "{WIDTH}");
   ("HEIGHT", "{HEIGHT}"); ("FORMAT", "image/{FORMAT}"); ("STYLES", "{STYLE}")].

Definition wms_source (version : string) (tm : TileMatrix.t) : MapService_t :=
  {| srcKey := "SRC"; service := "WMS"; quadTree := false;
     urlTemplate := TDict (wms_template version);
     layers := {[ "ortho" := ortho ]}; matrix := "";
     tm1 := tm; tm2 := tm; cacheFolder := "/cache/";
     layKey := "ortho"; Self.zoom := 1; col1 := 0; row1 := 0 |}.

(** A stand-in for [str] on floats: numerator, slash, denominator of the
    reduced fraction. *)
Definition show_frac (q : Q) : string :=
  py_str_Z (Qnum (Qred q)) +:+ "/" +:+ py_str_Z (Zpos (Qden (Qred q))).

(** ** The tile table of a cache file *)

(** The rows of [gpkg_tiles] in the file at [path], when the file and the
    table exist. *)
Definition tile_table (w : world) (path : string) : option (list tile_row) :=
  d ← files w !! path; gpkg_tiles d.

(** The UNIQUE constraint of [gpkg_tiles]: no two rows share
    (zoom_level, tile_column, tile_row). *)
Definition unique_keys (rows : list tile_row) : Prop :=
  NoDup (tile_key <$> rows).

(** The rows stored under a key. *)
Definition rows_of_key (k : Z * Z * Z) (rows : list tile_row) : list tile_row :=
  List.filter (fun r => key_eqb k (tile_key r)) rows.

(** ** A sample cache *)

Definition png : bytes := [Byte.x89; Byte.x50; Byte.x4e; Byte.x47].
Definition jpg : bytes := [Byte.xff; Byte.xd8; Byte.xff; Byte.xe0].
Definition html : bytes := [Byte.x3c; Byte.x68; Byte.x74; Byte.x6d].

(** A cache file holding one tile, stamped at second 1000. *)
Definition sample_db : db :=
  {| application_id := GP10;
     gpkg_contents := Some []; gpkg_spatial_ref_sys := Some [];
     gpkg_tile_matrix_set := Some []; gpkg_tile_matrix := Some [];
     gpkg_tiles := Some [ {| t_id := 1; t_zoom_level := 1; t_tile_column := 1;
                             t_tile_row := 0; t_tile_data := png;
                             t_last_modified := 1000 * 1000000 |} ];
     tiles_seq := 1 |}.

Definition sample_cache : GeoPackage_t :=
  {| dbPath := "/cache/SRC_ortho.gpkg"; name := "SRC_ortho"; crs := 4326;
     gp_tileSize := 256;
     gp_xmin := -180; gp_ymin := -90; gp_xmax := 180; gp_ymax := 90;
     gp_resolutions := [45 # 64; 45 # 128]%Q |}.

Definition sample_world : world :=
  {| files := {[ "/cache/SRC_ortho.gpkg" := sample_db ]};
     caches := {[ "ortho" := sample_cache ]};
     trace := []; mosaic := []; cptTiles := 0; running := true |}.

(** A clock standing [days] whole days and one hour after second 1000. *)
Definition clock_after (days : Z) : list event → Z :=
  fun _ => 1000 * 1000000 + days * usec_per_day + 3600 * 1000000.

(** ** What a freshly initialised cache holds *)

(** The tile-matrix record of one level: the grid is
    [ceil(extent / (tileSize * resolution))] tiles wide and high. *)
Definition tile_matrix_row (self : GeoPackage_t) (level : Z) (res : Q) : tm_row :=
  {| m_table_name := "gpkg_tiles";
     m_zoom_level := level;
     m_matrix_width :=
       py_ceil ((gp_xmax self - gp_xmin self) / (inject_Z (gp_tileSize self) * res));
     m_matrix_height :=
       py_ceil ((gp_ymax self - gp_ymin self) / (inject_Z (gp_tileSize self) * res));
     m_tile_width := gp_tileSize self;
     m_tile_height := gp_tileSize self;
     m_pixel_x_size := res; m_pixel_y_size := res |}.

(** A GeoPackage written by other software: the five tables are there,
    the application id is "GPKG" (version 1.2 and later), not "GP10". *)
Definition foreign_db : db :=
  {| application_id := 1196444487;
     gpkg_contents := Some []; gpkg_spatial_ref_sys := Some [];
     gpkg_tile_matrix_set := Some []; gpkg_tile_matrix := Some [];
     gpkg_tiles := Some []; tiles_seq := 0 |}.

(** A cache whose tile table was dropped: the marker is right, the
    validity check fails on the missing table. *)
Definition truncated_db : db :=
  {| application_id := GP10;
     gpkg_contents := Some []; gpkg_spatial_ref_sys := Some [];
     gpkg_tile_matrix_set := Some []; gpkg_tile_matrix := Some [];
     gpkg_tiles := None; tiles_seq := 0 |}.

(** A world whose only file, at the cache path, is [d]. *)
Definition world_with (d : db) : world :=
  {| files := {[ "/cache/SRC_ortho.gpkg" := d ]}; caches := ∅;
     trace := []; mosaic := []; cptTiles := 0; running := true |}.

Definition stem_of (path : string) : string := "SRC_ortho".

(** ** Frames *)

(** Code that leaves alone the call trace, the mosaic, the counter, the
    cancellation flag, the [caches] dict and every file but the one at
    [path]. *)
Definition only_touches {A} (path : string) (m : M A) : Prop :=
  ∀ w : world,
    trace (m w).2 = trace w
    ∧ mosaic (m w).2 = mosaic w
    ∧ cptTiles (m w).2 = cptTiles w
    ∧ running (m w).2 = running w
    ∧ caches (m w).2 = caches w
    ∧ ∀ p, p ≠ path → files (m w).2 !! p = files w !! p.

(** The tile lies inside the global bounding box of the matrix: the test
    of [getTile] on its top-left corner. *)
Definition in_bbox (tm : TileMatrix.t) (x y : Q) : Prop :=
  (TileMatrix.xmin tm <= x ∧ x < TileMatrix.xmax tm
   ∧ TileMatrix.ymin tm < y ∧ y <= TileMatrix.ymax tm)%Q.

(** Code that leaves the mosaic, the counter and the cancellation flag
    alone. *)
Definition keeps_canvas {A} (m : M A) : Prop :=
  ∀ w : world,
    mosaic (m w).2 = mosaic w
    ∧ cptTiles (m w).2 = cptTiles w
    ∧ running (m w).2 = running w.

(** Where [load] pastes the tile [(col, row)]. *)
Definition paste_position (self : MapService_t) (tile : Z * Z) : Z * Z :=
  ((tile.1 - col1 self) * MapService.tileSize self,
   Z.abs (tile.2 - row1 self) * MapService.tileSize self).

(** ** Templates as text and placeholders *)

(** A string without an opening brace. *)
Fixpoint no_brace (s : string) : bool :=
  match s with
  | EmptyString => true
  | String c s' => negb (String.eqb (String c "") "{") && no_brace s'
  end.

Inductive placeholder : Type := PLay | PX | PY | PZ | PQuadkey.

Definition token (p : placeholder) : string :=
  match p with
  | PLay => "{LAY}" | PX => "{X}" | PY => "{Y}" | PZ => "{Z}"
  | PQuadkey => "{QUADKEY}"
  end.

Definition placeholder_eqb (p q : placeholder) : bool :=
  match p, q with
  | PLay, PLay | PX, PX | PY, PY | PZ, PZ | PQuadkey, PQuadkey => true
  | _, _ => false
  end.

Inductive segment : Type :=
  | Text (s : string)
  | Hole (p : placeholder).

Definition segment_text (seg : segment) : string :=
  match seg with Text s => s | Hole p => token p end.

(** The template a list of segments spells. *)
Definition render (segs : list segment) : string :=
  fold_right (fun seg acc => segment_text seg +:+ acc) "" segs.

(** Every hole [p] of the template filled with [v]. *)
Definition subst (p : placeholder) (v : string) (segs : list segment)
    : list segment :=
  List.map (fun seg => match seg with
                       | Hole q => if placeholder_eqb p q then Text v else seg
                       | Text _ => seg
                       end) segs.

Definition plain_text (segs : list segment) : Prop :=
  ∀ s, Text s ∈ segs → no_brace s = true.

(** A tile source in the manner of OpenStreetMap, and one addressed by
    quadkeys. *)
Definition xyz_template : list segment :=
  [Text "http://tile.example.org/"; Hole PLay; Text "/"; Hole PZ; Text "/";
   Hole PX; Text "/"; Hole PY; Text ".png"].

Definition quadkey_template : list segment :=
  [Text "http://tiles.example.net/"; Hole PLay; Text "/"; Hole PQuadkey;
   Text "?g=1"].

Definition tms_source (quad : bool) (segs : list segment) : MapService_t :=
  {| srcKey := "SRC"; service := "TMS"; quadTree := quad;
     urlTemplate := TString (render segs);
     layers := {[ "ortho" := ortho ]}; matrix := "";
     tm1 := wgs_grid; tm2 := wgs_grid; cacheFolder := "/cache/";
     layKey := "ortho"; Self.zoom := 1; col1 := 0; row1 := 0 |}.

(** ** Points of a feature *)

(** The third coordinates of the [nbPts] points of a shape. *)
Definition all_z (elev : IMPORT_SHP.elevation) (nbPts : nat) : list Q :=
  match elev with
  | IMPORT_SHP.FieldElev field => replicate nbPts (default 0%Q field)
  | IMPORT_SHP.ZGeom shape_z => shape_z
  | IMPORT_SHP.NoElev => replicate nbPts 0%Q
  end.

Definition with_z (pts : list (Q * Q)) (zs : list Q) : list IMPORT_SHP.point3 :=
  zip_with (fun pt z => (pt.1, pt.2, z)) pts zs.

(** Two rings of four points. *)
Definition two_rings : list (Q * Q) :=
  [(0, 0); (1, 0); (1, 1); (0, 0); (5, 5); (6, 5); (6, 6); (5, 5)]%Q.

(** ** Meshes *)

(** Every index of every element points into a list of [n] vertices. *)
Definition well_indexed (n : nat) (elems : list (list Z)) : Prop :=
  Forall (Forall (fun i => 0 <= i < Z.of_nat n)) elems.

Definition well_formed (bm : IMPORT_SHP.bmesh) : Prop :=
  well_indexed (length (IMPORT_SHP.verts bm)) (IMPORT_SHP.edges bm)
  ∧ well_indexed (length (IMPORT_SHP.verts bm)) (IMPORT_SHP.faces bm).

(** The coordinates an element joins. *)
Definition corners (vs : list IMPORT_SHP.point3) (elem : list Z)
    : list (result IMPORT_SHP.point3) :=
  List.map (py_index vs) elem.

Definition no_mesh : IMPORT_SHP.pydata :=
  {| IMPORT_SHP.meshVerts := []; IMPORT_SHP.meshEdges := [];
     IMPORT_SHP.meshFaces := [] |}.

(** Two segments and a triangle. *)
Definition two_segments : IMPORT_SHP.bmesh :=
  {| IMPORT_SHP.verts := [(0, 0, 0); (1, 0, 0); (1, 1, 0)]%Q;
     IMPORT_SHP.edges := [[0; 1]; [1; 2]]; IMPORT_SHP.faces := [] |}.

Definition triangle : IMPORT_SHP.bmesh :=
  {| IMPORT_SHP.verts := [(5, 5, 0); (6, 5, 0); (6, 6, 0)]%Q;
     IMPORT_SHP.edges := [[0; 1]; [1; 2]; [2; 0]];
     IMPORT_SHP.faces := [[0; 1; 2]] |}.

(** ** Sample events *)

Definition wheel_up : MAP_VIEW.ui_event :=
  {| MAP_VIEW.type := "WHEELUPMOUSE"; MAP_VIEW.value := "PRESS";
     MAP_VIEW.alt := false; MAP_VIEW.ctrl := false |}.

Definition wheel_down : MAP_VIEW.ui_event :=
  {| MAP_VIEW.type := "WHEELDOWNMOUSE"; MAP_VIEW.value := "PRESS";
     MAP_VIEW.alt := false; MAP_VIEW.ctrl := false |}.

Definition alt_minus : MAP_VIEW.ui_event :=
  {| MAP_VIEW.type := "NUMPAD_MINUS"; MAP_VIEW.value := "PRESS";
     MAP_VIEW.alt := true; MAP_VIEW.ctrl := true |}.

(** The view of a scene whose properties have just been initialised. *)
Definition first_view : MAP_VIEW.state :=
  {| MAP_VIEW.scn_z := 0; MAP_VIEW.scn_scale := 1; MAP_VIEW.map_scale := 1;
     MAP_VIEW.view_distance := 1000; MAP_VIEW.calls := [] |}.

(** ** Sample oracles *)

(** Content sniffing that knows the first byte of PNG and of JPEG. *)
Definition sniff (data : bytes) : option string :=
  match data with
  | Byte.x89 :: _ => Some "png"
  | Byte.xff :: _ => Some "jpeg"
  | _ => None
  end.

(** A server that answers with a JPEG, one that answers with an HTML
    page, and one that cannot be reached. *)
Definition net_jpg : list event → string → option bytes := fun _ _ => Some jpg.
Definition net_html : list event → string → option bytes := fun _ _ => Some html.
Definition net_down : list event → string → option bytes := fun _ _ => None.

(** A decoder that opens what [sniff] recognises. *)
Definition decodes (data : bytes) : bool :=
  match sniff data with
  | Some _ => true
  | None => false
  end.

(** The sample source at zoom 1, and the same viewer set to zoom 0. *)
Definition sample_service : MapService_t := wms_source "1.3.0" wgs_grid.

Definition sample_service_zoom0 : MapService_t :=
  {| srcKey := "SRC"; service := "WMS"; quadTree := false;
     urlTemplate := TDict (wms_template "1.3.0");
     layers := {[ "ortho" := ortho ]}; matrix := "";
     tm1 := wgs_grid; tm2 := wgs_grid; cacheFolder := "/cache/";
     layKey := "ortho"; Self.zoom := 0; col1 := 0; row1 := 0 |}.

(** * Properties *)

(** ** Arithmetic helpers *)

Lemma py_div_ok (a b : Q) : ¬ (b == 0)%Q → py_div a b = Ok (a / b)%Q.
Proof.
  intros Hb. unfold py_div.
  destruct (Qeq_bool b 0) eqn:E; [|reflexivity].
  apply Qeq_bool_iff in E. contradiction.
Qed.

Lemma py_div_zero (a b : Q) : (b == 0)%Q → py_div a b = Raise ZeroDivisionError.
Proof.
  intros Hb. unfold py_div.
  apply Qeq_bool_iff in Hb. rewrite Hb. reflexivity.
Qed.

Lemma floor_tiles (n : Z) (g : Q) :
  ¬ (g == 0)%Q → py_floor (inject_Z n * g / g) = n.
Proof.
  intros Hg. unfold py_floor.
  transitivity (Qfloor (inject_Z n)); [|apply Qfloor_Z].
  apply Qfloor_comp. field. exact Hg.
Qed.

Lemma tile_extent_nonzero (ts : Z) (res : Q) :
  ts ≠ 0 → ¬ (res == 0)%Q → ¬ (inject_Z ts * res == 0)%Q.
Proof.
  intros Hts Hres E.
  apply Qmult_integral in E as [E | E]; [|contradiction].
  apply Hts. unfold Qeq in E. simpl in E. lia.
Qed.

Lemma geoTileSize_nonzero (ts : Z) (res : Q) :
  ts ≠ 0 → (0 < res)%Q → ¬ (inject_Z ts * res == 0)%Q.
Proof.
  intros Hts Hres. apply tile_extent_nonzero; [exact Hts|].
  intros E. rewrite E in Hres. exact (Qlt_irrefl 0 Hres).
Qed.

(** ** TileMatrix *)

(** C1 (as amended): with a non-zero tile size and a positive resolution
    at [zoom], [getTileNumber] applied to the coordinates returned by
    [getTileCoords col row zoom] returns [(col, row)] when the origin is
    north-west, and [(col, row + 1)] otherwise (south-west origin, where
    [getTileCoords] returns the top edge of the tile). *)
Theorem getTileNumber_getTileCoords (tm : TileMatrix.t) (col row zoom : Z) (res : Q) :
  TileMatrix.getRes tm zoom = Ok res →
  (0 < res)%Q →
  TileMatrix.tileSize tm ≠ 0 →
  roundTrip tm col row zoom
  = Ok (col, if String.eqb (TileMatrix.originLoc tm) "NW" then row else row + 1).
Proof.
  intros Hres Hpos Hts.
  pose proof (geoTileSize_nonzero _ _ Hts Hpos) as Hg.
  unfold roundTrip, TileMatrix.getTileCoords, TileMatrix.getTileNumber.
  rewrite Hres. cbn [mbind result_bind].
  rewrite !py_div_ok by exact Hg. cbn [mbind result_bind].
  set (g := (inject_Z (TileMatrix.tileSize tm) * res)%Q) in *.
  f_equal. f_equal.
  - transitivity (py_floor (inject_Z col * g / g)); [|exact (floor_tiles col g Hg)].
    apply Qfloor_comp. field. exact Hg.
  - destruct (String.eqb (TileMatrix.originLoc tm) "NW").
    + transitivity (py_floor (inject_Z row * g / g)); [|exact (floor_tiles row g Hg)].
      apply Qfloor_comp. field. exact Hg.
    + transitivity (py_floor (inject_Z (row + 1) * g / g));
        [|exact (floor_tiles (row + 1) g Hg)].
      apply Qfloor_comp. rewrite inject_Z_plus. field. exact Hg.
Qed.

Lemma getTileNumber_getTileCoords_witness :
  roundTrip nw_grid 3 5 1 = Ok (3, 5) ∧ roundTrip sw_grid 3 5 1 = Ok (3, 6).
Proof.
  split.
  - apply (getTileNumber_getTileCoords nw_grid 3 5 1 (1 # 2)%Q);
      [reflexivity | reflexivity | discriminate].
  - apply (getTileNumber_getTileCoords sw_grid 3 5 1 (1 # 8)%Q);
      [reflexivity | reflexivity | discriminate].
Defined.

(** C1 (as stated) fails on a south-west grid: tile (3, 5) at zoom 1 of
    [sw_grid], whose resolution there is 1/8, comes back as (3, 6). *)
Lemma roundTrip_SW_counterexample :
  TileMatrix.originLoc sw_grid = "SW"
  ∧ TileMatrix.getRes sw_grid 1 = Ok (1 # 8)%Q
  ∧ roundTrip sw_grid 3 5 1 = Ok (3, 6)
  ∧ roundTrip sw_grid 3 5 1 ≠ Ok (3, 5).
Proof. repeat split. discriminate. Qed.

(** C2 (the code at the failing inputs): with an explicit resolutions
    list, [getRes] raises [IndexError] for every zoom greater than or equal
    to the length of the list; the clamp stops one past the last entry. *)
Theorem getRes_beyond_list_raises (tm : TileMatrix.t) (l : list Q) (zoom : Z) :
  TileMatrix.resolutions tm = Some l →
  Z.of_nat (length l) <= zoom →
  TileMatrix.getRes tm zoom = Raise IndexError.
Proof.
  intros Hl Hz. unfold TileMatrix.getRes. rewrite Hl.
  assert (py_index l (Z.of_nat (length l)) = Raise IndexError) as Hlen.
  { unfold py_index.
    destruct (Z.of_nat (length l) <? 0) eqn:E1; [lia|].
    rewrite E1. cbn [orb].
    destruct (Z.of_nat (length l) <=? Z.of_nat (length l)) eqn:E2; [reflexivity|lia]. }
  destruct (Z.of_nat (length l) <? zoom) eqn:E; [exact Hlen|].
  assert (zoom = Z.of_nat (length l)) as -> by lia. exact Hlen.
Qed.

Lemma getRes_beyond_list_raises_witness :
  TileMatrix.getRes nw_grid 2 = Raise IndexError
  ∧ TileMatrix.getRes nw_grid 7 = Raise IndexError.
Proof.
  split.
  - apply (getRes_beyond_list_raises nw_grid [1; 1 # 2]%Q 2); [reflexivity | simpl; lia].
  - apply (getRes_beyond_list_raises nw_grid [1; 1 # 2]%Q 7); [reflexivity | simpl; lia].
Defined.

(** With an explicit list, a zoom that indexes it gets its entry. *)
Lemma getRes_valid_index (tm : TileMatrix.t) (l : list Q) (zoom : Z) (r : Q) :
  TileMatrix.resolutions tm = Some l →
  0 <= zoom →
  l !! Z.to_nat zoom = Some r →
  TileMatrix.getRes tm zoom = Ok r.
Proof.
  intros Hl Hz Hr. unfold TileMatrix.getRes. rewrite Hl.
  pose proof (lookup_lt_Some _ _ _ Hr) as Hlt.
  destruct (Z.of_nat (length l) <? zoom) eqn:E; [lia|].
  unfold py_index.
  destruct (zoom <? 0) eqn:E1; [lia|].
  rewrite E1. cbn [orb].
  destruct (Z.of_nat (length l) <=? zoom) eqn:E2; [lia|].
  rewrite Hr. reflexivity.
Qed.

(** A constructed [TileMatrix] has its origin north-west or south-west,
    at the matching corner of its bounding box. *)
Lemma init_origin (reproj : Z → Z → Q → Q → result (Q * Q))
    (g : TileMatrix.gridDef) (tm : TileMatrix.t) :
  TileMatrix.init reproj g = Ok tm →
  (TileMatrix.originLoc tm = "NW"
   ∧ TileMatrix.originx tm = TileMatrix.xmin tm
   ∧ TileMatrix.originy tm = TileMatrix.ymax tm)
  ∨ (TileMatrix.originLoc tm = "SW"
     ∧ TileMatrix.originx tm = TileMatrix.xmin tm
     ∧ TileMatrix.originy tm = TileMatrix.ymin tm).
Proof.
  unfold TileMatrix.init. intros H.
  match type of H with
  | ?m ≫= _ = _ => destruct m as [[[[x0 y0] x1] y1]|e]
  end; cbn [mbind result_bind] in H; [|discriminate].
  match type of H with
  | ?m ≫= _ = _ => destruct m as [r0|e]
  end; cbn [mbind result_bind] in H; [|discriminate].
  destruct (String.eqb_spec (TileMatrix.g_originLoc g) "NW") as [HNW | _].
  - cbn [mbind result_bind] in H. injection H as <-. left. auto.
  - destruct (String.eqb_spec (TileMatrix.g_originLoc g) "SW") as [HSW | _].
    + cbn [mbind result_bind] in H. injection H as <-. right. auto.
    + discriminate.
Qed.

(** ** Strings *)

Lemma append_cons (c : Ascii.ascii) (s1 s2 : string) :
  String c s1 +:+ s2 = String c (s1 +:+ s2).
Proof. reflexivity. Qed.

Lemma append_empty_l (s : string) : "" +:+ s = s.
Proof. reflexivity. Qed.

Lemma append_assoc (s1 s2 s3 : string) : (s1 +:+ s2) +:+ s3 = s1 +:+ (s2 +:+ s3).
Proof.
  induction s1 as [|c s1 IH]; [reflexivity|].
  rewrite !append_cons, IH. reflexivity.
Qed.

Lemma length_append (s1 s2 : string) :
  String.length (s1 +:+ s2) = (String.length s1 + String.length s2)%nat.
Proof.
  induction s1 as [|c s1 IH]; [reflexivity|].
  rewrite append_cons. cbn [String.length]. rewrite IH. reflexivity.
Qed.

(** [s[i]] as the one-character string Python gives. *)
Lemma substring_one_append (s1 s2 : string) (c : Ascii.ascii) :
  String.substring (String.length s1) 1 (s1 +:+ String c s2) = String c "".
Proof.
  induction s1 as [|a s1 IH].
  - rewrite append_empty_l. destruct s2; reflexivity.
  - rewrite append_cons. exact IH.
Qed.

(** ** Quad keys *)

Lemma land_mask_zero (x n : Z) :
  0 <= n → (Z.land x (Z.shiftl 1 n) =? 0) = negb (Z.testbit x n).
Proof.
  intros Hn. rewrite Z.shiftl_1_l.
  destruct (Z.testbit x n) eqn:Hb; cbn [negb].
  - apply Z.eqb_neq. intros E.
    assert (Z.testbit (Z.land x (2 ^ n)) n = true) as Hbit.
    { rewrite Z.land_spec, Hb, Z.pow2_bits_true by lia. reflexivity. }
    rewrite E, Z.bits_0 in Hbit. discriminate.
  - apply Z.eqb_eq. apply Z.bits_inj'. intros m Hm.
    rewrite Z.land_spec, Z.bits_0, Z.pow2_bits_eqb by lia.
    destruct (Z.eqb_spec n m) as [<- | _].
    + rewrite Hb. reflexivity.
    + apply andb_false_r.
Qed.

Lemma quadDigit_bits (x y i : Z) :
  1 <= i →
  MapService.quadDigit x y i
  = Z.b2z (Z.testbit x (i - 1)) + 2 * Z.b2z (Z.testbit y (i - 1)).
Proof.
  intros Hi. unfold MapService.quadDigit.
  rewrite !land_mask_zero, !negb_involutive by lia.
  destruct (Z.testbit x (i - 1)), (Z.testbit y (i - 1)); reflexivity.
Qed.

Lemma quadDigit_range (x y i : Z) : 0 <= MapService.quadDigit x y i <= 3.
Proof.
  unfold MapService.quadDigit.
  destruct (negb _), (negb _); lia.
Qed.

(** [str] of a digit is one character long. *)
Lemma py_str_digit (d : Z) :
  0 <= d <= 3 → ∃ c, py_str_Z d = String c "".
Proof.
  intros Hd.
  assert (d = 0 ∨ d = 1 ∨ d = 2 ∨ d = 3) as [-> | [-> | [-> | ->]]] by lia;
    eexists; reflexivity.
Qed.

(** A loop [for i in l: key += f(i)] appends to what it starts from. *)
Lemma append_loop_acc {A} (f : A → string) (l : list A) (acc : string) :
  fold_left (fun key i => key +:+ f i) l acc
  = acc +:+ fold_left (fun key i => key +:+ f i) l "".
Proof.
  revert acc. induction l as [|j l IH]; intros acc; cbn [fold_left].
  - induction acc as [|c acc IHacc]; [reflexivity|].
    rewrite append_cons, <- IHacc. reflexivity.
  - rewrite IH, (IH ("" +:+ f j)), append_empty_l, append_assoc. reflexivity.
Qed.

(** When every [f i] is one character, the loop writes one character per
    element, in order. *)
Lemma append_loop_chars {A} (f : A → string) (l : list A) :
  (∀ i, ∃ c, f i = String c "") →
  let key := fold_left (fun key i => key +:+ f i) l "" in
  String.length key = length l
  ∧ ∀ (k : nat) (i : A), l !! k = Some i → String.substring k 1 key = f i.
Proof.
  intros Hf. induction l as [|j l IH]; cbn zeta.
  - split; [reflexivity|]. intros k i Hk. rewrite lookup_nil in Hk. discriminate.
  - cbn [fold_left]. rewrite append_loop_acc, append_empty_l.
    destruct (Hf j) as [c Hc]. rewrite Hc, append_cons, append_empty_l.
    cbn zeta in IH. destruct IH as [IHlen IHget].
    split.
    + cbn [String.length length]. rewrite IHlen. reflexivity.
    + intros [|k] i Hk.
      * cbn in Hk. injection Hk as <-. rewrite Hc.
        destruct (fold_left _ l ""); reflexivity.
      * cbn in Hk. cbn [String.substring]. apply IHget. exact Hk.
Qed.

Lemma range_down_lookup (z : Z) (k : nat) :
  (k < Z.to_nat z)%nat → MapService.range_down z !! k = Some (z - Z.of_nat k).
Proof.
  intros Hk. unfold MapService.range_down.
  rewrite list_lookup_fmap, lookup_seq_lt by exact Hk. reflexivity.
Qed.

Lemma range_down_length (z : Z) : length (MapService.range_down z) = Z.to_nat z.
Proof. unfold MapService.range_down. rewrite length_map, length_seq. reflexivity. Qed.

(** C6: for non-negative [col], [row] and [zoom], [getQuadKey col row zoom]
    has exactly [zoom] characters; its [i]-th character from the left is
    [str] of a digit [d] in 0..3 with [d] = (bit [zoom-1-i] of [col]) +
    2 * (bit [zoom-1-i] of [row]); [getQuadKey 3 5 3] is "213" and the key
    at zoom 0 is empty. *)
Theorem getQuadKey_digits (col row zoom : Z) :
  0 <= col → 0 <= row → 0 <= zoom →
  String.length (MapService.getQuadKey col row zoom) = Z.to_nat zoom
  ∧ (∀ i : nat, (i < Z.to_nat zoom)%nat →
       ∃ d : Z,
         d = Z.b2z (Z.testbit col (zoom - 1 - Z.of_nat i))
             + 2 * Z.b2z (Z.testbit row (zoom - 1 - Z.of_nat i))
         ∧ 0 <= d <= 3
         ∧ String.substring i 1 (MapService.getQuadKey col row zoom) = py_str_Z d)
  ∧ MapService.getQuadKey 3 5 3 = "213"
  ∧ MapService.getQuadKey col row 0 = "".
Proof.
  intros _ _ Hz.
  destruct (append_loop_chars (fun i => py_str_Z (MapService.quadDigit col row i))
              (MapService.range_down zoom)) as [Hlen Hget].
  { intros i. apply py_str_digit, quadDigit_range. }
  split; [|split; [|split; reflexivity]].
  - unfold MapService.getQuadKey. rewrite Hlen. apply range_down_length.
  - intros i Hi.
    exists (MapService.quadDigit col row (zoom - Z.of_nat i)).
    split; [|split].
    + rewrite quadDigit_bits by lia.
      replace (zoom - Z.of_nat i - 1) with (zoom - 1 - Z.of_nat i) by lia.
      reflexivity.
    + apply quadDigit_range.
    + unfold MapService.getQuadKey.
      apply (Hget i (zoom - Z.of_nat i)), range_down_lookup, Hi.
Qed.

Lemma getQuadKey_digits_witness :
  String.length (MapService.getQuadKey 3 5 3) = 3%nat
  ∧ String.substring 0 1 (MapService.getQuadKey 3 5 3) = "2"
  ∧ MapService.getQuadKey 3 5 3 = "213".
Proof.
  destruct (getQuadKey_digits 3 5 3) as (Hlen & Hget & Hkey & _); [lia | lia | lia |].
  split; [exact Hlen|]. split; [|exact Hkey].
  destruct (Hget 0%nat) as (d & -> & _ & Hd); [simpl; lia|]. exact Hd.
Defined.

(** ** WMS requests *)

(** C5: for a WMS service, [buildUrl] substitutes for "{BBOX}" the four
    numbers joined by commas in the order (ymin, xmin, ymax, xmax) when
    the template's VERSION is "1.3.0" and the CRS of the tile matrix is
    4326, and in the order (xmin, ymin, xmax, ymax) in every other case,
    where (xmin, ymax) is [getTileCoords col row zoom], xmax is xmin plus
    [tileSize * getRes zoom] and ymin is ymax minus it. *)
Theorem buildUrl_WMS_bbox (str_float : Q → string) (self : MapService_t)
    (lKey : string) (lay : Layer) (d : dict) (base version : string)
    (col row zoom : Z) (xmin ymax res : Q) :
  service self = "WMS" →
  layers self !! lKey = Some lay →
  urlTemplate self = TDict d →
  MapService.baseUrl self = Ok base →
  dict_get d "VERSION" = Ok version →
  TileMatrix.getTileCoords (tm1 self) col row zoom = Ok (xmin, ymax) →
  TileMatrix.getRes (tm1 self) zoom = Ok res →
  let xmax := (xmin + inject_Z (TileMatrix.tileSize (tm1 self)) * res)%Q in
  let ymin := (ymax - inject_Z (TileMatrix.tileSize (tm1 self)) * res)%Q in
  let bbox :=
    String.concat "," (List.map str_float
      (if decide (version = "1.3.0" ∧ TileMatrix.CRS (tm1 self) = 4326)
       then [ymin; xmin; ymax; xmax]
       else [xmin; ymin; xmax; ymax])) in
  let url :=
    py_replace "{HEIGHT}" (py_str_Z (MapService.tileSize self))
      (py_replace "{WIDTH}" (py_str_Z (MapService.tileSize self))
        (py_replace "{CRS}" (py_str_Z (TileMatrix.CRS (tm1 self)))
          (py_replace "{STYLE}" (style lay)
            (py_replace "{FORMAT}" (format lay)
              (py_replace "{LAY}" (urlKey lay) base))))) in
  MapService.wmsBBox str_float self col row zoom = Ok bbox
  ∧ MapService.buildUrl str_float self lKey col row zoom
    = Ok (TString (py_replace "{BBOX}" bbox url)).
Proof.
  intros Hsvc Hlay Htpl Hbase Hver Hxy Hres xmax ymin bbox url.
  assert (MapService.wmsBBox str_float self col row zoom = Ok bbox) as Hbbox.
  { unfold MapService.wmsBBox. rewrite Hxy, Hres, Htpl. cbn [mbind result_bind].
    rewrite Hver. cbn [mbind result_bind]. subst bbox.
    destruct (String.eqb_spec version "1.3.0") as [Hv | Hv];
      destruct (Z.eqb_spec (TileMatrix.CRS (tm1 self)) 4326) as [Hc | Hc];
      cbn [andb]; case_decide; try reflexivity; tauto. }
  split; [exact Hbbox|].
  unfold MapService.buildUrl. rewrite Hlay, Hsvc. cbn [mbind result_bind].
  change (String.eqb "WMS" "TMS") with false.
  change (String.eqb "WMS" "WMTS") with false.
  change (String.eqb "WMS" "WMS") with true.
  cbn [mbind result_bind]. rewrite Hbase. cbn [mbind result_bind].
  rewrite Hbbox. reflexivity.
Qed.

Lemma buildUrl_WMS_bbox_witness :
  (MapService.wmsBBox show_frac (wms_source "1.3.0" wgs_grid) 1 0 1
   = Ok "0/1,-90/1,90/1,0/1"
   ∧ MapService.buildUrl show_frac (wms_source "1.3.0" wgs_grid) "ortho" 1 0 1
     = Ok (TString "http://example.org/wms?SERVICE=WMS&VERSION=1.3.0&REQUEST=GetMap&LAYERS=ORTHO&CRS=EPSG:4326&BBOX=0/1,-90/1,90/1,0/1&WIDTH=256&HEIGHT=256&FORMAT=image/png&STYLES="))
  ∧ (MapService.wmsBBox show_frac (wms_source "1.1.1" wgs_grid) 1 0 1
     = Ok "-90/1,0/1,0/1,90/1"
     ∧ MapService.buildUrl show_frac (wms_source "1.1.1" wgs_grid) "ortho" 1 0 1
       = Ok (TString "http://example.org/wms?SERVICE=WMS&VERSION=1.1.1&REQUEST=GetMap&LAYERS=ORTHO&CRS=EPSG:4326&BBOX=-90/1,0/1,0/1,90/1&WIDTH=256&HEIGHT=256&FORMAT=image/png&STYLES=")).
Proof.
  split.
  - exact (buildUrl_WMS_bbox show_frac (wms_source "1.3.0" wgs_grid) "ortho" ortho
             (wms_template "1.3.0")
             "http://example.org/wms?SERVICE=WMS&VERSION=1.3.0&REQUEST=GetMap&LAYERS={LAY}&CRS=EPSG:{CRS}&BBOX={BBOX}&WIDTH={WIDTH}&HEIGHT={HEIGHT}&FORMAT=image/{FORMAT}&STYLES={STYLE}"
             "1.3.0" 1 0 1 (-11520 # 128)%Q (11520 # 128)%Q (45 # 128)%Q
             eq_refl eq_refl eq_refl eq_refl eq_refl eq_refl eq_refl).
  - exact (buildUrl_WMS_bbox show_frac (wms_source "1.1.1" wgs_grid) "ortho" ortho
             (wms_template "1.1.1")
             "http://example.org/wms?SERVICE=WMS&VERSION=1.1.1&REQUEST=GetMap&LAYERS={LAY}&CRS=EPSG:{CRS}&BBOX={BBOX}&WIDTH={WIDTH}&HEIGHT={HEIGHT}&FORMAT=image/{FORMAT}&STYLES={STYLE}"
             "1.1.1" 1 0 1 (-11520 # 128)%Q (11520 # 128)%Q (45 # 128)%Q
             eq_refl eq_refl eq_refl eq_refl eq_refl eq_refl eq_refl).
Defined.

(** ** The tile table *)

Lemma key_eqb_eq (k1 k2 : Z * Z * Z) : key_eqb k1 k2 = true ↔ k1 = k2.
Proof.
  destruct k1 as [[z1 c1] r1], k2 as [[z2 c2] r2]. unfold key_eqb.
  rewrite !andb_true_iff, !Z.eqb_eq. split.
  - intros [[-> ->] ->]. reflexivity.
  - intros [= -> -> ->]. auto.
Qed.

Lemma key_eqb_refl (k : Z * Z * Z) : key_eqb k k = true.
Proof. apply key_eqb_eq. reflexivity. Qed.

Lemma key_eqb_neq (k1 k2 : Z * Z * Z) : key_eqb k1 k2 = false ↔ k1 ≠ k2.
Proof.
  rewrite <- key_eqb_eq. destruct (key_eqb k1 k2); split; congruence.
Qed.

(** Under the UNIQUE constraint the SELECT by key finds the row of that
    key. *)
Lemma find_unique (k : Z * Z * Z) (rows : list tile_row) (r : tile_row) :
  unique_keys rows → r ∈ rows → tile_key r = k →
  List.find (fun r' => key_eqb k (tile_key r')) rows = Some r.
Proof.
  unfold unique_keys. intros Hnd Hin Hk.
  induction rows as [|r0 rows IH]; [inversion Hin|].
  rewrite fmap_cons in Hnd. apply NoDup_cons in Hnd as [Hnotin Hnd].
  cbn [List.find].
  apply elem_of_cons in Hin as [<- | Hin].
  - rewrite Hk, key_eqb_refl. reflexivity.
  - destruct (key_eqb k (tile_key r0)) eqn:E.
    + apply key_eqb_eq in E. exfalso. apply Hnotin.
      rewrite <- E, <- Hk. apply list_elem_of_fmap_2. exact Hin.
    + apply IH; assumption.
Qed.

(** What [GeoPackage.getTile] does on a file whose tile table exists. *)
Lemma GeoPackage_getTile_run (clock : list event → Z) (self : GeoPackage_t)
    (x y z : Z) (w : world) (rows : list tile_row) :
  tile_table w (dbPath self) = Some rows →
  let w' := set_trace (trace w ++ [EvGetTile (dbPath self) x y z]) w in
  GeoPackage.getTile clock self x y z w
  = (Ok match List.find (fun r => key_eqb (z, x, y) (tile_key r)) rows with
        | None => None
        | Some r =>
            if GeoPackage.MAX_DAYS <? timedelta_days (clock (trace w')) (t_last_modified r)
            then None else Some (t_tile_data r)
        end, w').
Proof.
  intros Ht w'. unfold tile_table in Ht.
  destruct (files w !! dbPath self) as [d|] eqn:Hd; [|discriminate].
  cbn in Ht.
  unfold GeoPackage.getTile, log, query, GeoPackage.now.
  unfold mbind, M_bind, mret, M_ret. cbn [files set_trace]. rewrite Hd.
  change (default empty_db (Some d)) with d. rewrite Ht. cbn [Sql.fetchone].
  destruct (List.find _ rows) as [r|]; [|reflexivity].
  cbn [trace set_trace]. fold w'.
  destruct (GeoPackage.MAX_DAYS <? _); reflexivity.
Qed.

(** C4: when the tile table holds a row for the key, [GeoPackage.getTile]
    returns its bytes if the whole days elapsed since its timestamp are at
    most 90, and [None] if they are more than 90; the files are left as
    they were, so a stale row stays in the table. *)
Theorem GeoPackage_getTile_freshness (clock : list event → Z)
    (self : GeoPackage_t) (x y z : Z) (w : world)
    (rows : list tile_row) (r : tile_row) :
  tile_table w (dbPath self) = Some rows →
  unique_keys rows → r ∈ rows → tile_key r = (z, x, y) →
  let w' := set_trace (trace w ++ [EvGetTile (dbPath self) x y z]) w in
  let days := timedelta_days (clock (trace w')) (t_last_modified r) in
  (days <= 90 → GeoPackage.getTile clock self x y z w = (Ok (Some (t_tile_data r)), w'))
  ∧ (90 < days → GeoPackage.getTile clock self x y z w = (Ok None, w'))
  ∧ files w' = files w
  ∧ tile_table w' (dbPath self) = Some rows.
Proof.
  intros Ht Hu Hin Hk w' days.
  pose proof (GeoPackage_getTile_run clock self x y z w rows Ht) as Hrun.
  cbn zeta in Hrun. rewrite (find_unique _ _ _ Hu Hin Hk) in Hrun.
  fold w' in Hrun. fold days in Hrun. unfold GeoPackage.MAX_DAYS in Hrun.
  repeat split.
  - intros Hd. rewrite Hrun. destruct (90 <? days) eqn:E; [lia|reflexivity].
  - intros Hd. rewrite Hrun. destruct (90 <? days) eqn:E; [reflexivity|lia].
  - exact Ht.
Qed.

Lemma GeoPackage_getTile_freshness_witness :
  let w' := set_trace [EvGetTile "/cache/SRC_ortho.gpkg" 1 0 1] sample_world in
  GeoPackage.getTile (clock_after 89) sample_cache 1 0 1 sample_world
  = (Ok (Some png), w')
  ∧ GeoPackage.getTile (clock_after 90) sample_cache 1 0 1 sample_world
    = (Ok (Some png), w')
  ∧ GeoPackage.getTile (clock_after 91) sample_cache 1 0 1 sample_world
    = (Ok None, w')
  ∧ tile_table w' "/cache/SRC_ortho.gpkg" = gpkg_tiles sample_db.
Proof.
  pose (r := {| t_id := 1; t_zoom_level := 1; t_tile_column := 1; t_tile_row := 0;
                t_tile_data := png; t_last_modified := 1000 * 1000000 |}).
  assert (tile_table sample_world (dbPath sample_cache) = Some [r]) as Ht
    by (vm_compute; reflexivity).
  assert (unique_keys [r]) as Hu by apply NoDup_singleton.
  assert (r ∈ [r]) as Hin by apply list_elem_of_here.
  assert (tile_key r = (1, 1, 0)) as Hk by reflexivity.
  destruct (GeoPackage_getTile_freshness (clock_after 89) sample_cache 1 0 1
              sample_world [r] r Ht Hu Hin Hk) as (H89 & _ & _ & Hrows).
  destruct (GeoPackage_getTile_freshness (clock_after 90) sample_cache 1 0 1
              sample_world [r] r Ht Hu Hin Hk) as (H90 & _ & _ & _).
  destruct (GeoPackage_getTile_freshness (clock_after 91) sample_cache 1 0 1
              sample_world [r] r Ht Hu Hin Hk) as (_ & H91 & _ & _).
  cbn zeta. split; [|split; [|split]].
  - apply H89. vm_compute. discriminate.
  - apply H90. vm_compute. discriminate.
  - apply H91. vm_compute. reflexivity.
  - exact Hrows.
Defined.

(** [INSERT OR REPLACE] on the tile table: the rows of the other keys, in
    their order, then the new row. *)
Lemma replace_tile_rows (r : tile_row) (rows : list tile_row) :
  unique_keys rows →
  let rows' := List.filter (fun r' => negb (GeoPackage.tile_clash r r')) rows ++ [r] in
  unique_keys rows'
  ∧ rows_of_key (tile_key r) rows' = [r]
  ∧ ∀ k, k ≠ tile_key r → rows_of_key k rows' = rows_of_key k rows.
Proof.
  unfold unique_keys, rows_of_key, GeoPackage.tile_clash. intros Hu. cbn zeta.
  induction rows as [|r0 rows IH].
  - cbn [List.filter app]. rewrite key_eqb_refl.
    split; [apply NoDup_singleton|]. split; [reflexivity|].
    intros k Hk. apply key_eqb_neq in Hk. rewrite Hk. reflexivity.
  - rewrite fmap_cons in Hu. apply NoDup_cons in Hu as [Hnotin Hu].
    destruct (IH Hu) as (IHu & IHk & IHo). clear IH.
    cbn [List.filter].
    destruct (key_eqb (tile_key r) (tile_key r0)) eqn:E; cbn [negb].
    + split; [exact IHu|]. split; [exact IHk|].
      intros k Hk. rewrite (IHo k Hk).
      apply key_eqb_eq in E. rewrite <- E.
      apply key_eqb_neq in Hk. rewrite Hk. reflexivity.
    + cbn [app]. split; [|split].
      * rewrite fmap_cons. apply NoDup_cons. split; [|exact IHu].
        rewrite fmap_app. intros Hin. apply elem_of_app in Hin as [Hin | Hin].
        -- apply Hnotin. apply list_elem_of_fmap in Hin as (r1 & Hr1 & Hin).
           apply list_elem_of_In, filter_In in Hin as [Hin _].
           rewrite Hr1. apply list_elem_of_fmap_2, list_elem_of_In. exact Hin.
        -- cbn in Hin. apply list_elem_of_singleton in Hin.
           apply key_eqb_neq in E. congruence.
      * cbn [List.filter]. rewrite E. exact IHk.
      * intros k Hk. cbn [List.filter]. rewrite (IHo k Hk). reflexivity.
Qed.

(** What one [putTile] does to a file whose tile table exists. *)
Lemma GeoPackage_putTile_run (clock : list event → Z) (self : GeoPackage_t)
    (x y z : Z) (data : bytes) (w : world) (rows : list tile_row) :
  tile_table w (dbPath self) = Some rows →
  unique_keys rows →
  ∃ (w1 : world) (rows1 : list tile_row) (r : tile_row),
    GeoPackage.putTile clock self x y z data w = (Ok (), w1)
    ∧ trace w1 = trace w ++ [EvPutTile (dbPath self) x y z data]
    ∧ caches w1 = caches w ∧ mosaic w1 = mosaic w
    ∧ cptTiles w1 = cptTiles w ∧ running w1 = running w
    ∧ tile_table w1 (dbPath self) = Some rows1
    ∧ unique_keys rows1
    ∧ rows_of_key (z, x, y) rows1 = [r]
    ∧ tile_key r = (z, x, y)
    ∧ t_tile_data r = data
    ∧ t_last_modified r = sqlite_datetime (clock (trace w1))
    ∧ ∀ k, k ≠ (z, x, y) → rows_of_key k rows1 = rows_of_key k rows.
Proof.
  intros Ht Hu. unfold tile_table in Ht.
  destruct (files w !! dbPath self) as [d|] eqn:Hd; [|discriminate].
  cbn in Ht.
  set (w0 := set_trace (trace w ++ [EvPutTile (dbPath self) x y z data]) w).
  set (r := {| t_id := tiles_seq d + 1; t_zoom_level := z; t_tile_column := x;
               t_tile_row := y; t_tile_data := data;
               t_last_modified := sqlite_datetime (clock (trace w0)) |}).
  destruct (replace_tile_rows r rows Hu) as (Hu1 & Hk1 & Ho1). cbn zeta in *.
  set (rows1 := List.filter (fun r' => negb (GeoPackage.tile_clash r r')) rows ++ [r]) in *.
  exists (set_files (<[dbPath self := set_gpkg_tiles rows1 (tiles_seq d + 1) d]> (files w0)) w0),
         rows1, r.
  split; [|repeat split; try assumption].
  - unfold GeoPackage.putTile, log, exec, GeoPackage.now.
    unfold mbind, M_bind, mret, M_ret. cbn [files set_trace].
    rewrite Hd. change (default empty_db (Some d)) with d.
    rewrite Ht. reflexivity.
  - unfold tile_table. cbn [files set_files]. rewrite lookup_insert_eq. reflexivity.
Qed.

(** C7: on a tile table with at most one row per (zoom, column, row),
    every [putTile] succeeds and keeps it so; after two calls with the same
    key there is exactly one row for the key, holding the bytes of the
    second call and the time of the second call. *)
Theorem putTile_upsert (clock : list event → Z) (self : GeoPackage_t)
    (x y z : Z) (data1 data2 : bytes) (w : world) (rows : list tile_row) :
  tile_table w (dbPath self) = Some rows →
  unique_keys rows →
  ∃ (w1 w2 : world) (rows1 rows2 : list tile_row) (r : tile_row),
    GeoPackage.putTile clock self x y z data1 w = (Ok (), w1)
    ∧ tile_table w1 (dbPath self) = Some rows1
    ∧ unique_keys rows1
    ∧ GeoPackage.putTile clock self x y z data2 w1 = (Ok (), w2)
    ∧ tile_table w2 (dbPath self) = Some rows2
    ∧ unique_keys rows2
    ∧ rows_of_key (z, x, y) rows2 = [r]
    ∧ t_tile_data r = data2
    ∧ t_last_modified r
      = sqlite_datetime (clock (trace w1 ++ [EvPutTile (dbPath self) x y z data2])).
Proof.
  intros Ht Hu.
  destruct (GeoPackage_putTile_run clock self x y z data1 w rows Ht Hu)
    as (w1 & rows1 & r1 & Hput1 & _ & _ & _ & _ & _ & Ht1 & Hu1 & _).
  destruct (GeoPackage_putTile_run clock self x y z data2 w1 rows1 Ht1 Hu1)
    as (w2 & rows2 & r2 & Hput2 & Htr2 & _ & _ & _ & _ & Ht2 & Hu2 & Hk2 & _ & Hd2 & Hs2 & _).
  exists w1, w2, rows1, rows2, r2.
  rewrite <- Htr2. repeat split; assumption.
Qed.

Lemma putTile_upsert_witness :
  ∃ (w1 w2 : world) (rows1 rows2 : list tile_row) (r : tile_row),
    GeoPackage.putTile (clock_after 0) sample_cache 1 0 1 jpg sample_world = (Ok (), w1)
    ∧ tile_table w1 "/cache/SRC_ortho.gpkg" = Some rows1
    ∧ unique_keys rows1
    ∧ GeoPackage.putTile (clock_after 0) sample_cache 1 0 1 png w1 = (Ok (), w2)
    ∧ tile_table w2 "/cache/SRC_ortho.gpkg" = Some rows2
    ∧ unique_keys rows2
    ∧ rows_of_key (1, 1, 0) rows2 = [r]
    ∧ t_tile_data r = png
    ∧ t_last_modified r
      = sqlite_datetime
          (clock_after 0 (trace w1 ++ [EvPutTile "/cache/SRC_ortho.gpkg" 1 0 1 png])).
Proof.
  apply (putTile_upsert (clock_after 0) sample_cache 1 0 1 jpg png sample_world
           [ {| t_id := 1; t_zoom_level := 1; t_tile_column := 1; t_tile_row := 0;
                t_tile_data := png; t_last_modified := 1000 * 1000000 |} ]).
  - vm_compute. reflexivity.
  - apply NoDup_singleton.
Defined.

(** ** Opening a cache *)

Lemma bind_ok {A B} (m : M A) (f : A → M B) (w w' : world) (a : A) :
  m w = (Ok a, w') → (m ≫= f) w = f a w'.
Proof. intros H. unfold mbind, M_bind. rewrite H. reflexivity. Qed.

Lemma bind_raise {A B} (m : M A) (f : A → M B) (w w' : world) (e : exn) :
  m w = (Raise e, w') → (m ≫= f) w = (Raise e, w').
Proof. intros H. unfold mbind, M_bind. rewrite H. reflexivity. Qed.

Lemma exec_ok (p : string) (f : db → result db) (w : world) (d d' : db) :
  files w !! p = Some d → f d = Ok d' →
  exec p f w = (Ok (), set_files (<[p := d']> (files w)) w).
Proof. intros Hd Hf. unfold exec. rewrite Hd. cbn. rewrite Hf. reflexivity. Qed.

(** The loop of [insertTileMatrixSet] over levels not yet in the table
    appends one row per resolution. *)
Lemma insertLevels_rows (self : GeoPackage_t) (rs : list Q) :
  gp_tileSize self ≠ 0 →
  (∀ res, res ∈ rs → ¬ (res == 0)%Q) →
  ∀ (level : Z) (d : db) (rows0 : list tm_row),
    gpkg_tile_matrix d = Some rows0 →
    (∀ r, r ∈ rows0 → m_zoom_level r < level) →
    ∃ rows : list tm_row,
      GeoPackage.insertLevels self level rs d
      = Ok (set_gpkg_tile_matrix (rows0 ++ rows) d)
      ∧ length rows = length rs
      ∧ ∀ (k : nat) (res : Q), rs !! k = Some res →
          rows !! k = Some (tile_matrix_row self (level + Z.of_nat k) res).
Proof.
  intros Hts. induction rs as [|res rs IH]; intros Hrs level d rows0 Hd Hlt.
  - exists []. rewrite app_nil_r. cbn [GeoPackage.insertLevels].
    split; [|split; [reflexivity|intros k res Hk; rewrite lookup_nil in Hk; discriminate]].
    f_equal. destruct d. cbn in Hd. subst. reflexivity.
  - assert (¬ (inject_Z (gp_tileSize self) * res == 0)%Q) as Hsize.
    { apply tile_extent_nonzero; [exact Hts|]. apply Hrs, list_elem_of_here. }
    cbn [GeoPackage.insertLevels]. unfold GeoPackage.level_row.
    rewrite !py_div_ok by exact Hsize. cbn [mbind result_bind].
    rewrite Hd. cbn [Sql.insert_or_replace].
    change (Build_tm_row _ _ _ _ _ _ _ _) with (tile_matrix_row self level res).
    set (r := tile_matrix_row self level res).
    assert (List.filter (fun r' => negb (GeoPackage.tm_clash r r')) rows0 = rows0) as ->.
    { clear -Hlt. induction rows0 as [|r0 rows0 IH0]; [reflexivity|].
      cbn [List.filter]. unfold GeoPackage.tm_clash at 1.
      assert ((m_zoom_level r =? m_zoom_level r0) = false) as ->.
      { apply Z.eqb_neq. specialize (Hlt r0 (list_elem_of_here _ _)). cbn. lia. }
      rewrite andb_false_r. cbn [negb]. f_equal. apply IH0.
      intros r1 Hr1. apply Hlt. apply list_elem_of_further. exact Hr1. }
    destruct (IH (fun res' H => Hrs res' (list_elem_of_further _ _ _ H))
                 (level + 1) (set_gpkg_tile_matrix (rows0 ++ [r]) d) (rows0 ++ [r]))
      as (rows & Hrun & Hlen & Hrows).
    { reflexivity. }
    { intros r1 Hr1. apply elem_of_app in Hr1 as [Hr1 | Hr1].
      - specialize (Hlt r1 Hr1). lia.
      - apply list_elem_of_singleton in Hr1. subst r1. cbn. lia. }
    exists (r :: rows). cbn [mbind result_bind]. rewrite Hrun. split; [|split].
    + rewrite <- app_assoc. reflexivity.
    + cbn [length]. rewrite Hlen. reflexivity.
    + intros [|k] res' Hk.
      * cbn in Hk. injection Hk as <-.
        change ((r :: rows) !! 0%nat) with (Some r).
        rewrite Z.add_0_r. reflexivity.
      * cbn in Hk. change ((r :: rows) !! S k) with (rows !! k).
        rewrite (Hrows k res' Hk). do 2 f_equal. lia.
Qed.

Lemma exec_twice (p : string) (d1 d2 : db) (w : world) :
  set_files (<[p := d2]> (files (set_files (<[p := d1]> (files w)) w)))
            (set_files (<[p := d1]> (files w)) w)
  = set_files (<[p := d2]> (files w)) w.
Proof. unfold set_files. cbn. rewrite insert_insert_eq. reflexivity. Qed.

(** [create] on a file that has none of the five tables. *)
Lemma create_ok (self : GeoPackage_t) (w : world) (id0 seq0 : Z) :
  files w !! dbPath self
  = Some {| application_id := id0; gpkg_contents := None;
            gpkg_spatial_ref_sys := None; gpkg_tile_matrix_set := None;
            gpkg_tile_matrix := None; gpkg_tiles := None; tiles_seq := seq0 |} →
  GeoPackage.create self w
  = (Ok (), set_files (<[dbPath self :=
                          {| application_id := GP10; gpkg_contents := Some [];
                             gpkg_spatial_ref_sys := Some [];
                             gpkg_tile_matrix_set := Some [];
                             gpkg_tile_matrix := Some []; gpkg_tiles := Some [];
                             tiles_seq := seq0 |}]> (files w)) w).
Proof.
  intros Hd. unfold GeoPackage.create.
  erewrite bind_ok by (eapply exec_ok; [exact Hd | reflexivity]).
  do 4 (erewrite bind_ok
          by (eapply exec_ok; [apply lookup_insert_eq | reflexivity]);
        rewrite exec_twice).
  erewrite exec_ok by (first [apply lookup_insert_eq | reflexivity]).
  rewrite exec_twice. reflexivity.
Qed.

(** [create] on a file that already has one of the tables. *)
Lemma create_raises (self : GeoPackage_t) (w : world) (d : db) :
  files w !! dbPath self = Some d →
  is_Some (gpkg_contents d) ∨ is_Some (gpkg_spatial_ref_sys d)
  ∨ is_Some (gpkg_tile_matrix_set d) ∨ is_Some (gpkg_tile_matrix d)
  ∨ is_Some (gpkg_tiles d) →
  (GeoPackage.create self w).1 = Raise OperationalError.
Proof.
  intros Hd Hsome. unfold GeoPackage.create.
  erewrite bind_ok by (eapply exec_ok; [exact Hd | reflexivity]).
  destruct d as [id0 c s ms m t seq0]. cbn in Hsome.
  unfold mbind, M_bind, exec. cbn [files set_files].
  rewrite lookup_insert_eq. cbn.
  destruct c; [reflexivity|]. cbn. rewrite lookup_insert_eq. cbn.
  destruct s; [reflexivity|]. cbn. rewrite lookup_insert_eq. cbn.
  destruct ms; [reflexivity|]. cbn. rewrite lookup_insert_eq. cbn.
  destruct m; [reflexivity|]. cbn. rewrite lookup_insert_eq. cbn.
  destruct t; [reflexivity|].
  destruct Hsome as [[? H] | [[? H] | [[? H] | [[? H] | [? H]]]]]; discriminate.
Qed.

(** Where re-initialisation works: constructing a [GeoPackage] on a path
    whose file exists and holds none of the five tables (so that it fails
    the validity check), for a tile matrix with a non-zero tile size and
    non-zero resolutions, raises no error and initialises the container:
    the marker, the five tables, the contents row, the
    spatial-reference-system record, the tile-matrix-set record and one
    tile-matrix record per level. *)
Lemma GeoPackage_init_on_bare_file (clock : list event → Z)
    (path_stem : string → string) (path : string) (tm : TileMatrix.t)
    (w : world) (d0 : db) (rs : list Q) :
  files w !! path = Some d0 →
  gpkg_contents d0 = None →
  gpkg_spatial_ref_sys d0 = None →
  gpkg_tile_matrix_set d0 = None →
  gpkg_tile_matrix d0 = None →
  gpkg_tiles d0 = None →
  TileMatrix.getResList tm = Ok rs →
  TileMatrix.tileSize tm ≠ 0 →
  (∀ res, res ∈ rs → ¬ (res == 0)%Q) →
  ∃ (self : GeoPackage_t) (w' : world) (d' : db) (levels : list tm_row),
    GeoPackage.init clock path_stem path tm w = (Ok self, w')
    ∧ GeoPackage.isGPKG self w = (Ok false, w)
    ∧ GeoPackage.isGPKG self w' = (Ok true, w')
    ∧ dbPath self = path
    ∧ w' = set_files (<[path := d']> (files w)) w
    ∧ application_id d' = GP10
    ∧ gpkg_contents d'
      = Some [ {| c_table_name := "gpkg_tiles"; c_data_type := "tiles";
                  c_identifier := path_stem path;
                  c_description := "Created with BlenderGIS";
                  c_last_change := clock (trace w);
                  c_min_x := TileMatrix.xmin tm; c_min_y := TileMatrix.ymin tm;
                  c_max_x := TileMatrix.xmax tm; c_max_y := TileMatrix.ymax tm;
                  c_srs_id := TileMatrix.CRS tm |} ]
    ∧ gpkg_spatial_ref_sys d'
      = Some [ {| s_srs_name := py_str_Z (TileMatrix.CRS tm);
                  s_srs_id := TileMatrix.CRS tm; s_organization := "EPSG";
                  s_organization_coordsys_id := TileMatrix.CRS tm;
                  s_definition := ""; s_description := None |} ]
    ∧ gpkg_tile_matrix_set d'
      = Some [ {| ms_table_name := "gpkg_tiles"; ms_srs_id := TileMatrix.CRS tm;
                  ms_min_x := TileMatrix.xmin tm; ms_min_y := TileMatrix.ymin tm;
                  ms_max_x := TileMatrix.xmax tm; ms_max_y := TileMatrix.ymax tm |} ]
    ∧ gpkg_tile_matrix d' = Some levels
    ∧ length levels = length rs
    ∧ (∀ (k : nat) (res : Q), rs !! k = Some res →
         levels !! k = Some (tile_matrix_row self (Z.of_nat k) res))
    ∧ gpkg_tiles d' = Some [].
Proof.
  intros Hd Hc Hs Hms Hm Ht Hrs Hts Hnz.
  destruct d0 as [id0 c s ms m t seq0]. cbn in Hc, Hs, Hms, Hm, Ht. subst.
  set (self := {| dbPath := path; name := path_stem path; crs := TileMatrix.CRS tm;
                  gp_tileSize := TileMatrix.tileSize tm;
                  gp_xmin := TileMatrix.xmin tm; gp_ymin := TileMatrix.ymin tm;
                  gp_xmax := TileMatrix.xmax tm; gp_ymax := TileMatrix.ymax tm;
                  gp_resolutions := rs |}).
  set (d1 :=
    {| application_id := GP10;
       gpkg_contents :=
         Some [ {| c_table_name := "gpkg_tiles"; c_data_type := "tiles";
                   c_identifier := path_stem path;
                   c_description := "Created with BlenderGIS";
                   c_last_change := clock (trace w);
                   c_min_x := TileMatrix.xmin tm; c_min_y := TileMatrix.ymin tm;
                   c_max_x := TileMatrix.xmax tm; c_max_y := TileMatrix.ymax tm;
                   c_srs_id := TileMatrix.CRS tm |} ];
       gpkg_spatial_ref_sys :=
         Some [ {| s_srs_name := py_str_Z (TileMatrix.CRS tm);
                   s_srs_id := TileMatrix.CRS tm; s_organization := "EPSG";
                   s_organization_coordsys_id := TileMatrix.CRS tm;
                   s_definition := ""; s_description := None |} ];
       gpkg_tile_matrix_set :=
         Some [ {| ms_table_name := "gpkg_tiles"; ms_srs_id := TileMatrix.CRS tm;
                   ms_min_x := TileMatrix.xmin tm; ms_min_y := TileMatrix.ymin tm;
                   ms_max_x := TileMatrix.xmax tm; ms_max_y := TileMatrix.ymax tm |} ];
       gpkg_tile_matrix := Some []; gpkg_tiles := Some [];
       tiles_seq := seq0 |}).
  destruct (insertLevels_rows self rs Hts Hnz 0 d1 [] eq_refl) as (levels & Hrun & Hlen & Hrows).
  { intros r Hr. inversion Hr. }
  exists self, (set_files (<[path := set_gpkg_tile_matrix levels d1]> (files w)) w),
         (set_gpkg_tile_matrix levels d1), levels.
  assert (GeoPackage.isGPKG self w = (Ok false, w)) as Hinvalid.
  { unfold GeoPackage.isGPKG. cbn [dbPath self]. rewrite Hd. cbn.
    destruct (id0 =? GP10); reflexivity. }
  split; [|split; [exact Hinvalid|]].
  - unfold GeoPackage.init.
    erewrite bind_ok by (unfold lift; rewrite Hrs; reflexivity).
    fold self. erewrite bind_ok by exact Hinvalid. cbn [negb].
    erewrite bind_ok by (eapply create_ok; exact Hd).
    unfold GeoPackage.insertMetadata, GeoPackage.now.
    erewrite bind_ok.
    2:{ erewrite bind_ok by reflexivity.
        eapply exec_ok; [apply lookup_insert_eq | reflexivity]. }
    rewrite exec_twice.
    erewrite bind_ok
      by (eapply exec_ok; [apply lookup_insert_eq | reflexivity]).
    rewrite exec_twice.
    erewrite bind_ok.
    2:{ eapply exec_ok; [apply lookup_insert_eq |].
        cbn [Sql.insert_or_replace gpkg_tile_matrix_set mbind result_bind
             List.filter app].
        exact Hrun. }
    rewrite exec_twice. reflexivity.
  - repeat split; try reflexivity; try assumption.
    unfold GeoPackage.isGPKG. cbn [dbPath self files set_files].
    rewrite lookup_insert_eq. reflexivity.
Qed.

Lemma GeoPackage_init_on_bare_file_example :
  ∃ (self : GeoPackage_t) (w' : world),
    GeoPackage.init (clock_after 0) stem_of "/cache/SRC_ortho.gpkg" nw_grid
                    (world_with empty_db) = (Ok self, w')
    ∧ GeoPackage.isGPKG self (world_with empty_db) = (Ok false, world_with empty_db)
    ∧ GeoPackage.isGPKG self w' = (Ok true, w').
Proof.
  destruct (GeoPackage_init_on_bare_file (clock_after 0) stem_of
              "/cache/SRC_ortho.gpkg" nw_grid (world_with empty_db) empty_db
              [1; 1 # 2]%Q)
    as (self & w' & d' & levels & Hinit & Hinvalid & Hvalid & _).
  - vm_compute. reflexivity.
  - reflexivity.
  - reflexivity.
  - reflexivity.
  - reflexivity.
  - reflexivity.
  - reflexivity.
  - discriminate.
  - intros res Hin E.
    apply elem_of_cons in Hin as [-> | Hin]; [discriminate E|].
    apply list_elem_of_singleton in Hin as ->. discriminate E.
  - exists self, w'. repeat split; assumption.
Defined.

(** The validity check on a file that exists. *)
Lemma isGPKG_invalid (self : GeoPackage_t) (w : world) (d : db) :
  files w !! dbPath self = Some d →
  application_id d ≠ GP10 ∨ gpkg_contents d = None
  ∨ gpkg_spatial_ref_sys d = None ∨ gpkg_tile_matrix_set d = None
  ∨ gpkg_tile_matrix d = None ∨ gpkg_tiles d = None →
  GeoPackage.isGPKG self w = (Ok false, w).
Proof.
  intros Hd Hbad. unfold GeoPackage.isGPKG. rewrite Hd.
  destruct (Z.eqb_spec (application_id d) GP10) as [Hid | Hid]; cbn [negb];
    [|reflexivity].
  destruct d as [id0 [c|] [s|] [ms|] [m|] [t|] seq0]; try reflexivity.
  cbn in Hbad, Hid.
  destruct Hbad as [? | [? | [? | [? | [? | ?]]]]]; congruence.
Qed.

(** C3 (the code at the failing inputs): when the file exists, fails the
    validity check (marker other than 1196437808, or one of the five
    tables missing) and already holds one of the five tables, the
    constructor does not re-initialise the container: it raises the error
    of [CREATE TABLE] to the caller. *)
Theorem GeoPackage_init_existing_tables_raises (clock : list event → Z)
    (path_stem : string → string) (path : string) (tm : TileMatrix.t)
    (w : world) (d : db) (rs : list Q) :
  files w !! path = Some d →
  TileMatrix.getResList tm = Ok rs →
  application_id d ≠ GP10 ∨ gpkg_contents d = None
  ∨ gpkg_spatial_ref_sys d = None ∨ gpkg_tile_matrix_set d = None
  ∨ gpkg_tile_matrix d = None ∨ gpkg_tiles d = None →
  is_Some (gpkg_contents d) ∨ is_Some (gpkg_spatial_ref_sys d)
  ∨ is_Some (gpkg_tile_matrix_set d) ∨ is_Some (gpkg_tile_matrix d)
  ∨ is_Some (gpkg_tiles d) →
  (GeoPackage.init clock path_stem path tm w).1 = Raise OperationalError.
Proof.
  intros Hd Hrs Hbad Hsome. unfold GeoPackage.init.
  erewrite bind_ok by (unfold lift; rewrite Hrs; reflexivity).
  set (self := Build_GeoPackage_t _ _ _ _ _ _ _ _ _).
  erewrite bind_ok by (apply (isGPKG_invalid self w d); assumption).
  cbn [negb].
  pose proof (create_raises self w d Hd Hsome) as Hraise.
  unfold mbind at 1, M_bind at 1.
  destruct (GeoPackage.create self w) as [[[]|e] w2]; cbn [fst] in Hraise.
  - discriminate Hraise.
  - cbn [fst]. injection Hraise as ->. reflexivity.
Qed.

Lemma GeoPackage_init_existing_tables_raises_witness :
  application_id foreign_db ≠ GP10
  ∧ (GeoPackage.init (clock_after 0) stem_of "/cache/SRC_ortho.gpkg" nw_grid
                     (world_with foreign_db)).1 = Raise OperationalError
  ∧ gpkg_tiles truncated_db = None
  ∧ (GeoPackage.init (clock_after 0) stem_of "/cache/SRC_ortho.gpkg" nw_grid
                     (world_with truncated_db)).1 = Raise OperationalError.
Proof.
  split; [discriminate|]. split; [|split; [reflexivity|]].
  - apply (GeoPackage_init_existing_tables_raises (clock_after 0) stem_of
             "/cache/SRC_ortho.gpkg" nw_grid (world_with foreign_db) foreign_db
             [1; 1 # 2]%Q).
    + vm_compute. reflexivity.
    + reflexivity.
    + left. discriminate.
    + left. exists []. reflexivity.
  - apply (GeoPackage_init_existing_tables_raises (clock_after 0) stem_of
             "/cache/SRC_ortho.gpkg" nw_grid (world_with truncated_db) truncated_db
             [1; 1 # 2]%Q).
    + vm_compute. reflexivity.
    + reflexivity.
    + do 5 right. reflexivity.
    + left. exists []. reflexivity.
Defined.

(** ** What opening a cache leaves alone *)

Lemma only_touches_ret {A} (p : string) (a : A) : only_touches p (mret a : M A).
Proof. intros w. cbn. auto 10. Qed.

Lemma only_touches_lift {A} (p : string) (r : result A) : only_touches p (lift r).
Proof. intros w. cbn. auto 10. Qed.

Lemma only_touches_bind {A B} (p : string) (m : M A) (f : A → M B) :
  only_touches p m → (∀ a, only_touches p (f a)) → only_touches p (m ≫= f).
Proof.
  intros Hm Hf w. unfold mbind, M_bind.
  specialize (Hm w). destruct (m w) as [[a|e] w1]; cbn [snd] in *.
  - specialize (Hf a w1).
    destruct Hm as (Hm1 & Hm2 & Hm3 & Hm4 & Hm5 & Hm), Hf as (Hf1 & Hf2 & Hf3 & Hf4 & Hf5 & Hf).
    repeat split; try congruence.
    intros q Hq. rewrite (Hf q Hq). apply Hm, Hq.
  - exact Hm.
Qed.

Lemma only_touches_exec (p : string) (f : db → result db) : only_touches p (exec p f).
Proof.
  intros w. unfold exec. destruct (f _) as [d'|e]; cbn; [|auto 10].
  repeat split; try reflexivity.
  intros q Hq. apply lookup_insert_ne. congruence.
Qed.

Lemma only_touches_now (clock : list event → Z) (p : string) :
  only_touches p (GeoPackage.now clock).
Proof. intros w. cbn. auto 10. Qed.

Lemma only_touches_isGPKG (self : GeoPackage_t) :
  only_touches (dbPath self) (GeoPackage.isGPKG self).
Proof.
  intros w. unfold GeoPackage.isGPKG.
  destruct (files w !! dbPath self) as [d|]; [|cbn; auto 10].
  destruct (negb _); cbn; auto 10.
Qed.

Lemma only_touches_init (clock : list event → Z) (path_stem : string → string)
    (path : string) (tm : TileMatrix.t) :
  only_touches path (GeoPackage.init clock path_stem path tm).
Proof.
  unfold GeoPackage.init.
  apply only_touches_bind; [apply only_touches_lift|]. intros rs.
  apply only_touches_bind; [apply only_touches_isGPKG|]. intros valid.
  destruct valid; cbn [negb]; [apply only_touches_ret|].
  repeat first
    [ apply only_touches_bind; [|intros ?]
    | apply (only_touches_exec path)
    | apply only_touches_now
    | apply only_touches_ret ].
Qed.

(** A construction that succeeds keeps every tile table that was there. *)
Lemma init_keeps_tile_tables (clock : list event → Z) (path_stem : string → string)
    (path : string) (tm : TileMatrix.t) (w w1 : world) (self : GeoPackage_t) :
  GeoPackage.init clock path_stem path tm w = (Ok self, w1) →
  ∀ p rows, tile_table w p = Some rows → tile_table w1 p = Some rows.
Proof.
  intros Hinit p rows Hrows.
  destruct (decide (p = path)) as [-> | Hp].
  - revert Hinit. unfold GeoPackage.init, lift.
    unfold mbind at 1, M_bind at 1.
    destruct (TileMatrix.getResList tm) as [rs|e]; [|discriminate].
    set (self0 := Build_GeoPackage_t _ _ _ _ _ _ _ _ _).
    unfold mbind at 1, M_bind at 1.
    assert (∃ valid, GeoPackage.isGPKG self0 w = (Ok valid, w)) as [valid Hvalid].
    { unfold GeoPackage.isGPKG. destruct (files w !! dbPath self0); [|eauto].
      destruct (negb _); eauto. }
    rewrite Hvalid. destruct valid; cbn [negb].
    + intros [= <- <-]. exact Hrows.
    + unfold tile_table in Hrows.
      destruct (files w !! path) as [d|] eqn:Hd; [|discriminate]. cbn in Hrows.
      pose proof (create_raises self0 w d Hd) as Hraise.
      unfold mbind at 1, M_bind at 1.
      destruct (GeoPackage.create self0 w) as [[[]|e] w2]; cbn [fst] in Hraise.
      * discriminate Hraise. do 4 right. eauto.
      * discriminate.
  - destruct (only_touches_init clock path_stem path tm w) as (_ & _ & _ & _ & _ & Hfiles).
    rewrite Hinit in Hfiles. cbn [snd] in Hfiles.
    unfold tile_table. rewrite (Hfiles p Hp). exact Hrows.
Qed.

(** [getCache] makes none of the traced calls, leaves the mosaic and the
    counter alone and keeps every tile table; when the layer's cache is
    already open it changes nothing at all. *)
Lemma getCache_frame (clock : list event → Z) (path_stem : string → string)
    (self : MapService_t) (lKey : string) (w w1 : world) (cache : GeoPackage_t) :
  MapService.getCache clock path_stem self lKey w = (Ok cache, w1) →
  trace w1 = trace w
  ∧ mosaic w1 = mosaic w
  ∧ cptTiles w1 = cptTiles w
  ∧ running w1 = running w
  ∧ (∀ p rows, tile_table w p = Some rows → tile_table w1 p = Some rows)
  ∧ (is_Some (caches w !! lKey) → w1 = w).
Proof.
  unfold MapService.getCache, get_cache, put_cache.
  unfold mbind at 1, M_bind at 1.
  destruct (caches w !! lKey) as [c|] eqn:Hc.
  - intros [= <- <-]. auto 10.
  - set (path := cacheFolder self +:+ _).
    unfold mbind at 1, M_bind at 1.
    pose proof (only_touches_init clock path_stem path (tm2 self) w) as Hframe.
    pose proof (init_keeps_tile_tables clock path_stem path (tm2 self) w) as Hkeep.
    destruct (GeoPackage.init clock path_stem path (tm2 self) w) as [[c|e] w2];
      [|discriminate].
    cbn [snd] in Hframe. destruct Hframe as (Ht & Hm & Hn & Hr & _ & _).
    cbn. intros [= <- <-]. cbn.
    repeat split; try assumption.
    + intros p rows Hrows. exact (Hkeep w2 c eq_refl p rows Hrows).
    + intros [? [=]].
Qed.

(** ** The guard of [getTile] *)

Lemma Qlt_bool_iff (a b : Q) : Qlt_bool a b = true ↔ (a < b)%Q.
Proof.
  unfold Qlt_bool. rewrite negb_true_iff. split.
  - intros H. apply Qnot_le_lt. intros Hle.
    apply Qle_bool_iff in Hle. congruence.
  - intros H. destruct (Qle_bool b a) eqn:E; [|reflexivity].
    apply Qle_bool_iff in E. exfalso. exact (Qlt_not_le _ _ H E).
Qed.

Lemma bbox_guard (tm : TileMatrix.t) (x y : Q) :
  negb (Qle_bool (TileMatrix.xmin tm) x && Qlt_bool x (TileMatrix.xmax tm))
  || negb (Qlt_bool (TileMatrix.ymin tm) y && Qle_bool y (TileMatrix.ymax tm))
  = false
  ↔ in_bbox tm x y.
Proof.
  unfold in_bbox.
  rewrite orb_false_iff, !negb_false_iff, !andb_true_iff,
    !Qlt_bool_iff, !Qle_bool_iff.
  tauto.
Qed.



(** ** Resolving a tile *)

(** [getTile] past its guard, on a cache that has nothing usable for the
    tile: the request is made, and what follows depends on the answer. *)
Lemma getTile_miss_run (str_float : Q → string) (clock : list event → Z)
    (path_stem : string → string) (urlopen : list event → string → option bytes)
    (imghdr_what : bytes → option string)
    (self : MapService_t) (lKey : string) (col row zoom : Z)
    (w w1 : world) (cache : GeoPackage_t) (x y : Q)
    (rows : list tile_row) (data0 : option bytes) (u : string) :
  MapService.getCache clock path_stem self lKey w = (Ok cache, w1) →
  TileMatrix.getTileCoords (tm2 self) col row zoom = Ok (x, y) →
  0 <= col → 0 <= row → in_bbox (tm2 self) x y →
  tile_table w1 (dbPath cache) = Some rows →
  (GeoPackage.getTile clock cache col row zoom w1).1 = Ok data0 →
  MapService.sniffed imghdr_what data0 = None →
  MapService.buildUrl str_float self lKey col row zoom = Ok (TString u) →
  let tr := trace w1 ++ [EvGetTile (dbPath cache) col row zoom] in
  let w2 := set_trace (tr ++ [EvRequest u]) w1 in
  MapService.getTile str_float clock path_stem urlopen imghdr_what
                     self lKey col row zoom w
  = match urlopen tr u with
    | None => (Ok None, w2)
    | Some d =>
        match imghdr_what d with
        | None => (Ok None, w2)
        | Some _ =>
            (GeoPackage.putTile clock cache col row (Self.zoom self) d;;
             mret (Some d)) w2
        end
    end.
Proof.
  intros Hcache Hxy Hcol Hrow Hbox Ht Hget Hmiss Hurl tr w2.
  unfold MapService.getTile.
  erewrite bind_ok by exact Hcache.
  erewrite bind_ok by (unfold lift; rewrite Hxy; reflexivity).
  assert ((row <? 0) || (col <? 0) = false) as ->.
  { apply orb_false_iff. split; apply Z.ltb_ge; assumption. }
  apply bbox_guard in Hbox. rewrite Hbox.
  pose proof (GeoPackage_getTile_run clock cache col row zoom w1 rows Ht) as Hrun.
  cbn zeta in Hrun.
  destruct (GeoPackage.getTile clock cache col row zoom w1) as [v w'] eqn:Hlookup.
  cbn [fst] in Hget. subst v.
  assert (w' = set_trace (trace w1 ++ [EvGetTile (dbPath cache) col row zoom]) w1)
    as -> by congruence.
  clear Hrun.
  erewrite bind_ok by exact Hlookup.
  rewrite Hmiss.
  erewrite bind_ok by (unfold lift; rewrite Hurl; reflexivity).
  unfold MapService.download, MapService.request.
  unfold mbind at 1, M_bind at 1. cbn [trace set_trace].
  fold tr.
  destruct (urlopen tr u) as [d|]; [|reflexivity].
  destruct (imghdr_what d); reflexivity.
Qed.

(** C9: when the cache has nothing usable for [(zoom, col, row)], the
    download succeeds and the bytes are recognised as an image,
    [MapService.getTile] looks the tile up under [zoom] but stores it under
    [Self.zoom self]: the calls made are the lookup with [zoom], the
    request, and [putTile] with [Self.zoom self]; the table then has
    exactly one row for [(Self.zoom self, col, row)], holding the bytes,
    and the rows of every other key are as before.  The key stored is the
    key looked up exactly when [zoom] is [Self.zoom self]. *)
Theorem getTile_inserts_under_self_zoom (str_float : Q → string)
    (clock : list event → Z) (path_stem : string → string)
    (urlopen : list event → string → option bytes)
    (imghdr_what : bytes → option string)
    (self : MapService_t) (lKey : string) (col row zoom : Z)
    (w w1 : world) (cache : GeoPackage_t) (x y : Q)
    (rows : list tile_row) (data0 : option bytes) (u : string)
    (d : bytes) (fmt : string) :
  MapService.getCache clock path_stem self lKey w = (Ok cache, w1) →
  TileMatrix.getTileCoords (tm2 self) col row zoom = Ok (x, y) →
  0 <= col → 0 <= row → in_bbox (tm2 self) x y →
  tile_table w1 (dbPath cache) = Some rows →
  unique_keys rows →
  (GeoPackage.getTile clock cache col row zoom w1).1 = Ok data0 →
  MapService.sniffed imghdr_what data0 = None →
  MapService.buildUrl str_float self lKey col row zoom = Ok (TString u) →
  urlopen (trace w1 ++ [EvGetTile (dbPath cache) col row zoom]) u = Some d →
  imghdr_what d = Some fmt →
  ∃ (w3 : world) (rows3 : list tile_row) (r : tile_row),
    MapService.getTile str_float clock path_stem urlopen imghdr_what
                       self lKey col row zoom w = (Ok (Some d), w3)
    ∧ trace w3
      = trace w ++ [EvGetTile (dbPath cache) col row zoom;
                    EvRequest u;
                    EvPutTile (dbPath cache) col row (Self.zoom self) d]
    ∧ tile_table w3 (dbPath cache) = Some rows3
    ∧ rows_of_key (Self.zoom self, col, row) rows3 = [r]
    ∧ t_tile_data r = d
    ∧ (∀ k, k ≠ (Self.zoom self, col, row) → rows_of_key k rows3 = rows_of_key k rows)
    ∧ ((Self.zoom self, col, row) = (zoom, col, row) ↔ zoom = Self.zoom self).
Proof.
  intros Hcache Hxy Hcol Hrow Hbox Ht Hu Hget Hmiss Hurl Hnet Himg.
  pose proof (getTile_miss_run str_float clock path_stem urlopen imghdr_what
                self lKey col row zoom w w1 cache x y rows data0 u
                Hcache Hxy Hcol Hrow Hbox Ht Hget Hmiss Hurl) as Hrun.
  cbn zeta in Hrun. rewrite Hnet, Himg in Hrun.
  destruct (getCache_frame _ _ _ _ _ _ _ Hcache) as (Htr & _).
  set (w2 := set_trace ((trace w1 ++ [EvGetTile (dbPath cache) col row zoom])
                        ++ [EvRequest u]) w1) in *.
  destruct (GeoPackage_putTile_run clock cache col row (Self.zoom self) d w2 rows Ht Hu)
    as (w3 & rows3 & r & Hput & Htr3 & _ & _ & _ & _ & Ht3 & _ & Hk3 & _ & Hd3 & _ & Ho3).
  exists w3, rows3, r.
  split; [|split; [|split; [|split; [|split; [|split]]]]]; try assumption.
  - rewrite Hrun. erewrite bind_ok by exact Hput. reflexivity.
  - rewrite Htr3. subst w2. cbn [trace set_trace]. rewrite Htr, <- !app_assoc.
    reflexivity.
  - split; [intros [= ->]; reflexivity | intros ->; reflexivity].
Qed.

Lemma getTile_inserts_under_self_zoom_witness :
  ∃ (w3 : world) (rows3 : list tile_row),
    MapService.getTile show_frac (clock_after 0) stem_of net_jpg sniff
                       sample_service_zoom0 "ortho" 0 0 1 sample_world
    = (Ok (Some jpg), w3)
    ∧ trace w3
      = [EvGetTile "/cache/SRC_ortho.gpkg" 0 0 1;
         EvRequest "http://example.org/wms?SERVICE=WMS&VERSION=1.3.0&REQUEST=GetMap&LAYERS=ORTHO&CRS=EPSG:4326&BBOX=0/1,-180/1,90/1,-90/1&WIDTH=256&HEIGHT=256&FORMAT=image/png&STYLES=";
         EvPutTile "/cache/SRC_ortho.gpkg" 0 0 0 jpg]
    ∧ tile_table w3 "/cache/SRC_ortho.gpkg" = Some rows3
    ∧ t_tile_data <$> rows_of_key (0, 0, 0) rows3 = [jpg]
    ∧ rows_of_key (1, 0, 0) rows3 = [].
Proof.
  destruct (getTile_inserts_under_self_zoom show_frac (clock_after 0) stem_of net_jpg
              sniff sample_service_zoom0 "ortho" 0 0 1 sample_world sample_world
              sample_cache (-23040 # 128)%Q (11520 # 128)%Q
              [ {| t_id := 1; t_zoom_level := 1; t_tile_column := 1; t_tile_row := 0;
                   t_tile_data := png; t_last_modified := 1000 * 1000000 |} ]
              None
              "http://example.org/wms?SERVICE=WMS&VERSION=1.3.0&REQUEST=GetMap&LAYERS=ORTHO&CRS=EPSG:4326&BBOX=0/1,-180/1,90/1,-90/1&WIDTH=256&HEIGHT=256&FORMAT=image/png&STYLES="
              jpg "jpeg")
    as (w3 & rows3 & r & Hrun & Htr & Ht & Hk & Hd & Ho & _).
  - vm_compute. reflexivity.
  - reflexivity.
  - lia.
  - lia.
  - unfold in_bbox, Qle, Qlt. simpl. lia.
  - vm_compute. reflexivity.
  - apply NoDup_singleton.
  - vm_compute. reflexivity.
  - reflexivity.
  - vm_compute. reflexivity.
  - reflexivity.
  - reflexivity.
  - exists w3, rows3. split; [exact Hrun|]. split; [exact Htr|]. split; [exact Ht|].
    split.
    + change (Self.zoom sample_service_zoom0) with 0 in Hk. rewrite Hk, <- Hd. reflexivity.
    + rewrite Ho by discriminate. reflexivity.
Defined.

(** ** The worker loop *)



(** * Further properties *)

(** ** Resolutions *)

Lemma mapM_result_lookup {A B} (f : A → result B) (l : list A) (l' : list B) :
  mapM f l = Ok l' →
  length l' = length l
  ∧ ∀ k b, l' !! k = Some b → ∃ a, l !! k = Some a ∧ f a = Ok b.
Proof.
  revert l'. induction l as [|a l IH]; intros l' H; cbn in H.
  - injection H as <-. split; [reflexivity|]. intros k b Hk.
    rewrite lookup_nil in Hk. discriminate.
  - destruct (f a) as [b0|e] eqn:Hfa; cbn in H; [|discriminate].
    destruct (mapM f l) as [l0|e] eqn:Hl; cbn in H; [|discriminate].
    injection H as <-. destruct (IH l0 eq_refl) as [Hlen Hget].
    split; [cbn; congruence|].
    intros [|k] b Hk; cbn in Hk.
    + injection Hk as <-. exists a. split; [reflexivity|exact Hfa].
    + apply Hget. exact Hk.
Qed.

(** X1: whatever list [getResList] returns, its entry at a level is the
    resolution [getRes] gives for that level; without an explicit list it
    has [nbLevels] entries. *)
Theorem getResList_getRes (tm : TileMatrix.t) (l : list Q) :
  TileMatrix.getResList tm = Ok l →
  (∀ (k : nat) (r : Q), l !! k = Some r → TileMatrix.getRes tm (Z.of_nat k) = Ok r)
  ∧ (TileMatrix.resolutions tm = None → length l = Z.to_nat (TileMatrix.nbLevels tm)).
Proof.
  unfold TileMatrix.getResList. intros H.
  destruct (TileMatrix.resolutions tm) as [l0|] eqn:Hres.
  - injection H as <-. split; [|discriminate].
    intros k r Hk. apply (getRes_valid_index tm l0); [exact Hres | lia |].
    rewrite Nat2Z.id. exact Hk.
  - destruct (mapM_result_lookup _ _ _ H) as [Hlen Hget].
    split.
    + intros k r Hk. destruct (Hget k r Hk) as (a & Ha & Hf).
      apply lookup_seq in Ha as [-> _].
      unfold TileMatrix.getRes. rewrite Hres. exact Hf.
    + intros _. rewrite Hlen, length_seq. reflexivity.
Qed.

Lemma getResList_getRes_witness :
  TileMatrix.getResList nw_grid = Ok [1; 1 # 2]%Q
  ∧ TileMatrix.getRes nw_grid 1 = Ok (1 # 2)%Q.
Proof.
  destruct (getResList_getRes nw_grid [1; 1 # 2]%Q) as [H _]; [reflexivity|].
  split; [reflexivity | exact (H 1%nat (1 # 2)%Q eq_refl)].
Defined.



(** ** Points and tiles *)


Lemma geoTileSize_pos (ts : Z) (res : Q) :
  0 < ts → (0 < res)%Q → (0 < inject_Z ts * res)%Q.
Proof.
  intros Hts Hres. apply Qmult_lt_0_compat; [|exact Hres].
  unfold Qlt. simpl. lia.
Qed.



(** X4: for a constructed [TileMatrix] with a positive tile size and
    resolution, a point of the bounding box ([xmin <= x], [ymin <= y <=
    ymax]) has a non-negative column and row. *)
Theorem getTileNumber_nonnegative (reproj : Z → Z → Q → Q → result (Q * Q))
    (gd : TileMatrix.gridDef) (tm : TileMatrix.t) (x y : Q) (zoom : Z)
    (res : Q) (col row : Z) :
  TileMatrix.init reproj gd = Ok tm →
  TileMatrix.getRes tm zoom = Ok res →
  (0 < res)%Q →
  0 < TileMatrix.tileSize tm →
  (TileMatrix.xmin tm <= x)%Q →
  (TileMatrix.ymin tm <= y ∧ y <= TileMatrix.ymax tm)%Q →
  TileMatrix.getTileNumber tm x y zoom = Ok (col, row) →
  0 <= col ∧ 0 <= row.
Proof.
  intros Hinit Hres Hpos Hts Hx [Hy1 Hy2] Hnum.
  pose proof (geoTileSize_pos _ _ Hts Hpos) as Hg.
  set (g := (inject_Z (TileMatrix.tileSize tm) * res)%Q) in *.
  assert (¬ (g == 0)%Q) as Hg0 by lra.
  assert (∀ d, (0 <= d)%Q → 0 <= py_floor (d / g)) as Hfloor.
  { intros d Hd. unfold py_floor.
    change 0 with (Qfloor 0). apply Qfloor_resp_le.
    apply Qle_shift_div_l; [exact Hg | lra]. }
  unfold TileMatrix.getTileNumber in Hnum.
  rewrite Hres in Hnum. cbn [mbind result_bind] in Hnum. fold g in Hnum.
  rewrite !py_div_ok in Hnum by exact Hg0. cbn [mbind result_bind] in Hnum.
  destruct (init_origin reproj gd tm Hinit) as [(HNW & Hox & Hoy) | (HSW & Hox & Hoy)];
    rewrite ?HNW, ?HSW, Hox, Hoy in Hnum;
    try change (String.eqb "NW" "NW") with true in Hnum;
    try change (String.eqb "SW" "NW") with false in Hnum;
    cbv iota in Hnum;
    match type of Hnum with
    | Ok (py_floor ?a, py_floor ?b) = _ =>
        assert (col = py_floor a) as -> by congruence;
        assert (row = py_floor b) as -> by congruence
    end;
    split; apply Hfloor; lra.
Qed.

Lemma getTileNumber_nonnegative_witness :
  ∃ col row : Z,
    TileMatrix.getTileNumber sw_grid (-10) 10 2 = Ok (col, row) ∧ 0 <= col ∧ 0 <= row.
Proof.
  exists 0, 1.
  split; [reflexivity|].
  apply (getTileNumber_nonnegative (fun _ _ _ _ => Raise NotImplementedError)
           {| TileMatrix.g_CRS := 3857; TileMatrix.g_bbox := (-10, -10, 10, 10)%Q;
              TileMatrix.g_bboxCRS := 3857; TileMatrix.g_tileSize := 256;
              TileMatrix.g_originLoc := "SW"; TileMatrix.g_resolutions := None;
              TileMatrix.g_initRes := Some (1 # 4)%Q; TileMatrix.g_resFactor := 2;
              TileMatrix.g_nbLevels := None |}
           sw_grid (-10) 10 2 (1 # 16)%Q);
    [reflexivity | reflexivity | reflexivity | reflexivity | discriminate
    | split; discriminate | reflexivity].
Defined.



(** X6: an origin policy other than "NW" and "SW" is refused: when the
    bounding box needs no reprojection and the resolution is given or the
    tile size is not zero, construction raises [NotImplementedError]. *)
Theorem init_unsupported_origin (reproj : Z → Z → Q → Q → result (Q * Q))
    (gd : TileMatrix.gridDef) :
  TileMatrix.g_originLoc gd ≠ "NW" →
  TileMatrix.g_originLoc gd ≠ "SW" →
  TileMatrix.g_bboxCRS gd = TileMatrix.g_CRS gd →
  is_Some (TileMatrix.g_resolutions gd) ∨ is_Some (TileMatrix.g_initRes gd)
  ∨ TileMatrix.g_tileSize gd ≠ 0 →
  TileMatrix.init reproj gd = Raise NotImplementedError.
Proof.
  intros HNW HSW Hcrs Hres. unfold TileMatrix.init.
  rewrite Hcrs, Z.eqb_refl. cbn [negb mbind result_bind].
  destruct (TileMatrix.g_bbox gd) as [[[x0 y0] x1] y1].
  assert (∃ r, match TileMatrix.g_resolutions gd with
               | Some _ => Ok (TileMatrix.g_initRes gd)
               | None =>
                   match TileMatrix.g_initRes gd with
                   | Some r => Ok (Some r)
                   | None =>
                       py_div (Qmax (Qabs (x1 - x0)) (Qabs (y1 - y0)))
                              (inject_Z (TileMatrix.g_tileSize gd))
                       ≫= λ r, Ok (Some r)
                   end
               end = Ok r) as [r ->].
  { destruct (TileMatrix.g_resolutions gd); [eauto|].
    destruct (TileMatrix.g_initRes gd); [eauto|].
    destruct Hres as [[? [=]] | [[? [=]] | Hts]].
    rewrite py_div_ok; [cbn; eauto|].
    intros E. apply Hts. unfold Qeq in E. simpl in E. lia. }
  cbn [mbind result_bind].
  apply String.eqb_neq in HNW, HSW. rewrite HNW, HSW. reflexivity.
Qed.

Lemma init_unsupported_origin_witness :
  TileMatrix.init (fun _ _ _ _ => Raise NotImplementedError)
    {| TileMatrix.g_CRS := 3857; TileMatrix.g_bbox := (-10, -10, 10, 10)%Q;
       TileMatrix.g_bboxCRS := 3857; TileMatrix.g_tileSize := 256;
       TileMatrix.g_originLoc := "NE"; TileMatrix.g_resolutions := None;
       TileMatrix.g_initRes := None; TileMatrix.g_resFactor := 2;
       TileMatrix.g_nbLevels := None |}
  = Raise NotImplementedError.
Proof.
  apply init_unsupported_origin;
    [discriminate | discriminate | reflexivity | right; right; discriminate].
Defined.

(** ** Quad keys identify tiles *)

Lemma py_str_digit_inj (d d' : Z) :
  0 <= d <= 3 → 0 <= d' <= 3 → py_str_Z d = py_str_Z d' → d = d'.
Proof.
  intros Hd Hd'.
  assert (d = 0 ∨ d = 1 ∨ d = 2 ∨ d = 3) as [-> | [-> | [-> | ->]]] by lia;
    assert (d' = 0 ∨ d' = 1 ∨ d' = 2 ∨ d' = 3) as [-> | [-> | [-> | ->]]] by lia;
    intros H; first [reflexivity | discriminate H].
Qed.

Lemma bits_below_inj (a b n : Z) :
  0 <= n → 0 <= a < 2 ^ n → 0 <= b < 2 ^ n →
  (∀ k, 0 <= k < n → Z.testbit a k = Z.testbit b k) → a = b.
Proof.
  intros Hn Ha Hb Hbits. apply Z.bits_inj'. intros k Hk.
  destruct (Z.lt_ge_cases k n) as [Hlt | Hge]; [apply Hbits; lia|].
  rewrite <- (Z.mod_small a (2 ^ n)), <- (Z.mod_small b (2 ^ n)) by lia.
  rewrite !Z.mod_pow2_bits_high by lia. reflexivity.
Qed.

(** X7: at a zoom level, tiles of the pyramid ([0 <= col, row < 2^zoom])
    with the same quad key are the same tile. *)
Theorem getQuadKey_injective (zoom x y x' y' : Z) :
  0 <= zoom →
  0 <= x < 2 ^ zoom → 0 <= y < 2 ^ zoom →
  0 <= x' < 2 ^ zoom → 0 <= y' < 2 ^ zoom →
  MapService.getQuadKey x y zoom = MapService.getQuadKey x' y' zoom →
  x = x' ∧ y = y'.
Proof.
  intros Hz Hx Hy Hx' Hy' Hkey.
  assert (∀ k, 0 <= k < zoom →
            MapService.quadDigit x y (k + 1) = MapService.quadDigit x' y' (k + 1))
    as Hdigit.
  { intros k Hk.
    destruct (append_loop_chars (fun i => py_str_Z (MapService.quadDigit x y i))
                (MapService.range_down zoom)) as [_ Hget].
    { intros i. apply py_str_digit, quadDigit_range. }
    destruct (append_loop_chars (fun i => py_str_Z (MapService.quadDigit x' y' i))
                (MapService.range_down zoom)) as [_ Hget'].
    { intros i. apply py_str_digit, quadDigit_range. }
    pose proof (range_down_lookup zoom (Z.to_nat (zoom - 1 - k))) as Hlook.
    replace (zoom - Z.of_nat (Z.to_nat (zoom - 1 - k))) with (k + 1) in Hlook by lia.
    specialize (Hget _ _ (Hlook ltac:(lia))).
    specialize (Hget' _ _ (Hlook ltac:(lia))).
    unfold MapService.getQuadKey in Hkey. rewrite Hkey, Hget' in Hget.
    apply py_str_digit_inj; [apply quadDigit_range | apply quadDigit_range | congruence]. }
  assert (∀ k, 0 <= k < zoom →
            Z.testbit x k = Z.testbit x' k ∧ Z.testbit y k = Z.testbit y' k) as Hbits.
  { intros k Hk. specialize (Hdigit k Hk).
    rewrite !quadDigit_bits in Hdigit by lia.
    replace (k + 1 - 1) with k in Hdigit by lia.
    destruct (Z.testbit x k), (Z.testbit x' k), (Z.testbit y k), (Z.testbit y' k);
      cbn in Hdigit; first [split; reflexivity | discriminate Hdigit]. }
  split; apply (bits_below_inj _ _ zoom); try assumption; intros k Hk; apply Hbits, Hk.
Qed.

Lemma getQuadKey_injective_witness :
  MapService.getQuadKey 3 5 3 = MapService.getQuadKey 3 5 3 ∧ 3 = 3 ∧ 5 = 5.
Proof.
  split; [reflexivity|].
  apply (getQuadKey_injective 3 3 5 3 5); first [lia | reflexivity].
Defined.

(** ** The life of a cache file *)

Lemma exec_default (p : string) (f : db → result db) (w : world) (d d' : db) :
  default empty_db (files w !! p) = d → f d = Ok d' →
  exec p f w = (Ok (), set_files (<[p := d']> (files w)) w).
Proof. intros Hd Hf. unfold exec. rewrite Hd, Hf. reflexivity. Qed.

Lemma create_absent (self : GeoPackage_t) (w : world) :
  files w !! dbPath self = None →
  GeoPackage.create self w
  = (Ok (), set_files (<[dbPath self :=
                          {| application_id := GP10; gpkg_contents := Some [];
                             gpkg_spatial_ref_sys := Some [];
                             gpkg_tile_matrix_set := Some [];
                             gpkg_tile_matrix := Some []; gpkg_tiles := Some [];
                             tiles_seq := 0 |}]> (files w)) w).
Proof.
  intros Hd. unfold GeoPackage.create.
  erewrite bind_ok by (eapply exec_default; [rewrite Hd; reflexivity | reflexivity]).
  do 4 (erewrite bind_ok
          by (eapply exec_ok; [apply lookup_insert_eq | reflexivity]);
        rewrite exec_twice).
  erewrite exec_ok by (first [apply lookup_insert_eq | reflexivity]).
  rewrite exec_twice. reflexivity.
Qed.

(** X8: constructing a [GeoPackage] on a path with no file, for a tile
    matrix with a non-zero tile size and non-zero resolutions, creates the
    file and nothing else: the container then passes the validity check,
    has one tile-matrix record per level and an empty tile table, so that
    every tile lookup is a miss. *)
Theorem GeoPackage_init_creates_file (clock : list event → Z)
    (path_stem : string → string) (path : string) (tm : TileMatrix.t)
    (w : world) (rs : list Q) :
  files w !! path = None →
  TileMatrix.getResList tm = Ok rs →
  TileMatrix.tileSize tm ≠ 0 →
  (∀ res, res ∈ rs → ¬ (res == 0)%Q) →
  ∃ (self : GeoPackage_t) (w' : world) (d' : db) (levels : list tm_row),
    GeoPackage.init clock path_stem path tm w = (Ok self, w')
    ∧ dbPath self = path
    ∧ w' = set_files (<[path := d']> (files w)) w
    ∧ GeoPackage.isGPKG self w' = (Ok true, w')
    ∧ gpkg_tile_matrix d' = Some levels
    ∧ length levels = length rs
    ∧ tile_table w' path = Some []
    ∧ ∀ x y z, (GeoPackage.getTile clock self x y z w').1 = Ok None.
Proof.
  intros Hd Hrs Hts Hnz.
  set (self := {| dbPath := path; name := path_stem path; crs := TileMatrix.CRS tm;
                  gp_tileSize := TileMatrix.tileSize tm;
                  gp_xmin := TileMatrix.xmin tm; gp_ymin := TileMatrix.ymin tm;
                  gp_xmax := TileMatrix.xmax tm; gp_ymax := TileMatrix.ymax tm;
                  gp_resolutions := rs |}).
  set (d1 :=
    {| application_id := GP10;
       gpkg_contents :=
         Some [ {| c_table_name := "gpkg_tiles"; c_data_type := "tiles";
                   c_identifier := path_stem path;
                   c_description := "Created with BlenderGIS";
                   c_last_change := clock (trace w);
                   c_min_x := TileMatrix.xmin tm; c_min_y := TileMatrix.ymin tm;
                   c_max_x := TileMatrix.xmax tm; c_max_y := TileMatrix.ymax tm;
                   c_srs_id := TileMatrix.CRS tm |} ];
       gpkg_spatial_ref_sys :=
         Some [ {| s_srs_name := py_str_Z (TileMatrix.CRS tm);
                   s_srs_id := TileMatrix.CRS tm; s_organization := "EPSG";
                   s_organization_coordsys_id := TileMatrix.CRS tm;
                   s_definition := ""; s_description := None |} ];
       gpkg_tile_matrix_set :=
         Some [ {| ms_table_name := "gpkg_tiles"; ms_srs_id := TileMatrix.CRS tm;
                   ms_min_x := TileMatrix.xmin tm; ms_min_y := TileMatrix.ymin tm;
                   ms_max_x := TileMatrix.xmax tm; ms_max_y := TileMatrix.ymax tm |} ];
       gpkg_tile_matrix := Some []; gpkg_tiles := Some [];
       tiles_seq := 0 |}).
  destruct (insertLevels_rows self rs Hts Hnz 0 d1 [] eq_refl) as (levels & Hrun & Hlen & _).
  { intros r Hr. inversion Hr. }
  set (w' := set_files (<[path := set_gpkg_tile_matrix levels d1]> (files w)) w).
  exists self, w', (set_gpkg_tile_matrix levels d1), levels.
  assert (tile_table w' path = Some []) as Htable.
  { unfold tile_table, w'. cbn [files set_files]. rewrite lookup_insert_eq. reflexivity. }
  split; [|repeat split; try reflexivity; try assumption].
  - unfold GeoPackage.init.
    erewrite bind_ok by (unfold lift; rewrite Hrs; reflexivity).
    fold self.
    erewrite bind_ok
      by (unfold GeoPackage.isGPKG; cbn [dbPath self]; rewrite Hd; reflexivity).
    cbn [negb].
    erewrite bind_ok by (apply create_absent; exact Hd).
    unfold GeoPackage.insertMetadata, GeoPackage.now.
    erewrite bind_ok.
    2:{ erewrite bind_ok by reflexivity.
        eapply exec_ok; [apply lookup_insert_eq | reflexivity]. }
    rewrite exec_twice.
    erewrite bind_ok
      by (eapply exec_ok; [apply lookup_insert_eq | reflexivity]).
    rewrite exec_twice.
    erewrite bind_ok.
    2:{ eapply exec_ok; [apply lookup_insert_eq |].
        cbn [Sql.insert_or_replace gpkg_tile_matrix_set mbind result_bind
             List.filter app].
        exact Hrun. }
    rewrite exec_twice. reflexivity.
  - unfold GeoPackage.isGPKG, w'. cbn [dbPath self files set_files].
    rewrite lookup_insert_eq. reflexivity.
  - intros x y z.
    rewrite (GeoPackage_getTile_run clock self x y z w' [] Htable). reflexivity.
Qed.

Lemma GeoPackage_init_creates_file_witness :
  ∃ (self : GeoPackage_t) (w' : world),
    GeoPackage.init (clock_after 0) stem_of "/cache/new.gpkg" nw_grid
                    (world_with foreign_db) = (Ok self, w')
    ∧ GeoPackage.isGPKG self w' = (Ok true, w')
    ∧ tile_table w' "/cache/new.gpkg" = Some [].
Proof.
  destruct (GeoPackage_init_creates_file (clock_after 0) stem_of "/cache/new.gpkg"
              nw_grid (world_with foreign_db) [1; 1 # 2]%Q)
    as (self & w' & d' & levels & Hinit & _ & _ & Hvalid & _ & _ & Htable & _).
  - vm_compute. reflexivity.
  - reflexivity.
  - discriminate.
  - intros res Hin E.
    apply elem_of_cons in Hin as [-> | Hin]; [discriminate E|].
    apply list_elem_of_singleton in Hin as ->. discriminate E.
  - exists self, w'. repeat split; assumption.
Defined.

(** X9: constructing a [GeoPackage] on a file that passes the validity
    check (marker 1196437808, the five tables there) changes nothing: the
    tiles and the metadata of an existing cache are kept as they are. *)
Theorem GeoPackage_init_keeps_valid_cache (clock : list event → Z)
    (path_stem : string → string) (path : string) (tm : TileMatrix.t)
    (w : world) (d : db) (rs : list Q) :
  files w !! path = Some d →
  application_id d = GP10 →
  is_Some (gpkg_contents d) → is_Some (gpkg_spatial_ref_sys d) →
  is_Some (gpkg_tile_matrix_set d) → is_Some (gpkg_tile_matrix d) →
  is_Some (gpkg_tiles d) →
  TileMatrix.getResList tm = Ok rs →
  ∃ self : GeoPackage_t,
    GeoPackage.init clock path_stem path tm w = (Ok self, w)
    ∧ dbPath self = path
    ∧ gp_resolutions self = rs.
Proof.
  intros Hd Hid [c Hc] [s Hs] [ms Hms] [m Hm] [t Ht] Hrs.
  exists {| dbPath := path; name := path_stem path; crs := TileMatrix.CRS tm;
            gp_tileSize := TileMatrix.tileSize tm;
            gp_xmin := TileMatrix.xmin tm; gp_ymin := TileMatrix.ymin tm;
            gp_xmax := TileMatrix.xmax tm; gp_ymax := TileMatrix.ymax tm;
            gp_resolutions := rs |}.
  split; [|split; reflexivity].
  unfold GeoPackage.init.
  erewrite bind_ok by (unfold lift; rewrite Hrs; reflexivity).
  erewrite bind_ok.
  2:{ unfold GeoPackage.isGPKG. cbn [dbPath]. rewrite Hd, Hid, Z.eqb_refl.
      cbn [negb]. rewrite Hc, Hs, Hms, Hm, Ht. reflexivity. }
  reflexivity.
Qed.

Lemma GeoPackage_init_keeps_valid_cache_witness :
  ∃ self : GeoPackage_t,
    GeoPackage.init (clock_after 0) stem_of "/cache/SRC_ortho.gpkg" nw_grid sample_world
    = (Ok self, sample_world).
Proof.
  destruct (GeoPackage_init_keeps_valid_cache (clock_after 0) stem_of
              "/cache/SRC_ortho.gpkg" nw_grid sample_world sample_db [1; 1 # 2]%Q)
    as (self & Hinit & _).
  - vm_compute. reflexivity.
  - reflexivity.
  - exists []. reflexivity.
  - exists []. reflexivity.
  - exists []. reflexivity.
  - exists []. reflexivity.
  - eexists. reflexivity.
  - reflexivity.
  - exists self. exact Hinit.
Defined.

(** ** Storing and finding tiles *)

Lemma find_head_filter {A} (p : A → bool) (l : list A) :
  List.find p l = head (List.filter p l).
Proof.
  induction l as [|a l IH]; [reflexivity|].
  cbn [List.find List.filter]. destruct (p a); [reflexivity | exact IH].
Qed.

(** X10: on a tile table with unique keys, a tile that [putTile] has
    stored is what [getTile] returns for the same key as long as no more
    than 90 whole days lie between the two calls; and the lookup of any
    other key finds the row it found before the put. *)
Theorem putTile_then_getTile (clock : list event → Z) (self : GeoPackage_t)
    (x y z : Z) (data : bytes) (w : world) (rows : list tile_row) :
  tile_table w (dbPath self) = Some rows →
  unique_keys rows →
  let tr1 := trace w ++ [EvPutTile (dbPath self) x y z data] in
  let tr2 := tr1 ++ [EvGetTile (dbPath self) x y z] in
  timedelta_days (clock tr2) (sqlite_datetime (clock tr1)) <= 90 →
  ∃ (w1 w2 : world) (rows1 : list tile_row),
    GeoPackage.putTile clock self x y z data w = (Ok (), w1)
    ∧ GeoPackage.getTile clock self x y z w1 = (Ok (Some data), w2)
    ∧ tile_table w1 (dbPath self) = Some rows1
    ∧ ∀ k, k ≠ (z, x, y) →
        List.find (fun r => key_eqb k (tile_key r)) rows1
        = List.find (fun r => key_eqb k (tile_key r)) rows.
Proof.
  intros Ht Hu tr1 tr2 Hfresh.
  destruct (GeoPackage_putTile_run clock self x y z data w rows Ht Hu)
    as (w1 & rows1 & r & Hput & Htr & _ & _ & _ & _ & Ht1 & Hu1 & Hk & Hkey & Hd & Hs & Ho).
  pose proof (GeoPackage_getTile_run clock self x y z w1 rows1 Ht1) as Hget.
  cbn zeta in Hget.
  rewrite find_head_filter in Hget. fold (rows_of_key (z, x, y) rows1) in Hget.
  rewrite Hk in Hget. cbn [head] in Hget.
  cbn [trace set_trace] in Hget. rewrite Hs, Hd, Htr in Hget.
  fold tr1 in Hget. fold tr2 in Hget.
  assert ((GeoPackage.MAX_DAYS <? timedelta_days (clock tr2) (sqlite_datetime (clock tr1)))
          = false) as Hle by (apply Z.ltb_ge; exact Hfresh).
  rewrite Hle in Hget.
  eexists w1, _, rows1. split; [exact Hput|]. split; [exact Hget|].
  split; [exact Ht1|].
  intros k Hk'. rewrite !find_head_filter.
  fold (rows_of_key k rows1). fold (rows_of_key k rows).
  rewrite (Ho k Hk'). reflexivity.
Qed.

Lemma putTile_then_getTile_witness :
  ∃ (w1 w2 : world),
    GeoPackage.putTile (clock_after 30) sample_cache 0 0 1 jpg sample_world = (Ok (), w1)
    ∧ GeoPackage.getTile (clock_after 30) sample_cache 0 0 1 w1 = (Ok (Some jpg), w2).
Proof.
  destruct (putTile_then_getTile (clock_after 30) sample_cache 0 0 1 jpg sample_world
              [ {| t_id := 1; t_zoom_level := 1; t_tile_column := 1; t_tile_row := 0;
                   t_tile_data := png; t_last_modified := 1000 * 1000000 |} ])
    as (w1 & w2 & rows1 & Hput & Hget & _).
  - vm_compute. reflexivity.
  - apply NoDup_singleton.
  - vm_compute. discriminate.
  - exists w1, w2. split; assumption.
Defined.

(** ** The caches of a service *)

Lemma init_dbPath (clock : list event → Z) (path_stem : string → string)
    (path : string) (tm : TileMatrix.t) (w w' : world) (self : GeoPackage_t) :
  GeoPackage.init clock path_stem path tm w = (Ok self, w') → dbPath self = path.
Proof.
  unfold GeoPackage.init, lift. unfold mbind at 1, M_bind at 1.
  destruct (TileMatrix.getResList tm) as [rs|e]; [|discriminate].
  set (self0 := Build_GeoPackage_t _ _ _ _ _ _ _ _ _).
  unfold mbind at 1, M_bind at 1.
  destruct (GeoPackage.isGPKG self0 w) as [[valid|e] w1]; [|discriminate].
  destruct valid; cbn [negb].
  - intros [= <- <-]. reflexivity.
  - repeat (unfold mbind at 1, M_bind at 1;
            match goal with
            | |- context [match ?m ?w0 with _ => _ end] =>
                destruct (m w0) as [[[]|?] ?]; [|discriminate]
            end).
    intros [= <- <-]. reflexivity.
Qed.

(** A call of [getCache] that succeeds leaves the cache in the dict; one
    it had to open lives at the path built from the keys. *)
Lemma getCache_registers (clock : list event → Z) (path_stem : string → string)
    (self : MapService_t) (lKey : string) (w w1 : world) (cache : GeoPackage_t) :
  MapService.getCache clock path_stem self lKey w = (Ok cache, w1) →
  caches w1 !! lKey = Some cache
  ∧ (caches w !! lKey = None →
     dbPath cache = cacheFolder self +:+ (srcKey self +:+ "_" +:+ lKey) +:+ ".gpkg").
Proof.
  unfold MapService.getCache, get_cache, put_cache.
  unfold mbind at 1, M_bind at 1.
  destruct (caches w !! lKey) as [c|] eqn:Hc.
  - intros [= <- <-]. split; [exact Hc | discriminate].
  - set (path := cacheFolder self +:+ _).
    unfold mbind at 1, M_bind at 1.
    destruct (GeoPackage.init clock path_stem path (tm2 self) w) as [[c|e] w2] eqn:Hinit;
      [|discriminate].
    cbn. intros [= <- <-]. cbn. split; [apply lookup_insert_eq|].
    intros _. exact (init_dbPath _ _ _ _ _ _ _ Hinit).
Qed.

(** X11: [getCache] opens the cache of a layer once.  After a call that
    succeeds the cache is registered under the layer key, a further call
    returns the same cache and changes nothing; a cache opened by the call
    lives at [cacheFolder + srcKey + "_" + layKey + ".gpkg"]. *)
Theorem getCache_memoizes (clock : list event → Z) (path_stem : string → string)
    (self : MapService_t) (lKey : string) (w w1 : world) (cache : GeoPackage_t) :
  MapService.getCache clock path_stem self lKey w = (Ok cache, w1) →
  caches w1 !! lKey = Some cache
  ∧ MapService.getCache clock path_stem self lKey w1 = (Ok cache, w1)
  ∧ (caches w !! lKey = None →
     dbPath cache = cacheFolder self +:+ (srcKey self +:+ "_" +:+ lKey) +:+ ".gpkg").
Proof.
  intros Hcache.
  destruct (getCache_registers _ _ _ _ _ _ _ Hcache) as [Hreg Hpath].
  split; [exact Hreg|]. split; [|exact Hpath].
  unfold MapService.getCache, get_cache.
  unfold mbind at 1, M_bind at 1. rewrite Hreg. reflexivity.
Qed.

Lemma getCache_memoizes_witness :
  ∃ (cache : GeoPackage_t) (w1 : world),
    MapService.getCache (clock_after 0) stem_of sample_service "ortho"
                        (world_with empty_db) = (Ok cache, w1)
    ∧ MapService.getCache (clock_after 0) stem_of sample_service "ortho" w1
      = (Ok cache, w1)
    ∧ dbPath cache = "/cache/SRC_ortho.gpkg".
Proof.
  destruct (MapService.getCache (clock_after 0) stem_of sample_service "ortho"
              (world_with empty_db)) as [[cache|e] w1] eqn:E;
    [|vm_compute in E; discriminate E].
  destruct (getCache_memoizes _ _ _ _ _ _ _ E) as (_ & Hagain & Hpath).
  exists cache, w1. split; [reflexivity|]. split; [exact Hagain|].
  apply Hpath. reflexivity.
Defined.

(** ** Cache hits *)

(** [getTile] past its guard, on a cache that has usable bytes. *)
Lemma getTile_hit_run (str_float : Q → string) (clock : list event → Z)
    (path_stem : string → string) (urlopen : list event → string → option bytes)
    (imghdr_what : bytes → option string)
    (self : MapService_t) (lKey : string) (col row zoom : Z)
    (w w1 : world) (cache : GeoPackage_t) (x y : Q)
    (rows : list tile_row) (d : bytes) (fmt : string) :
  MapService.getCache clock path_stem self lKey w = (Ok cache, w1) →
  TileMatrix.getTileCoords (tm2 self) col row zoom = Ok (x, y) →
  0 <= col → 0 <= row → in_bbox (tm2 self) x y →
  tile_table w1 (dbPath cache) = Some rows →
  (GeoPackage.getTile clock cache col row zoom w1).1 = Ok (Some d) →
  imghdr_what d = Some fmt →
  MapService.getTile str_float clock path_stem urlopen imghdr_what
                     self lKey col row zoom w
  = (Ok (Some d), set_trace (trace w1 ++ [EvGetTile (dbPath cache) col row zoom]) w1)
  ∧ trace w1 = trace w.
Proof.
  intros Hcache Hxy Hcol Hrow Hbox Ht Hget Himg.
  destruct (getCache_frame _ _ _ _ _ _ _ Hcache) as (Htr & _).
  split; [|exact Htr].
  unfold MapService.getTile.
  erewrite bind_ok by exact Hcache.
  erewrite bind_ok by (unfold lift; rewrite Hxy; reflexivity).
  assert ((row <? 0) || (col <? 0) = false) as ->.
  { apply orb_false_iff. split; apply Z.ltb_ge; assumption. }
  apply bbox_guard in Hbox. rewrite Hbox.
  pose proof (GeoPackage_getTile_run clock cache col row zoom w1 rows Ht) as Hrun.
  cbn zeta in Hrun.
  destruct (GeoPackage.getTile clock cache col row zoom w1) as [v w'] eqn:Hlookup.
  cbn [fst] in Hget. subst v.
  assert (w' = set_trace (trace w1 ++ [EvGetTile (dbPath cache) col row zoom]) w1)
    as -> by congruence.
  erewrite bind_ok by exact Hlookup.
  unfold MapService.sniffed. rewrite Himg. reflexivity.
Qed.

(** X12: when the cache holds fresh bytes for the tile and they are
    recognised as an image, [MapService.getTile] returns them after the
    one lookup: no request is made, nothing is written. *)
Theorem getTile_cache_hit (str_float : Q → string) (clock : list event → Z)
    (path_stem : string → string) (urlopen : list event → string → option bytes)
    (imghdr_what : bytes → option string)
    (self : MapService_t) (lKey : string) (col row zoom : Z)
    (w w1 : world) (cache : GeoPackage_t) (x y : Q)
    (rows : list tile_row) (d : bytes) (fmt : string) :
  MapService.getCache clock path_stem self lKey w = (Ok cache, w1) →
  TileMatrix.getTileCoords (tm2 self) col row zoom = Ok (x, y) →
  0 <= col → 0 <= row → in_bbox (tm2 self) x y →
  tile_table w1 (dbPath cache) = Some rows →
  (GeoPackage.getTile clock cache col row zoom w1).1 = Ok (Some d) →
  imghdr_what d = Some fmt →
  ∃ w2 : world,
    MapService.getTile str_float clock path_stem urlopen imghdr_what
                       self lKey col row zoom w = (Ok (Some d), w2)
    ∧ trace w2 = trace w ++ [EvGetTile (dbPath cache) col row zoom]
    ∧ files w2 = files w1.
Proof.
  intros Hcache Hxy Hcol Hrow Hbox Ht Hget Himg.
  destruct (getTile_hit_run str_float clock path_stem urlopen imghdr_what
              self lKey col row zoom w w1 cache x y rows d fmt
              Hcache Hxy Hcol Hrow Hbox Ht Hget Himg) as [Hrun Htr].
  eexists. split; [exact Hrun|]. cbn. rewrite Htr. split; reflexivity.
Qed.

Lemma getTile_cache_hit_witness :
  ∃ w2 : world,
    MapService.getTile show_frac (clock_after 30) stem_of net_down sniff
                       sample_service "ortho" 1 0 1 sample_world
    = (Ok (Some png), w2)
    ∧ trace w2 = [EvGetTile "/cache/SRC_ortho.gpkg" 1 0 1]
    ∧ files w2 = files sample_world.
Proof.
  apply (getTile_cache_hit show_frac (clock_after 30) stem_of net_down sniff
           sample_service "ortho" 1 0 1 sample_world sample_world sample_cache
           (-11520 # 128)%Q (11520 # 128)%Q
           [ {| t_id := 1; t_zoom_level := 1; t_tile_column := 1; t_tile_row := 0;
                t_tile_data := png; t_last_modified := 1000 * 1000000 |} ]
           png "png").
  - vm_compute. reflexivity.
  - reflexivity.
  - lia.
  - lia.
  - unfold in_bbox, Qle, Qlt. simpl. lia.
  - vm_compute. reflexivity.
  - vm_compute. reflexivity.
  - reflexivity.
Defined.

(** X13: a tile downloaded under the viewer's own zoom is served from the
    cache the next time: when the call is made with [zoom = Self.zoom
    self], finds nothing usable, downloads bytes recognised as an image,
    and no more than 90 whole days pass, the same call made again returns
    the same bytes after the lookup alone, without a request. *)
Theorem getTile_download_then_hit (str_float : Q → string)
    (clock : list event → Z) (path_stem : string → string)
    (urlopen : list event → string → option bytes)
    (imghdr_what : bytes → option string)
    (self : MapService_t) (lKey : string) (col row zoom : Z)
    (w w1 : world) (cache : GeoPackage_t) (x y : Q)
    (rows : list tile_row) (data0 : option bytes) (u : string)
    (d : bytes) (fmt : string) :
  MapService.getCache clock path_stem self lKey w = (Ok cache, w1) →
  TileMatrix.getTileCoords (tm2 self) col row zoom = Ok (x, y) →
  0 <= col → 0 <= row → in_bbox (tm2 self) x y →
  tile_table w1 (dbPath cache) = Some rows →
  unique_keys rows →
  (GeoPackage.getTile clock cache col row zoom w1).1 = Ok data0 →
  MapService.sniffed imghdr_what data0 = None →
  MapService.buildUrl str_float self lKey col row zoom = Ok (TString u) →
  urlopen (trace w1 ++ [EvGetTile (dbPath cache) col row zoom]) u = Some d →
  imghdr_what d = Some fmt →
  Self.zoom self = zoom →
  let lookup := EvGetTile (dbPath cache) col row zoom in
  let tr3 := trace w ++ [lookup; EvRequest u; EvPutTile (dbPath cache) col row zoom d] in
  timedelta_days (clock (tr3 ++ [lookup])) (sqlite_datetime (clock tr3)) <= 90 →
  ∃ w3 w4 : world,
    MapService.getTile str_float clock path_stem urlopen imghdr_what
                       self lKey col row zoom w = (Ok (Some d), w3)
    ∧ trace w3 = tr3
    ∧ MapService.getTile str_float clock path_stem urlopen imghdr_what
                         self lKey col row zoom w3 = (Ok (Some d), w4)
    ∧ trace w4 = tr3 ++ [lookup]
    ∧ files w4 = files w3.
Proof.
  intros Hcache Hxy Hcol Hrow Hbox Ht Hu Hget Hmiss Hurl Hnet Himg Hzoom lookup tr3 Hfresh.
  pose proof (getTile_miss_run str_float clock path_stem urlopen imghdr_what
                self lKey col row zoom w w1 cache x y rows data0 u
                Hcache Hxy Hcol Hrow Hbox Ht Hget Hmiss Hurl) as Hrun.
  cbn zeta in Hrun. rewrite Hnet, Himg, Hzoom in Hrun.
  destruct (getCache_frame _ _ _ _ _ _ _ Hcache) as (Htr & _).
  destruct (getCache_registers _ _ _ _ _ _ _ Hcache) as (Hreg & _).
  set (w2 := set_trace ((trace w1 ++ [EvGetTile (dbPath cache) col row zoom])
                        ++ [EvRequest u]) w1) in *.
  destruct (GeoPackage_putTile_run clock cache col row zoom d w2 rows Ht Hu)
    as (w3 & rows3 & r & Hput & Htr3 & Hc3 & _ & _ & _ & Ht3 & _ & Hk3 & _ & Hd3 & Hs3 & _).
  assert (trace w3 = tr3) as Htrace.
  { rewrite Htr3. subst w2 tr3. cbn [trace set_trace].
    rewrite Htr, <- !app_assoc. reflexivity. }
  assert (MapService.getCache clock path_stem self lKey w3 = (Ok cache, w3)) as Hcache3.
  { unfold MapService.getCache, get_cache. unfold mbind at 1, M_bind at 1.
    rewrite Hc3. subst w2. cbn [caches set_trace]. rewrite Hreg. reflexivity. }
  assert ((GeoPackage.getTile clock cache col row zoom w3).1 = Ok (Some d)) as Hget3.
  { rewrite (GeoPackage_getTile_run clock cache col row zoom w3 rows3 Ht3).
    cbn [fst]. rewrite find_head_filter.
    fold (rows_of_key (zoom, col, row) rows3). rewrite Hk3. cbn [head].
    cbn [trace set_trace]. rewrite Hs3, Hd3, Htrace. fold lookup.
    assert ((GeoPackage.MAX_DAYS
             <? timedelta_days (clock (tr3 ++ [lookup])) (sqlite_datetime (clock tr3)))
            = false) as -> by (apply Z.ltb_ge; exact Hfresh).
    reflexivity. }
  destruct (getTile_hit_run str_float clock path_stem urlopen imghdr_what
              self lKey col row zoom w3 w3 cache x y rows3 d fmt
              Hcache3 Hxy Hcol Hrow Hbox Ht3 Hget3 Himg) as [Hhit _].
  exists w3, (set_trace (trace w3 ++ [EvGetTile (dbPath cache) col row zoom]) w3).
  split; [rewrite Hrun; erewrite bind_ok by exact Hput; reflexivity|].
  split; [exact Htrace|]. split; [exact Hhit|].
  split; [cbn; rewrite Htrace; reflexivity | reflexivity].
Qed.

Lemma getTile_download_then_hit_witness :
  ∃ w3 w4 : world,
    MapService.getTile show_frac (clock_after 0) stem_of net_jpg sniff
                       sample_service "ortho" 0 0 1 sample_world = (Ok (Some jpg), w3)
    ∧ MapService.getTile show_frac (clock_after 0) stem_of net_jpg sniff
                         sample_service "ortho" 0 0 1 w3 = (Ok (Some jpg), w4)
    ∧ files w4 = files w3.
Proof.
  destruct (getTile_download_then_hit show_frac (clock_after 0) stem_of net_jpg
              sniff sample_service "ortho" 0 0 1 sample_world sample_world
              sample_cache (-23040 # 128)%Q (11520 # 128)%Q
              [ {| t_id := 1; t_zoom_level := 1; t_tile_column := 1; t_tile_row := 0;
                   t_tile_data := png; t_last_modified := 1000 * 1000000 |} ]
              None
              "http://example.org/wms?SERVICE=WMS&VERSION=1.3.0&REQUEST=GetMap&LAYERS=ORTHO&CRS=EPSG:4326&BBOX=0/1,-180/1,90/1,-90/1&WIDTH=256&HEIGHT=256&FORMAT=image/png&STYLES="
              jpg "jpeg")
    as (w3 & w4 & Hfirst & _ & Hsecond & _ & Hfiles).
  - vm_compute. reflexivity.
  - reflexivity.
  - lia.
  - lia.
  - unfold in_bbox, Qle, Qlt. simpl. lia.
  - vm_compute. reflexivity.
  - apply NoDup_singleton.
  - vm_compute. reflexivity.
  - reflexivity.
  - vm_compute. reflexivity.
  - reflexivity.
  - reflexivity.
  - reflexivity.
  - vm_compute. discriminate.
  - exists w3, w4. repeat split; assumption.
Defined.

(** ** The worker loop counts and pastes every tile *)

Lemma keeps_canvas_ret {A} (a : A) : keeps_canvas (mret a : M A).
Proof. intros w. cbn. auto. Qed.

Lemma keeps_canvas_lift {A} (r : result A) : keeps_canvas (lift r).
Proof. intros w. cbn. auto. Qed.

Lemma keeps_canvas_bind {A B} (m : M A) (f : A → M B) :
  keeps_canvas m → (∀ a, keeps_canvas (f a)) → keeps_canvas (m ≫= f).
Proof.
  intros Hm Hf w. unfold mbind, M_bind.
  specialize (Hm w). destruct (m w) as [[a|e] w1]; cbn [snd] in *; [|exact Hm].
  specialize (Hf a w1). destruct Hm as (Hm1 & Hm2 & Hm3), Hf as (Hf1 & Hf2 & Hf3).
  repeat split; congruence.
Qed.

Lemma keeps_canvas_only_touches {A} (p : string) (m : M A) :
  only_touches p m → keeps_canvas m.
Proof. intros H w. destruct (H w) as (_ & ? & ? & ? & _). auto. Qed.

Lemma keeps_canvas_log (ev : event) : keeps_canvas (log ev).
Proof. intros w. cbn. auto. Qed.

Lemma keeps_canvas_query {A} (p : string) (f : db → result A) :
  keeps_canvas (query p f).
Proof. intros w. cbn. auto. Qed.

Lemma keeps_canvas_GeoPackage_getTile (clock : list event → Z)
    (self : GeoPackage_t) (x y z : Z) :
  keeps_canvas (GeoPackage.getTile clock self x y z).
Proof.
  unfold GeoPackage.getTile.
  apply keeps_canvas_bind; [apply keeps_canvas_log|]. intros _.
  apply keeps_canvas_bind; [apply keeps_canvas_query|]. intros [r|];
    [|apply keeps_canvas_ret].
  apply keeps_canvas_bind;
    [apply (keeps_canvas_only_touches ""), only_touches_now|].
  intros t. destruct (_ <? _); apply keeps_canvas_ret.
Qed.

Lemma keeps_canvas_putTile (clock : list event → Z)
    (self : GeoPackage_t) (x y z : Z) (data : bytes) :
  keeps_canvas (GeoPackage.putTile clock self x y z data).
Proof.
  unfold GeoPackage.putTile.
  apply keeps_canvas_bind; [apply keeps_canvas_log|]. intros _.
  apply keeps_canvas_bind;
    [apply (keeps_canvas_only_touches ""), only_touches_now|].
  intros t. apply (keeps_canvas_only_touches (dbPath self)), only_touches_exec.
Qed.

Lemma keeps_canvas_getCache (clock : list event → Z) (path_stem : string → string)
    (self : MapService_t) (lKey : string) :
  keeps_canvas (MapService.getCache clock path_stem self lKey).
Proof.
  unfold MapService.getCache.
  apply keeps_canvas_bind; [intros w; cbn; auto|]. intros [c|];
    [apply keeps_canvas_ret|].
  apply keeps_canvas_bind;
    [eapply keeps_canvas_only_touches, only_touches_init|].
  intros c. apply keeps_canvas_bind; [intros w; cbn; auto|]. intros _.
  apply keeps_canvas_ret.
Qed.

Lemma keeps_canvas_getTile (str_float : Q → string) (clock : list event → Z)
    (path_stem : string → string) (urlopen : list event → string → option bytes)
    (imghdr_what : bytes → option string)
    (self : MapService_t) (lKey : string) (col row zoom : Z) :
  keeps_canvas (MapService.getTile str_float clock path_stem urlopen imghdr_what
                                   self lKey col row zoom).
Proof.
  unfold MapService.getTile.
  apply keeps_canvas_bind; [apply keeps_canvas_getCache|]. intros cache.
  apply keeps_canvas_bind; [apply keeps_canvas_lift|]. intros [x y].
  destruct (_ || _); [apply keeps_canvas_ret|].
  destruct (_ || _); [apply keeps_canvas_ret|].
  apply keeps_canvas_bind; [apply keeps_canvas_GeoPackage_getTile|]. intros data.
  destruct (MapService.sniffed imghdr_what data); [apply keeps_canvas_ret|].
  apply keeps_canvas_bind; [apply keeps_canvas_lift|]. intros url.
  apply keeps_canvas_bind.
  { destruct url; [|apply keeps_canvas_ret]. intros w. cbn. auto. }
  intros [d|]; [|apply keeps_canvas_ret].
  destruct (imghdr_what d); [|apply keeps_canvas_ret].
  apply keeps_canvas_bind; [apply keeps_canvas_putTile|]. intros _.
  apply keeps_canvas_ret.
Qed.

(** One pass of the loop that returns has pasted one image at the tile's
    position and counted one tile. *)
Lemma loadTile_canvas (str_float : Q → string) (clock : list event → Z)
    (path_stem : string → string) (urlopen : list event → string → option bytes)
    (imghdr_what : bytes → option string) (pil_open : bytes → bool)
    (self : MapService_t) (tile : Z * Z) (w w' : world) :
  MapImage.loadTile str_float clock path_stem urlopen imghdr_what pil_open
                    self tile w = (Ok (), w') →
  (mosaic w').*2 = (mosaic w).*2 ++ [paste_position self tile]
  ∧ cptTiles w' = cptTiles w + 1
  ∧ running w' = running w.
Proof.
  destruct tile as [col row]. unfold MapImage.loadTile.
  unfold mbind at 1, M_bind at 1.
  pose proof (keeps_canvas_getTile str_float clock path_stem urlopen imghdr_what
                self (layKey self) col row (Self.zoom self) w) as Hk.
  destruct (MapService.getTile _ _ _ _ _ _ _ _ _ _ w) as [[data|e] w1];
    [|discriminate].
  cbn [snd] in Hk. destruct Hk as (Hm & Hc & Hr).
  cbn. intros [= <-]. cbn. rewrite Hm, Hc, Hr.
  split; [|auto]. rewrite fmap_app. reflexivity.
Qed.

(** X14: a run of [load] that returns has, when the cycle was not
    cancelled, pasted exactly one image per tile of its list, in order, at
    [((col - col1) * tileSize, |row - row1| * tileSize)], and has advanced
    the counter by the number of tiles, whether the tiles came from the
    cache, from the network or not at all; when the cycle was cancelled
    before it started it has done nothing. *)
Theorem load_counts_every_tile (str_float : Q → string) (clock : list event → Z)
    (path_stem : string → string) (urlopen : list event → string → option bytes)
    (imghdr_what : bytes → option string) (pil_open : bytes → bool)
    (self : MapService_t) (tiles : list (Z * Z)) (w w' : world) :
  MapImage.load str_float clock path_stem urlopen imghdr_what pil_open
                self tiles w = (Ok (), w') →
  if running w
  then (mosaic w').*2 = (mosaic w).*2 ++ (paste_position self <$> tiles)
       ∧ cptTiles w' = cptTiles w + Z.of_nat (length tiles)
  else w' = w.
Proof.
  revert w. induction tiles as [|tile rest IH]; intros w Hload.
  - cbn in Hload. injection Hload as <-.
    destruct (running w); [|reflexivity]. rewrite app_nil_r. split; [reflexivity|cbn; lia].
  - cbn [MapImage.load] in Hload.
    unfold mbind at 1, M_bind at 1, is_running in Hload.
    destruct (running w) eqn:Hrun; cbn [negb] in Hload.
    + unfold mbind at 1, M_bind at 1 in Hload.
      destruct (MapImage.loadTile _ _ _ _ _ _ _ tile w) as [[[]|e] w1] eqn:Htile;
        [|discriminate].
      destruct (loadTile_canvas _ _ _ _ _ _ _ _ _ _ Htile) as (Hm & Hc & Hr).
      specialize (IH w1 Hload). rewrite Hr, Hrun in IH. destruct IH as [IHm IHc].
      split.
      * rewrite IHm, Hm, fmap_cons, <- app_assoc. reflexivity.
      * rewrite IHc, Hc. cbn [length]. lia.
    + injection Hload as <-. reflexivity.
Qed.

Lemma load_counts_every_tile_witness :
  ∃ w' : world,
    MapImage.load show_frac (clock_after 0) stem_of net_html sniff decodes
                  sample_service [(0, 1); (-1, 0); (1, 0)] sample_world = (Ok (), w')
    ∧ (mosaic w').*2 = [(0, 256); (-256, 0); (256, 0)]
    ∧ cptTiles w' = 3.
Proof.
  destruct (MapImage.load show_frac (clock_after 0) stem_of net_html sniff decodes
              sample_service [(0, 1); (-1, 0); (1, 0)] sample_world)
    as [[[]|e] w'] eqn:E; [|vm_compute in E; discriminate E].
  pose proof (load_counts_every_tile _ _ _ _ _ _ _ _ _ _ E) as H.
  change (running sample_world) with true in H. cbv iota in H.
  destruct H as [Hm Hc].
  exists w'. split; [reflexivity|]. split; [exact Hm | exact Hc].
Defined.

(** ** The tiles of a viewport *)

Lemma ceil_div_bounds (d g : Q) :
  (0 < g)%Q → (0 <= d)%Q →
  0 <= py_ceil (d / g) ∧ (d <= inject_Z (py_ceil (d / g)) * g)%Q.
Proof.
  intros Hg Hd. unfold py_ceil.
  assert (d / g * g == d)%Q as Hdg by (field; lra).
  split.
  - change 0 with (Qceiling 0). apply Qceiling_resp_le.
    apply Qle_shift_div_l; [exact Hg | lra].
  - pose proof (Qle_ceiling (d / g)) as Hle.
    pose proof (Qmult_le_compat_r _ _ g Hle (Qlt_le_weak _ _ Hg)) as H. lra.
Qed.



(** ** Requests *)

Lemma py_range_length (n : Z) : length (py_range n) = Z.to_nat n.
Proof. unfold py_range. rewrite length_map, length_seq. reflexivity. Qed.

Lemma py_range_first (n : Z) : 1 <= n → ∃ l, py_range n = 0 :: l.
Proof.
  intros Hn. unfold py_range.
  destruct (Z.to_nat n) as [|k] eqn:E; [lia|]. cbn. eauto.
Qed.

Lemma py_index_first {A} (a : A) (l : list A) : py_index (a :: l) 0 = Ok a.
Proof.
  unfold py_index. cbn [length].
  change (0 <? 0) with false. cbv iota.
  assert ((Z.of_nat (S (length l)) <=? 0) = false) as -> by (apply Z.leb_gt; lia).
  reflexivity.
Qed.

Lemma previous_kept_l {A} `{EqDecision A} (p : option A) (c : A) (b : bool) :
  (if bool_decide (p = Some c) && b then p else Some c) = Some c.
Proof.
  destruct (bool_decide_reflect (p = Some c)) as [-> | _]; cbn [andb];
    [destruct b|]; reflexivity.
Qed.

Lemma previous_kept_r {A} `{EqDecision A} (p : option A) (c : A) (b : bool) :
  (if b && bool_decide (p = Some c) then p else Some c) = Some c.
Proof.
  destruct b; cbn [andb]; [|reflexivity].
  destruct (bool_decide_reflect (p = Some c)) as [-> | _]; reflexivity.
Qed.

(** What [request] computes when the two tile matrices are the same, the
    tile size and the resolution positive and the view not of negative
    size. *)
Lemma request_run (self : MapService_t) (v : MapImage.view) (r : Q) :
  tm1 self = tm2 self →
  TileMatrix.getRes (tm2 self) (Self.zoom self) = Ok r →
  (0 < r)%Q →
  0 < MapService.tileSize self →
  0 <= MapImage.area_width v → 0 <= MapImage.area_height v →
  let ts := MapService.tileSize self in
  let nx := py_ceil (inject_Z (MapImage.area_width v) / inject_Z ts) + 1 in
  let ny := py_ceil (inject_Z (MapImage.area_height v) / inject_Z ts) + 1 in
  ∃ (rq : MapImage.requested) (c0 r0 : Z),
    MapImage.request self v = Ok rq
    ∧ 1 <= nx ∧ 1 <= ny
    ∧ TileMatrix.getTileNumber (tm2 self)
        (MapImage.origin_x v - inject_Z (MapImage.area_width v) / 2 * r)
        (MapImage.origin_y v + inject_Z (MapImage.area_height v) / 2 * r)
        (Self.zoom self) = Ok (c0, r0)
    ∧ MapImage.cols rq = List.map (fun i => c0 + i) (py_range nx)
    ∧ MapImage.rows rq
      = (if String.eqb (TileMatrix.originLoc (tm2 self)) "NW"
         then List.map (fun i => r0 + i) (py_range ny)
         else List.map (fun i => r0 - i) (py_range ny))
    ∧ MapImage.r_col1 rq = c0 ∧ MapImage.r_row1 rq = r0
    ∧ MapImage.img_w rq = nx * ts ∧ MapImage.img_h rq = ny * ts
    ∧ MapImage.r_previousCols rq = Some (MapImage.cols rq)
    ∧ MapImage.r_previousRows rq = Some (MapImage.rows rq)
    ∧ MapImage.r_running rq
      = (if bool_decide (MapImage.previousCols v = Some (MapImage.cols rq))
            && bool_decide (MapImage.previousRows v = Some (MapImage.rows rq))
         then false else MapImage.v_running v).
Proof.
  intros Htm Hres Hpos Hts Hw Hh ts nx ny.
  unfold MapService.tileSize in *. fold ts in Hts.
  pose proof (geoTileSize_pos _ _ Hts Hpos) as Hg.
  set (g := (inject_Z ts * r)%Q) in *.
  assert (¬ (g == 0)%Q) as Hg0 by lra.
  assert (0 < inject_Z ts)%Q as Htsq by (unfold Qlt; simpl; lia).
  set (W := inject_Z (MapImage.area_width v)).
  set (H := inject_Z (MapImage.area_height v)).
  assert (0 <= W)%Q as HW by (unfold W, Qle; simpl; lia).
  assert (0 <= H)%Q as HH by (unfold H, Qle; simpl; lia).
  set (ox := MapImage.origin_x v). set (oy := MapImage.origin_y v).
  assert (py_ceil ((ox + W / 2 * r - (ox - W / 2 * r)) / g) + 1 = nx) as Hnx.
  { assert ((ox + W / 2 * r - (ox - W / 2 * r)) / g == W / inject_Z ts)%Q as E
      by (unfold g; field; split; lra).
    unfold nx, py_ceil. rewrite (Qceiling_comp _ _ E). reflexivity. }
  assert (py_ceil ((oy + H / 2 * r - (oy - H / 2 * r)) / g) + 1 = ny) as Hny.
  { assert ((oy + H / 2 * r - (oy - H / 2 * r)) / g == H / inject_Z ts)%Q as E
      by (unfold g; field; split; lra).
    unfold ny, py_ceil. rewrite (Qceiling_comp _ _ E). reflexivity. }
  assert (1 <= nx) as Hnx1.
  { destruct (ceil_div_bounds W (inject_Z ts) Htsq HW) as [Hc _].
    unfold nx. fold W. lia. }
  assert (1 <= ny) as Hny1.
  { destruct (ceil_div_bounds H (inject_Z ts) Htsq HH) as [Hc _].
    unfold ny. fold H. lia. }
  destruct (TileMatrix.getTileNumber (tm2 self) (ox - W / 2 * r) (oy + H / 2 * r)
              (Self.zoom self)) as [[c0 r0]|e] eqn:Hnum.
  2:{ unfold TileMatrix.getTileNumber in Hnum. rewrite Hres in Hnum.
      cbn [mbind result_bind] in Hnum. fold ts g in Hnum.
      rewrite !py_div_ok in Hnum by exact Hg0. discriminate Hnum. }
  destruct (py_range_first nx Hnx1) as [lx Hlx].
  destruct (py_range_first ny Hny1) as [ly Hly].
  eexists _, c0, r0.
  split.
  - unfold MapImage.request, MapImage.res. rewrite Hres. cbn [mbind result_bind].
    fold W H ox oy.
    unfold MapService.listTiles. rewrite Htm, Hnum, Hres. cbn [mbind result_bind].
    fold ts g. rewrite !py_div_ok by exact Hg0. cbn [mbind result_bind].
    rewrite Hnx, Hny, Hlx, Hly.
    cbn [List.map]. rewrite py_index_first. cbn [mbind result_bind].
    assert (py_index (if String.eqb (TileMatrix.originLoc (tm2 self)) "NW"
                      then (r0 + 0) :: List.map (fun i => r0 + i) ly
                      else (r0 - 0) :: List.map (fun i => r0 - i) ly) 0 = Ok r0) as ->.
    { destruct (String.eqb _ _); rewrite py_index_first; f_equal; lia. }
    cbn [mbind result_bind].
    unfold TileMatrix.getTileCoords. rewrite Hres. cbn [mbind result_bind].
    reflexivity.
  - assert (Z.of_nat (S (length lx)) = nx) as Hlenx.
    { pose proof (py_range_length nx) as E. rewrite Hlx in E. cbn [length] in E. lia. }
    assert (Z.of_nat (S (length ly)) = ny) as Hleny.
    { pose proof (py_range_length ny) as E. rewrite Hly in E. cbn [length] in E. lia. }
    cbn [MapImage.cols MapImage.rows MapImage.r_col1 MapImage.r_row1 MapImage.img_w
         MapImage.img_h MapImage.r_previousCols MapImage.r_previousRows
         MapImage.r_running].
    rewrite Hlx, Hly. cbn [List.map].
    split; [exact Hnx1|]. split; [exact Hny1|]. split; [reflexivity|].
    split; [reflexivity|].
    split; [destruct (String.eqb _ _); reflexivity|].
    split; [lia|]. split; [reflexivity|].
    split; [cbn [length]; rewrite length_map, Hlenx; reflexivity|].
    split; [destruct (String.eqb _ _); cbn [length]; rewrite length_map, Hleny; reflexivity|].
    split; [apply previous_kept_l|]. split; [apply previous_kept_r | reflexivity].
Qed.



(** X17: a request that asks for the tiles the request before it asked
    for cancels the cycle: when [request] has run, running it again on
    the same view (with the lists it has remembered) gives the same tiles
    and sets the running flag to false. *)
Theorem request_again_cancels (self : MapService_t) (v : MapImage.view) (r : Q) :
  tm1 self = tm2 self →
  TileMatrix.getRes (tm2 self) (Self.zoom self) = Ok r →
  (0 < r)%Q →
  0 < MapService.tileSize self →
  0 <= MapImage.area_width v → 0 <= MapImage.area_height v →
  ∃ rq rq' : MapImage.requested,
    MapImage.request self v = Ok rq
    ∧ MapImage.request self
        {| MapImage.area_width := MapImage.area_width v;
           MapImage.area_height := MapImage.area_height v;
           MapImage.origin_x := MapImage.origin_x v;
           MapImage.origin_y := MapImage.origin_y v;
           MapImage.v_running := true;
           MapImage.previousCols := MapImage.r_previousCols rq;
           MapImage.previousRows := MapImage.r_previousRows rq |} = Ok rq'
    ∧ MapImage.cols rq' = MapImage.cols rq
    ∧ MapImage.rows rq' = MapImage.rows rq
    ∧ MapImage.r_running rq' = false.
Proof.
  intros Htm Hres Hpos Hts Hw Hh.
  destruct (request_run self v r Htm Hres Hpos Hts Hw Hh)
    as (rq & c0 & r0 & Hrq & _ & _ & Hnum & Hcols & Hrows & _ & _ & _ & _ & Hpc & Hpr & _).
  set (v' := {| MapImage.area_width := MapImage.area_width v;
                MapImage.area_height := MapImage.area_height v;
                MapImage.origin_x := MapImage.origin_x v;
                MapImage.origin_y := MapImage.origin_y v;
                MapImage.v_running := true;
                MapImage.previousCols := MapImage.r_previousCols rq;
                MapImage.previousRows := MapImage.r_previousRows rq |}).
  destruct (request_run self v' r Htm Hres Hpos Hts Hw Hh)
    as (rq' & c0' & r0' & Hrq' & _ & _ & Hnum' & Hcols' & Hrows' & _ & _ & _ & _ & _ & _ & Hrun').
  cbn [MapImage.area_width MapImage.area_height MapImage.origin_x MapImage.origin_y
       MapImage.previousCols MapImage.previousRows MapImage.v_running v']
    in Hnum', Hcols', Hrows', Hrun'.
  rewrite Hnum in Hnum'. injection Hnum' as <- <-.
  assert (MapImage.cols rq' = MapImage.cols rq) as Hc by congruence.
  assert (MapImage.rows rq' = MapImage.rows rq) as Hr by congruence.
  exists rq, rq'. split; [exact Hrq|]. split; [exact Hrq'|].
  split; [exact Hc|]. split; [exact Hr|].
  rewrite Hrun', Hpc, Hpr, Hc, Hr, !bool_decide_eq_true_2 by reflexivity.
  reflexivity.
Qed.

Lemma request_again_cancels_witness :
  ∃ rq rq' : MapImage.requested,
    MapImage.request sample_service
      {| MapImage.area_width := 512; MapImage.area_height := 256;
         MapImage.origin_x := 0; MapImage.origin_y := 0;
         MapImage.v_running := true;
         MapImage.previousCols := None; MapImage.previousRows := None |} = Ok rq
    ∧ MapImage.request sample_service
        {| MapImage.area_width := 512; MapImage.area_height := 256;
           MapImage.origin_x := 0; MapImage.origin_y := 0;
           MapImage.v_running := true;
           MapImage.previousCols := MapImage.r_previousCols rq;
           MapImage.previousRows := MapImage.r_previousRows rq |} = Ok rq'
    ∧ MapImage.r_running rq = true
    ∧ MapImage.r_running rq' = false.
Proof.
  destruct (request_again_cancels sample_service
              {| MapImage.area_width := 512; MapImage.area_height := 256;
                 MapImage.origin_x := 0; MapImage.origin_y := 0;
                 MapImage.v_running := true;
                 MapImage.previousCols := None; MapImage.previousRows := None |}
              (45 # 128)%Q)
    as (rq & rq' & Hrq & Hrq' & _ & _ & Hrun);
    [reflexivity | reflexivity | reflexivity | reflexivity | discriminate | discriminate |].
  exists rq, rq'. split; [exact Hrq|]. split; [exact Hrq'|]. split; [|exact Hrun].
  vm_compute in Hrq. injection Hrq as <-. reflexivity.
Defined.

(** ** The slices of [run_multi] *)

Lemma slice_chunk {A} (l : list A) (q : Z) (k : nat) :
  0 < q → Z.of_nat k * q < Z.of_nat (length l) →
  py_slice l (0 + Z.of_nat k * q) (0 + Z.of_nat k * q + q)
  = take (Z.to_nat q) (drop (k * Z.to_nat q) l).
Proof.
  intros Hq Hk. unfold py_slice, slice_bound.
  set (n := Z.of_nat (length l)) in *.
  set (i := 0 + Z.of_nat k * q).
  assert (0 <= i < n) as Hi by (unfold i; nia).
  assert ((i <? 0) = false) as -> by (apply Z.ltb_ge; lia).
  assert ((i + q <? 0) = false) as -> by (apply Z.ltb_ge; lia).
  assert (Z.to_nat (Z.max 0 (Z.min n i)) = (k * Z.to_nat q)%nat) as ->.
  { replace (Z.max 0 (Z.min n i)) with (Z.of_nat k * q) by (unfold i; lia).
    rewrite Z2Nat.inj_mul, Nat2Z.id by lia. reflexivity. }
  assert (length (drop (k * Z.to_nat q) l) = Z.to_nat (n - i)) as Hlen.
  { rewrite length_drop. unfold n, i.
    assert (Z.of_nat (k * Z.to_nat q) = Z.of_nat k * q) by nia. lia. }
  destruct (Z.le_gt_cases (i + q) n) as [Hle | Hgt].
  - f_equal. lia.
  - replace (Z.max 0 (Z.min n (i + q)) - Z.max 0 (Z.min n i)) with (n - i) by lia.
    rewrite <- Hlen, firstn_all. symmetry. apply take_ge. lia.
Qed.

Lemma concat_chunks {A} (l : list A) (q m : nat) :
  concat (List.map (fun k => take q (drop (k * q) l)) (seq 0 m)) = take (m * q) l.
Proof.
  induction m as [|m IH]; [reflexivity|].
  rewrite seq_S, List.map_app, concat_app, IH. cbn [List.map concat Nat.add].
  rewrite app_nil_r, take_take_drop. f_equal. lia.
Qed.

Lemma ceil_quarter (n : Z) :
  1 <= n →
  1 <= py_ceil (inject_Z n / inject_Z MapImage.nbThread)
  ∧ n <= py_ceil (inject_Z n / inject_Z MapImage.nbThread) * 4.
Proof.
  intros Hn.
  destruct (ceil_div_bounds (inject_Z n) (inject_Z MapImage.nbThread))
    as [H0 Hle]; [reflexivity | change 0%Q with (inject_Z 0); rewrite <- Zle_Qle; lia |].
  rewrite <- inject_Z_mult, <- Zle_Qle in Hle.
  change MapImage.nbThread with 4 in *. lia.
Qed.

Lemma parts_run (tiles : list (Z * Z)) :
  tiles ≠ [] →
  ∃ ps, MapImage.parts tiles = Some ps
    ∧ concat ps = tiles
    ∧ (length ps <= 4)%nat
    ∧ Forall (fun p => p ≠ []) ps.
Proof.
  intros Hne. unfold MapImage.parts.
  set (n := Z.of_nat (length tiles)).
  assert (1 <= n) as Hn by (unfold n; destruct tiles; [congruence | cbn; lia]).
  destruct (ceil_quarter n Hn) as [Hq1 Hq4].
  set (q := py_ceil (inject_Z n / inject_Z MapImage.nbThread)) in *.
  cbv zeta. assert ((q =? 0) = false) as -> by (apply Z.eqb_neq; lia).
  eexists. split; [reflexivity|].
  unfold py_range_step.
  set (m := Z.to_nat ((n - 0 + q - 1) / q)).
  assert (Z.of_nat m * q <= n + q - 1 ∧ n - 1 < Z.of_nat m * q) as [Hm1 Hm2].
  { unfold m. rewrite Z2Nat.id by (apply Z.div_pos; lia).
    pose proof (Z.mul_div_le (n - 0 + q - 1) q ltac:(lia)).
    pose proof (Z.mul_succ_div_gt (n - 0 + q - 1) q ltac:(lia)). nia. }
  assert (List.map (fun i => py_slice tiles i (i + q))
            (List.map (fun k => 0 + Z.of_nat k * q) (seq 0 m))
          = List.map (fun k => take (Z.to_nat q) (drop (k * Z.to_nat q) tiles)) (seq 0 m))
    as Hmap.
  { rewrite List.map_map. apply List.map_ext_in. intros k Hk.
    apply in_seq in Hk. apply slice_chunk; [lia|]. fold n. nia. }
  rewrite Hmap. split; [|split].
  - rewrite concat_chunks. apply take_ge.
    assert (Z.of_nat (m * Z.to_nat q) = Z.of_nat m * q) by nia. lia.
  - rewrite length_map, length_seq. nia.
  - apply Forall_forall. intros p Hp.
    apply list_elem_of_In, in_map_iff in Hp. destruct Hp as (k & <- & Hk).
    apply in_seq in Hk. intros Hnil.
    apply (f_equal length) in Hnil. rewrite length_take, length_drop in Hnil.
    cbn in Hnil.
    assert (Z.of_nat (k * Z.to_nat q) = Z.of_nat k * q) by nia.
    assert (Z.of_nat k * q < n) by nia. unfold n in *. lia.
Qed.


(** X18: [run_multi] cuts a list of tiles that is not empty into at most
    four slices for its threads; no slice is empty, and the slices put end
    to end are the list: each tile is loaded by one thread, once. *)
Theorem parts_partition (tiles : list (Z * Z)) :
  tiles ≠ [] →
  ∃ ps, MapImage.parts tiles = Some ps
    ∧ concat ps = tiles
    ∧ (length ps <= 4)%nat
    ∧ Forall (fun p => p ≠ []) ps.
Proof. exact (parts_run tiles). Qed.

Lemma parts_partition_witness :
  ∃ ps, MapImage.parts (MapImage.allTiles [1; 2; 3] [0; 1]) = Some ps
    ∧ concat ps = MapImage.allTiles [1; 2; 3] [0; 1]
    ∧ (length ps <= 4)%nat
    ∧ Forall (fun p => p ≠ []) ps.
Proof. apply (parts_partition (MapImage.allTiles [1; 2; 3] [0; 1])). discriminate. Defined.



(** ** Tiles partition the plane *)





(** ** The levels of a tile matrix set *)




(** ** Tile addresses of a TMS source *)

Lemma replace_text (p : placeholder) (v s t : string) :
  no_brace s = true →
  py_replace (token p) v (s +:+ t) = s +:+ py_replace (token p) v t.
Proof.
  unfold py_replace. induction s as [|c s IH]; intros Hs; [reflexivity|].
  cbn [no_brace] in Hs. apply andb_true_iff in Hs as [Hc Hs].
  apply negb_true_iff in Hc.
  rewrite !append_cons. cbn [replace_from].
  assert (String.prefix (token p) (String c (s +:+ t)) = false) as ->.
  { destruct p; cbn [token String.prefix];
      (destruct (Ascii.ascii_dec _ c) as [E|_];
       [subst c; vm_compute in Hc; discriminate Hc | reflexivity]). }
  rewrite (IH Hs). reflexivity.
Qed.

Lemma prefix_append (old t : string) : String.prefix old (old +:+ t) = true.
Proof.
  induction old as [|c old IH]; [destruct t; reflexivity|].
  rewrite append_cons. cbn [String.prefix].
  destruct (Ascii.ascii_dec c c) as [_|Hc]; [exact IH | contradiction].
Qed.

Lemma replace_skip (old v a t : string) :
  replace_from old v (String.length a) (a +:+ t) = replace_from old v 0 t.
Proof.
  induction a as [|c a IH]; [reflexivity|].
  rewrite append_cons. cbn [String.length replace_from]. exact IH.
Qed.

Lemma replace_match (c : Ascii.ascii) (old v t : string) :
  py_replace (String c old) v (String c old +:+ t)
  = v +:+ py_replace (String c old) v t.
Proof.
  unfold py_replace. rewrite append_cons. cbn [replace_from].
  rewrite <- (append_cons c old t), prefix_append.
  cbn [String.length]. rewrite Nat.sub_1_r. cbn [Nat.pred].
  rewrite replace_skip. reflexivity.
Qed.

Lemma replace_hole (p q : placeholder) (v t : string) :
  py_replace (token p) v (token q +:+ t)
  = (if placeholder_eqb p q then v else token q) +:+ py_replace (token p) v t.
Proof.
  destruct p, q; cbn [token placeholder_eqb];
    first [ apply replace_match
          | unfold py_replace; rewrite !append_cons, !append_empty_l; reflexivity ].
Qed.

Lemma replace_render (p : placeholder) (v : string) (segs : list segment) :
  plain_text segs →
  py_replace (token p) v (render segs) = render (subst p v segs).
Proof.
  induction segs as [|seg segs IH]; intros Hplain; [reflexivity|].
  assert (plain_text segs) as Hrest
    by (intros s Hs; apply Hplain, list_elem_of_further, Hs).
  cbn [render subst fold_right List.map]. fold (render segs).
  fold (subst p v segs). fold (render (subst p v segs)).
  destruct seg as [s | q]; cbn [segment_text].
  - rewrite replace_text by (apply Hplain, list_elem_of_here).
    rewrite (IH Hrest). reflexivity.
  - rewrite replace_hole, (IH Hrest).
    destruct (placeholder_eqb p q); reflexivity.
Qed.

Lemma subst_plain (p : placeholder) (v : string) (segs : list segment) :
  no_brace v = true → plain_text segs → plain_text (subst p v segs).
Proof.
  intros Hv Hplain s Hs. unfold subst in Hs.
  apply list_elem_of_In, in_map_iff in Hs. destruct Hs as (seg & Hseg & Hin).
  apply list_elem_of_In in Hin.
  destruct seg as [s' | q].
  - injection Hseg as <-. apply Hplain, Hin.
  - destruct (placeholder_eqb p q); [|discriminate].
    injection Hseg as <-. exact Hv.
Qed.

Lemma no_brace_digits (u : Decimal.uint) : no_brace (NilEmpty.string_of_uint u) = true.
Proof. induction u; [reflexivity | exact IHu ..]. Qed.

Lemma no_brace_uint (u : Decimal.uint) : no_brace (NilZero.string_of_uint u) = true.
Proof. destruct u; [reflexivity | apply (no_brace_digits (_ u)) ..]. Qed.

Lemma no_brace_py_str_Z (z : Z) : no_brace (py_str_Z z) = true.
Proof.
  unfold py_str_Z, NilZero.string_of_int.
  destruct (Z.to_int z) as [u | u]; [apply no_brace_uint|].
  cbn [no_brace]. apply no_brace_uint.
Qed.

(** X22: for a TMS source whose template is text (without an opening
    brace) around placeholders, and a layer key without an opening brace,
    [buildUrl] fills the placeholders and leaves the text alone: "{LAY}"
    gets the layer's key; without a quadtree "{X}", "{Y}" and "{Z}" get the
    column, the row and the zoom level (and "{QUADKEY}" stays); with a
    quadtree "{QUADKEY}" gets the quadkey (and "{X}", "{Y}", "{Z}" stay). *)
Theorem buildUrl_TMS_fills_template (str_float : Q → string) (self : MapService_t)
    (lKey : string) (lay : Layer) (segs : list segment) (col row zoom : Z) :
  service self = "TMS" →
  layers self !! lKey = Some lay →
  urlTemplate self = TString (render segs) →
  plain_text segs →
  no_brace (urlKey lay) = true →
  MapService.buildUrl str_float self lKey col row zoom
  = Ok (TString (render
      (if quadTree self
       then subst PQuadkey (MapService.getQuadKey col row zoom)
              (subst PLay (urlKey lay) segs)
       else subst PZ (py_str_Z zoom)
              (subst PY (py_str_Z row)
                 (subst PX (py_str_Z col)
                    (subst PLay (urlKey lay) segs)))))).
Proof.
  intros Hsvc Hlay Hurl Hplain Hkey.
  pose proof (subst_plain PLay _ segs Hkey Hplain) as H1.
  pose proof (subst_plain PX _ _ (no_brace_py_str_Z col) H1) as H2.
  pose proof (subst_plain PY _ _ (no_brace_py_str_Z row) H2) as H3.
  unfold MapService.buildUrl. rewrite Hlay, Hsvc, Hurl.
  cbn [mbind result_bind String.eqb Ascii.eqb Bool.eqb].
  change "{LAY}"%string with (token PLay). change "{X}"%string with (token PX).
  change "{Y}"%string with (token PY). change "{Z}"%string with (token PZ).
  change "{QUADKEY}"%string with (token PQuadkey).
  rewrite (replace_render PLay _ segs Hplain).
  destruct (quadTree self); cbn [negb mbind result_bind].
  - rewrite (replace_render PQuadkey _ _ H1). reflexivity.
  - rewrite (replace_render PX _ _ H1), (replace_render PY _ _ H2),
      (replace_render PZ _ _ H3). reflexivity.
Qed.

Lemma buildUrl_TMS_fills_template_witness :
  MapService.buildUrl show_frac (tms_source false xyz_template) "ortho" 3 5 4
  = Ok (TString "http://tile.example.org/ORTHO/4/3/5.png")
  ∧ MapService.buildUrl show_frac (tms_source true quadkey_template) "ortho" 3 5 3
    = Ok (TString "http://tiles.example.net/ORTHO/213?g=1").
Proof.
  split.
  - rewrite (buildUrl_TMS_fills_template show_frac (tms_source false xyz_template)
               "ortho" ortho xyz_template 3 5 4);
      [reflexivity | reflexivity | reflexivity | reflexivity | | reflexivity].
    intros s Hs. repeat (apply elem_of_cons in Hs as [Hs | Hs];
                         [first [injection Hs as ->; reflexivity | discriminate Hs]|]).
    inversion Hs.
  - rewrite (buildUrl_TMS_fills_template show_frac (tms_source true quadkey_template)
               "ortho" ortho quadkey_template 3 5 3);
      [reflexivity | reflexivity | reflexivity | reflexivity | | reflexivity].
    intros s Hs. repeat (apply elem_of_cons in Hs as [Hs | Hs];
                         [first [injection Hs as ->; reflexivity | discriminate Hs]|]).
    inversion Hs.
Defined.

(** ** A construction that fails half-way *)

Lemma exec_raise (p : string) (f : db → result db) (w : world) (d : db) (e : exn) :
  files w !! p = Some d → f d = Raise e → exec p f w = (Raise e, w).
Proof. intros Hd Hf. unfold exec. rewrite Hd. cbn. rewrite Hf. reflexivity. Qed.

Lemma insertLevels_zero_size (self : GeoPackage_t) (rs : list Q) :
  (∃ res, res ∈ rs ∧ (inject_Z (gp_tileSize self) * res == 0)%Q) →
  ∀ (level : Z) (d : db),
    is_Some (gpkg_tile_matrix d) →
    GeoPackage.insertLevels self level rs d = Raise ZeroDivisionError.
Proof.
  induction rs as [|res rs IH]; intros (r0 & Hin & Hz) level d [rows Hd].
  - inversion Hin.
  - cbn [GeoPackage.insertLevels]. unfold GeoPackage.level_row.
    destruct (Qeq_bool (inject_Z (gp_tileSize self) * res) 0) eqn:E.
    + apply Qeq_bool_iff in E. rewrite !py_div_zero by exact E. reflexivity.
    + assert (¬ (inject_Z (gp_tileSize self) * res == 0)%Q) as Hnz
        by (intros E'; apply Qeq_bool_iff in E'; congruence).
      rewrite !py_div_ok by exact Hnz. cbn [mbind result_bind].
      rewrite Hd. cbn [Sql.insert_or_replace mbind result_bind].
      apply IH.
      * exists r0. split; [|exact Hz].
        apply elem_of_cons in Hin as [-> | Hin]; [contradiction | exact Hin].
      * destruct d. cbn. eauto.
Qed.

(** X23: constructing a [GeoPackage] on a path with no file fails with
    [ZeroDivisionError] when the tile size times one of the resolutions is
    zero, and what it leaves behind is a file with the marker and the five
    tables but no tile-matrix record.  That file passes the validity
    check, so every later construction on the path, with any tile matrix,
    returns without writing anything: the levels are never recorded. *)
Theorem GeoPackage_init_zero_size (clock : list event → Z)
    (path_stem : string → string) (path : string) (tm : TileMatrix.t)
    (w : world) (rs : list Q) :
  files w !! path = None →
  TileMatrix.getResList tm = Ok rs →
  (∃ res, res ∈ rs ∧ (inject_Z (TileMatrix.tileSize tm) * res == 0)%Q) →
  ∃ (w' : world) (d' : db),
    GeoPackage.init clock path_stem path tm w = (Raise ZeroDivisionError, w')
    ∧ files w' !! path = Some d'
    ∧ application_id d' = GP10
    ∧ gpkg_tile_matrix_set d' = Some []
    ∧ gpkg_tile_matrix d' = Some []
    ∧ gpkg_tiles d' = Some []
    ∧ ∀ (tm' : TileMatrix.t) (rs' : list Q),
        TileMatrix.getResList tm' = Ok rs' →
        ∃ self : GeoPackage_t,
          GeoPackage.init clock path_stem path tm' w' = (Ok self, w').
Proof.
  intros Hd Hrs Hzero.
  set (self := {| dbPath := path; name := path_stem path; crs := TileMatrix.CRS tm;
                  gp_tileSize := TileMatrix.tileSize tm;
                  gp_xmin := TileMatrix.xmin tm; gp_ymin := TileMatrix.ymin tm;
                  gp_xmax := TileMatrix.xmax tm; gp_ymax := TileMatrix.ymax tm;
                  gp_resolutions := rs |}).
  eexists _, _. split.
  { unfold GeoPackage.init.
    erewrite bind_ok by (unfold lift; rewrite Hrs; reflexivity).
    fold self.
    erewrite bind_ok
      by (unfold GeoPackage.isGPKG; cbn [dbPath self]; rewrite Hd; reflexivity).
    cbn [negb].
    erewrite bind_ok by (apply create_absent; exact Hd).
    unfold GeoPackage.insertMetadata, GeoPackage.now.
    erewrite bind_ok.
    2:{ erewrite bind_ok by reflexivity.
        eapply exec_ok; [apply lookup_insert_eq | reflexivity]. }
    rewrite exec_twice.
    erewrite bind_ok
      by (eapply exec_ok; [apply lookup_insert_eq | reflexivity]).
    rewrite exec_twice.
    erewrite bind_raise; [reflexivity|].
    eapply exec_raise; [apply lookup_insert_eq|].
    cbn [Sql.insert_or_replace gpkg_tile_matrix_set mbind result_bind
         List.filter app].
    apply insertLevels_zero_size; [exact Hzero | cbn; eauto]. }
  split; [cbn [files set_files]; apply lookup_insert_eq|].
  repeat (split; [reflexivity|]).
  intros tm' rs' Hrs'.
  eexists. unfold GeoPackage.init.
  erewrite bind_ok by (unfold lift; rewrite Hrs'; reflexivity).
  erewrite bind_ok.
  2:{ unfold GeoPackage.isGPKG. cbn [dbPath files set_files].
      rewrite lookup_insert_eq. reflexivity. }
  reflexivity.
Qed.

Lemma GeoPackage_init_zero_size_witness :
  ∃ (w' : world) (d' : db),
    GeoPackage.init (clock_after 0) stem_of "/cache/new.gpkg" flat_grid
                    (world_with foreign_db) = (Raise ZeroDivisionError, w')
    ∧ files w' !! "/cache/new.gpkg" = Some d'
    ∧ gpkg_tile_matrix d' = Some []
    ∧ ∃ self : GeoPackage_t,
        GeoPackage.init (clock_after 0) stem_of "/cache/new.gpkg" nw_grid w'
        = (Ok self, w').
Proof.
  destruct (GeoPackage_init_zero_size (clock_after 0) stem_of "/cache/new.gpkg"
              flat_grid (world_with foreign_db) [1; 0]%Q)
    as (w' & d' & Hinit & Hd & _ & _ & Hm & _ & Hnext).
  - vm_compute. reflexivity.
  - reflexivity.
  - exists 0%Q. split; [apply list_elem_of_further, list_elem_of_here | reflexivity].
  - exists w', d'. split; [exact Hinit|]. split; [exact Hd|]. split; [exact Hm|].
    apply (Hnext nw_grid [1; 1 # 2]%Q). reflexivity.
Defined.

(** ** Wheel and keypad events *)

Lemma wheel_invariant (zmin zmax : Z) (event : MAP_VIEW.ui_event) (st : MAP_VIEW.state) :
  zmin <= MAP_VIEW.scn_z st <= zmax →
  (1 <= MAP_VIEW.scn_scale st)%Q →
  MAP_VIEW.map_scale st = MAP_VIEW.scn_scale st →
  let st' := MAP_VIEW.wheel zmin zmax event st in
  zmin <= MAP_VIEW.scn_z st' <= zmax
  ∧ (1 <= MAP_VIEW.scn_scale st')%Q
  ∧ MAP_VIEW.map_scale st' = MAP_VIEW.scn_scale st'.
Proof.
  intros Hz Hs Hm. cbn zeta. unfold MAP_VIEW.wheel.
  set (st1 := if MAP_VIEW.py_in (MAP_VIEW.type event) _ then _ else st).
  assert (zmin <= MAP_VIEW.scn_z st1 <= zmax
          ∧ (1 <= MAP_VIEW.scn_scale st1)%Q
          ∧ MAP_VIEW.map_scale st1 = MAP_VIEW.scn_scale st1) as (Hz1 & Hs1 & Hm1).
  { unfold st1. destruct (MAP_VIEW.py_in _ _); [|auto].
    destruct (String.eqb _ _); [|auto].
    destruct (MAP_VIEW.alt event).
    { cbn. repeat split; try lia. lra. }
    destruct (MAP_VIEW.ctrl event); [cbn; auto|].
    cbn [MAP_VIEW.set_view_distance MAP_VIEW.scn_z].
    destruct (Z.ltb_spec (MAP_VIEW.scn_z st) zmax); cbn; repeat split; auto; lia. }
  clearbody st1.
  destruct (MAP_VIEW.py_in _ _); [|auto].
  destruct (String.eqb _ _); [|auto].
  destruct (MAP_VIEW.alt event).
  { cbn [MAP_VIEW.set_scale MAP_VIEW.scn_z MAP_VIEW.scn_scale MAP_VIEW.map_scale].
    split; [exact Hz1|]. split; [|reflexivity].
    destruct (Qlt_bool (MAP_VIEW.scn_scale st1 / 10) 1) eqn:E; [lra|].
    apply Qnot_lt_le. intros Hlt. apply Qlt_bool_iff in Hlt. congruence. }
  destruct (MAP_VIEW.ctrl event); [cbn; auto|].
  cbn [MAP_VIEW.set_view_distance MAP_VIEW.scn_z].
  destruct (Z.ltb_spec zmin (MAP_VIEW.scn_z st1)); cbn; repeat split; auto; lia.
Qed.

(** X24: whatever wheel and keypad events arrive, and in whatever order,
    [modal] keeps the zoom level of the scene between the layer's [zmin]
    and [zmax] when it started there, keeps the scale of the scene at 1
    or above, and keeps the scale of the map equal to that of the scene. *)
Theorem modal_keeps_zoom_and_scale (zmin zmax : Z) (events : list MAP_VIEW.ui_event)
    (st : MAP_VIEW.state) :
  zmin <= MAP_VIEW.scn_z st <= zmax →
  (1 <= MAP_VIEW.scn_scale st)%Q →
  MAP_VIEW.map_scale st = MAP_VIEW.scn_scale st →
  let st' := MAP_VIEW.wheels zmin zmax events st in
  zmin <= MAP_VIEW.scn_z st' <= zmax
  ∧ (1 <= MAP_VIEW.scn_scale st')%Q
  ∧ MAP_VIEW.map_scale st' = MAP_VIEW.scn_scale st'.
Proof.
  cbn zeta. unfold MAP_VIEW.wheels. revert st.
  induction events as [|event events IH]; intros st Hz Hs Hm; [cbn; auto|].
  cbn [fold_left].
  destruct (wheel_invariant zmin zmax event st Hz Hs Hm) as (Hz' & Hs' & Hm').
  apply IH; assumption.
Qed.

Lemma modal_keeps_zoom_and_scale_witness :
  let st' := MAP_VIEW.wheels 0 2 [wheel_up; wheel_up; wheel_up; alt_minus; wheel_down]
               first_view in
  0 <= MAP_VIEW.scn_z st' <= 2
  ∧ (1 <= MAP_VIEW.scn_scale st')%Q
  ∧ MAP_VIEW.map_scale st' = MAP_VIEW.scn_scale st'.
Proof.
  apply (modal_keeps_zoom_and_scale 0 2
           [wheel_up; wheel_up; wheel_up; alt_minus; wheel_down] first_view).
  - cbn. lia.
  - cbn. lra.
  - reflexivity.
Defined.




(** ** Shapes of a shapefile *)

Lemma mapM_Forall2 {A B} (f : A → result B) (l : list A) (l' : list B) :
  Forall2 (fun a b => f a = Ok b) l l' → mapM f l = Ok l'.
Proof.
  induction 1 as [|a b l l' Hab _ IH]; [reflexivity|].
  cbn [mapM]. rewrite Hab. cbn [mbind result_bind]. rewrite IH. reflexivity.
Qed.

Lemma py_index_lookup {A} (l : list A) (k : nat) (a : A) :
  l !! k = Some a → py_index l (Z.of_nat k) = Ok a.
Proof.
  intros Hk. pose proof (lookup_lt_Some _ _ _ Hk) as Hlt.
  unfold py_index. cbv zeta.
  assert ((Z.of_nat k <? 0) = false) as E by (apply Z.ltb_ge; lia).
  rewrite E. cbv iota. rewrite E.
  assert ((Z.of_nat (length l) <=? Z.of_nat k) = false) as -> by (apply Z.leb_gt; lia).
  cbn [orb]. rewrite Nat2Z.id, Hk. reflexivity.
Qed.

Lemma filter_below (k : nat) :
  List.filter (fun i => i <? Z.of_nat k - 1) (py_range (Z.of_nat k))
  = py_range (Z.of_nat (k - 1)).
Proof.
  unfold py_range. rewrite !Nat2Z.id.
  destruct k as [|k]; [reflexivity|].
  replace (S k - 1)%nat with k by lia.
  rewrite seq_S, List.map_app, List.filter_app. cbn [Nat.add List.map List.filter].
  assert ((Z.of_nat k <? Z.of_nat (S k) - 1) = false) as -> by (apply Z.ltb_ge; lia).
  rewrite app_nil_r.
  assert (∀ l : list nat, Forall (fun i => (i < k)%nat) l →
            List.filter (fun i => i <? Z.of_nat (S k) - 1) (List.map Z.of_nat l)
            = List.map Z.of_nat l) as Hall.
  { induction 1 as [|i l Hi _ IH]; [reflexivity|].
    cbn [List.map List.filter].
    assert ((Z.of_nat i <? Z.of_nat (S k) - 1) = true) as -> by (apply Z.ltb_lt; lia).
    rewrite IH. reflexivity. }
  apply Hall. apply Forall_forall. intros i Hi.
  apply list_elem_of_In, in_seq in Hi. lia.
Qed.

(** X26: a polyline of [n] points is split into the [n - 1] segments
    that join each point to the next one, in order; a polyline of one
    point, or of none, gives no segment, and no index is ever out of
    range. *)
Theorem lines_consecutive (geom : list IMPORT_SHP.point3) :
  IMPORT_SHP.lines geom = Ok (zip geom (drop 1 geom))
  ∧ length (zip geom (drop 1 geom)) = (length geom - 1)%nat.
Proof.
  split.
  - unfold IMPORT_SHP.lines. cbv zeta. rewrite filter_below.
    apply mapM_Forall2. apply Forall2_same_length_lookup. split.
    + unfold py_range. rewrite length_map, length_seq, Nat2Z.id.
      rewrite length_zip_with, length_drop. lia.
    + intros k i [a b] Hi Hab.
      unfold py_range in Hi. rewrite Nat2Z.id in Hi.
      rewrite list_lookup_fmap in Hi.
      destruct (seq 0 (length geom - 1) !! k) as [k'|] eqn:Hk; [|discriminate].
      apply lookup_seq in Hk as [-> _]. cbn in Hi. injection Hi as <-.
      apply lookup_zip_with_Some in Hab as (a' & b' & Heq & Ha & Hb).
      injection Heq as <- <-. rewrite lookup_drop in Hb.
      rewrite (py_index_lookup _ _ _ Ha). cbn [mbind result_bind].
      replace (Z.of_nat k + 1) with (Z.of_nat (1 + k)) by lia.
      rewrite (py_index_lookup _ _ _ Hb). reflexivity.
  - rewrite length_zip_with, length_drop. lia.
Qed.

(** X27: what the face of a polygon part is made of.  An empty part
    raises [IndexError] (the [pop]).  Otherwise the first point of the
    part is dropped and the others are taken in reverse order, and a face
    is built when at least three are left.  For a closed ring of [p],
    [mid] and [p] again, the face starts at [p] and runs through [mid]
    backwards. *)
Theorem face_verts_reversed_ring :
  IMPORT_SHP.face_verts [] = Raise IndexError
  ∧ (∀ p rest,
       IMPORT_SHP.face_verts (p :: rest)
       = Ok (if 3 <=? Z.of_nat (length rest) then Some (rev rest) else None))
  ∧ (∀ p mid,
       IMPORT_SHP.face_verts (p :: mid ++ [p])
       = Ok (if 2 <=? Z.of_nat (length mid) then Some (p :: rev mid) else None)).
Proof.
  assert (∀ p rest,
            IMPORT_SHP.face_verts (p :: rest)
            = Ok (if 3 <=? Z.of_nat (length rest) then Some (rev rest) else None)) as H.
  { intros p rest. unfold IMPORT_SHP.face_verts. cbn [rev].
    destruct (rev rest ++ [p]) as [|q l] eqn:E.
    { apply app_eq_nil in E as [_ E]. discriminate. }
    rewrite <- E, removelast_last, length_rev. reflexivity. }
  split; [reflexivity|]. split; [exact H|].
  intros p mid. rewrite H, length_app, rev_app_distr. cbn [length rev app].
  destruct (Z.leb_spec 3 (Z.of_nat (length mid + 1)));
    destruct (Z.leb_spec 2 (Z.of_nat (length mid))); try lia; reflexivity.
Qed.

Lemma well_indexed_shift (n offset : nat) (elems : list (list Z)) :
  well_indexed n elems →
  well_indexed (offset + n)
    (List.map (fun e => List.map (fun i => i + Z.of_nat offset) e) elems).
Proof.
  unfold well_indexed. intros H. apply Forall_forall. intros e He.
  apply list_elem_of_In, in_map_iff in He. destruct He as (e0 & <- & He0).
  apply list_elem_of_In in He0. rewrite Forall_forall in H. specialize (H e0 He0).
  apply Forall_forall. intros i Hi.
  apply list_elem_of_In, in_map_iff in Hi. destruct Hi as (i0 & <- & Hi0).
  apply list_elem_of_In in Hi0. rewrite Forall_forall in H. specialize (H i0 Hi0). lia.
Qed.

Lemma well_indexed_more (n m : nat) (elems : list (list Z)) :
  (n <= m)%nat → well_indexed n elems → well_indexed m elems.
Proof.
  unfold well_indexed. intros Hnm H.
  eapply Forall_impl; [exact H|]. intros e He. cbn beta in He |- *.
  eapply Forall_impl; [exact He|]. intros i Hi. cbn beta in Hi |- *. lia.
Qed.

Lemma py_index_app_l {A} (l l' : list A) (i : Z) :
  0 <= i < Z.of_nat (length l) → py_index (l ++ l') i = py_index l i.
Proof.
  intros Hi. unfold py_index. cbv zeta. rewrite length_app, Nat2Z.inj_add.
  assert ((i <? 0) = false) as E by (apply Z.ltb_ge; lia).
  rewrite E. cbv iota. rewrite E.
  assert ((Z.of_nat (length l) + Z.of_nat (length l') <=? i) = false) as ->
    by (apply Z.leb_gt; lia).
  assert ((Z.of_nat (length l) <=? i) = false) as -> by (apply Z.leb_gt; lia).
  cbn [orb]. rewrite lookup_app_l by lia. reflexivity.
Qed.

Lemma py_index_app_r {A} (l l' : list A) (i : Z) :
  0 <= i < Z.of_nat (length l') →
  py_index (l ++ l') (i + Z.of_nat (length l)) = py_index l' i.
Proof.
  intros Hi. unfold py_index. cbv zeta. rewrite length_app, Nat2Z.inj_add.
  assert ((i + Z.of_nat (length l) <? 0) = false) as E by (apply Z.ltb_ge; lia).
  assert ((i <? 0) = false) as E' by (apply Z.ltb_ge; lia).
  rewrite E, E'. cbv iota. rewrite E, E'.
  assert ((Z.of_nat (length l) + Z.of_nat (length l') <=? i + Z.of_nat (length l)) = false)
    as -> by (apply Z.leb_gt; lia).
  assert ((Z.of_nat (length l') <=? i) = false) as -> by (apply Z.leb_gt; lia).
  cbn [orb]. rewrite lookup_app_r by lia.
  replace (Z.to_nat (i + Z.of_nat (length l)) - length l)%nat with (Z.to_nat i) by lia.
  reflexivity.
Qed.

Lemma corners_app_l (vs vs' : list IMPORT_SHP.point3) (elems : list (list Z)) :
  well_indexed (length vs) elems →
  List.map (corners (vs ++ vs')) elems = List.map (corners vs) elems.
Proof.
  intros H. apply List.map_ext_in. intros e He. unfold corners.
  apply List.map_ext_in. intros i Hi. apply py_index_app_l.
  unfold well_indexed in H. rewrite Forall_forall in H.
  specialize (H e (proj2 (list_elem_of_In _ _) He)).
  rewrite Forall_forall in H. exact (H i (proj2 (list_elem_of_In _ _) Hi)).
Qed.

Lemma corners_app_r (vs vs' : list IMPORT_SHP.point3) (elems : list (list Z)) :
  well_indexed (length vs') elems →
  List.map (corners (vs ++ vs'))
    (List.map (fun e => List.map (fun i => i + Z.of_nat (length vs)) e) elems)
  = List.map (corners vs') elems.
Proof.
  intros H. rewrite List.map_map. apply List.map_ext_in. intros e He. unfold corners.
  rewrite List.map_map. apply List.map_ext_in. intros i Hi. apply py_index_app_r.
  unfold well_indexed in H. rewrite Forall_forall in H.
  specialize (H e (proj2 (list_elem_of_In _ _) He)).
  rewrite Forall_forall in H. exact (H i (proj2 (list_elem_of_In _ _) Hi)).
Qed.

Lemma extend_all (bms : list IMPORT_SHP.bmesh) :
  Forall well_formed bms →
  ∀ mesh : IMPORT_SHP.pydata,
    well_indexed (length (IMPORT_SHP.meshVerts mesh)) (IMPORT_SHP.meshEdges mesh) →
    well_indexed (length (IMPORT_SHP.meshVerts mesh)) (IMPORT_SHP.meshFaces mesh) →
    let mesh' := fold_left IMPORT_SHP.extend bms mesh in
    well_indexed (length (IMPORT_SHP.meshVerts mesh')) (IMPORT_SHP.meshEdges mesh')
    ∧ well_indexed (length (IMPORT_SHP.meshVerts mesh')) (IMPORT_SHP.meshFaces mesh')
    ∧ IMPORT_SHP.meshVerts mesh'
      = IMPORT_SHP.meshVerts mesh ++ concat (List.map IMPORT_SHP.verts bms)
    ∧ List.map (corners (IMPORT_SHP.meshVerts mesh')) (IMPORT_SHP.meshEdges mesh')
      = List.map (corners (IMPORT_SHP.meshVerts mesh)) (IMPORT_SHP.meshEdges mesh)
        ++ concat (List.map (fun bm => List.map (corners (IMPORT_SHP.verts bm))
                                        (IMPORT_SHP.edges bm)) bms)
    ∧ List.map (corners (IMPORT_SHP.meshVerts mesh')) (IMPORT_SHP.meshFaces mesh')
      = List.map (corners (IMPORT_SHP.meshVerts mesh)) (IMPORT_SHP.meshFaces mesh)
        ++ concat (List.map (fun bm => List.map (corners (IMPORT_SHP.verts bm))
                                        (IMPORT_SHP.faces bm)) bms).
Proof.
  induction 1 as [|bm bms [Hbe Hbf] _ IH]; intros mesh He Hf; cbn zeta.
  - cbn. rewrite !app_nil_r. auto.
  - cbn [fold_left List.map concat].
    set (m1 := IMPORT_SHP.extend mesh bm).
    assert (well_indexed (length (IMPORT_SHP.meshVerts m1)) (IMPORT_SHP.meshEdges m1)) as He1.
    { unfold m1, IMPORT_SHP.extend. cbn. rewrite length_app. apply Forall_app. split.
      - eapply well_indexed_more; [|exact He]. lia.
      - apply well_indexed_shift. exact Hbe. }
    assert (well_indexed (length (IMPORT_SHP.meshVerts m1)) (IMPORT_SHP.meshFaces m1)) as Hf1.
    { unfold m1, IMPORT_SHP.extend. cbn. rewrite length_app. apply Forall_app. split.
      - eapply well_indexed_more; [|exact Hf]. lia.
      - apply well_indexed_shift. exact Hbf. }
    destruct (IH m1 He1 Hf1) as (H1 & H2 & H3 & H4 & H5).
    split; [exact H1|]. split; [exact H2|].
    split; [rewrite H3; unfold m1, IMPORT_SHP.extend; cbn; rewrite <- app_assoc; reflexivity|].
    split.
    + rewrite H4. unfold m1, IMPORT_SHP.extend. cbn.
      rewrite List.map_app, (corners_app_l _ _ _ He), (corners_app_r _ _ _ Hbe).
      rewrite <- app_assoc. reflexivity.
    + rewrite H5. unfold m1, IMPORT_SHP.extend. cbn.
      rewrite List.map_app, (corners_app_l _ _ _ Hf), (corners_app_r _ _ _ Hbf).
      rewrite <- app_assoc. reflexivity.
Qed.

(** X28: merging the features into one mesh keeps every edge and every
    face on its own points.  When the indices of each bmesh point into its
    own vertices, the lists built by extending with one bmesh after the
    other have indices that point into the merged vertices, the merged
    vertices are those of the features one after the other, and each
    merged edge and face joins the coordinates it joined in its bmesh. *)
Theorem extend_keeps_geometry (bms : list IMPORT_SHP.bmesh) :
  Forall well_formed bms →
  let mesh := fold_left IMPORT_SHP.extend bms no_mesh in
  well_indexed (length (IMPORT_SHP.meshVerts mesh)) (IMPORT_SHP.meshEdges mesh)
  ∧ well_indexed (length (IMPORT_SHP.meshVerts mesh)) (IMPORT_SHP.meshFaces mesh)
  ∧ IMPORT_SHP.meshVerts mesh = concat (List.map IMPORT_SHP.verts bms)
  ∧ List.map (corners (IMPORT_SHP.meshVerts mesh)) (IMPORT_SHP.meshEdges mesh)
    = concat (List.map (fun bm => List.map (corners (IMPORT_SHP.verts bm))
                                    (IMPORT_SHP.edges bm)) bms)
  ∧ List.map (corners (IMPORT_SHP.meshVerts mesh)) (IMPORT_SHP.meshFaces mesh)
    = concat (List.map (fun bm => List.map (corners (IMPORT_SHP.verts bm))
                                    (IMPORT_SHP.faces bm)) bms).
Proof.
  intros Hall.
  apply (extend_all bms Hall no_mesh); apply Forall_nil_2.
Qed.

Lemma extend_keeps_geometry_witness :
  let mesh := fold_left IMPORT_SHP.extend [two_segments; triangle] no_mesh in
  IMPORT_SHP.meshEdges mesh = [[0; 1]; [1; 2]; [3; 4]; [4; 5]; [5; 3]]
  ∧ List.map (corners (IMPORT_SHP.meshVerts mesh)) (IMPORT_SHP.meshFaces mesh)
    = [[Ok (5, 5, 0); Ok (6, 5, 0); Ok (6, 6, 0)]]%Q.
Proof.
  destruct (extend_keeps_geometry [two_segments; triangle]) as (_ & _ & _ & _ & Hf).
  - repeat constructor; cbn; lia.
  - split; [reflexivity | exact Hf].
Defined.

Lemma georef_after_reset (scn : IMPORT_SHP.scene) (c : Q * Q) :
  (IMPORT_SHP.georef (RESET_GEOREF.execute scn) c).1 = c.
Proof.
  unfold RESET_GEOREF.execute, IMPORT_SHP.georef, IMPORT_SHP.scene in *.
  destruct (scn !! "Georef X") as [dx|] eqn:Hx;
    [destruct (scn !! "Georef Y") as [dy|] eqn:Hy|].
  - unfold IMPORT_SHP.georef.
    rewrite lookup_delete_ne, lookup_delete_eq by discriminate. reflexivity.
  - unfold IMPORT_SHP.georef. rewrite Hx, Hy. reflexivity.
  - unfold IMPORT_SHP.georef. rewrite Hx. reflexivity.
Qed.

(** X29: the shift of the first import is the shift of every later one.
    An import into a scene stores the centre of its bounding box under
    "Georef X" and "Georef Y" unless both are there; the next import,
    whatever its own centre, gets the stored shift and leaves the scene as
    it is.  After [RESET_GEOREF] the next import gets its own centre. *)
Theorem georef_is_kept (scn : IMPORT_SHP.scene) (c1 c2 : Q * Q) :
  let first := IMPORT_SHP.georef scn c1 in
  IMPORT_SHP.georef first.2 c2 = first
  ∧ first.2 !! "Georef X" = Some first.1.1
  ∧ first.2 !! "Georef Y" = Some first.1.2
  ∧ (IMPORT_SHP.georef (RESET_GEOREF.execute first.2) c2).1 = c2.
Proof.
  destruct c1 as [cx cy]. cbn zeta.
  split; [|split; [|split; [|apply georef_after_reset]]];
    unfold IMPORT_SHP.georef, IMPORT_SHP.scene in *;
    (destruct (scn !! "Georef X") as [dx|] eqn:Hx;
     [destruct (scn !! "Georef Y") as [dy|] eqn:Hy|]); cbn [fst snd];
    rewrite ?Hx, ?Hy, ?lookup_insert_eq;
    rewrite ?lookup_insert_ne, ?lookup_insert_eq by discriminate; reflexivity.
Qed.

(** ** Parts of a feature *)

Lemma py_slice_valid {A} (l : list A) (i j : Z) :
  0 <= i <= j → j <= Z.of_nat (length l) →
  py_slice l i j = take (Z.to_nat (j - i)) (drop (Z.to_nat i) l).
Proof.
  intros Hij Hj. unfold py_slice, slice_bound. cbv zeta.
  assert ((i <? 0) = false) as -> by (apply Z.ltb_ge; lia).
  assert ((j <? 0) = false) as -> by (apply Z.ltb_ge; lia).
  rewrite !Z.max_r, !Z.min_r by lia. reflexivity.
Qed.

Lemma py_slice_lookup {A} (l : list A) (i j : Z) (k : nat) (a : A) :
  0 <= i <= j → j <= Z.of_nat (length l) →
  py_slice l i j !! k = Some a
  ↔ l !! (Z.to_nat i + k)%nat = Some a ∧ (k < Z.to_nat (j - i))%nat.
Proof.
  intros Hij Hj. rewrite py_slice_valid by assumption.
  rewrite lookup_take_Some, lookup_drop. reflexivity.
Qed.

Lemma py_slice_length {A} (l : list A) (i j : Z) :
  0 <= i <= j → j <= Z.of_nat (length l) →
  length (py_slice l i j) = Z.to_nat (j - i).
Proof.
  intros Hij Hj. rewrite py_slice_valid by assumption.
  rewrite length_take, length_drop. lia.
Qed.

Lemma all_z_length (elev : IMPORT_SHP.elevation) (n : nat) :
  (∀ zs, elev = IMPORT_SHP.ZGeom zs → length zs = n) →
  length (all_z elev n) = n.
Proof.
  intros Hz. destruct elev as [f | zs |]; cbn [all_z].
  - apply length_replicate.
  - apply Hz. reflexivity.
  - apply length_replicate.
Qed.

Lemma part_points (pts : list (Q * Q)) (elev : IMPORT_SHP.elevation) (idx1 idx2 : Z) :
  (∀ zs, elev = IMPORT_SHP.ZGeom zs → length zs = length pts) →
  0 <= idx1 <= idx2 → idx2 <= Z.of_nat (length pts) →
  mapM (fun kpt : Z * (Q * Q) =>
          z ← IMPORT_SHP.point_z elev idx1 idx2 kpt.1;
          Ok (kpt.2.1, kpt.2.2, z))
       (IMPORT_SHP.enumerate (py_slice pts idx1 idx2))
  = Ok (py_slice (with_z pts (all_z elev (length pts))) idx1 idx2).
Proof.
  intros Hz H12 H2.
  pose proof (all_z_length elev (length pts) Hz) as Hlz.
  assert (length (with_z pts (all_z elev (length pts))) = length pts) as Hl3
    by (unfold with_z; rewrite length_zip_with; lia).
  unfold IMPORT_SHP.point3 in *.
  apply mapM_Forall2, Forall2_same_length_lookup. split.
  { unfold IMPORT_SHP.enumerate.
    rewrite length_imap, (py_slice_length pts) by lia.
    symmetry. apply py_slice_length; [lia | rewrite Hl3; lia]. }
  intros k [k' pt] p3 Hk Hp3.
  unfold IMPORT_SHP.enumerate in Hk. rewrite list_lookup_imap in Hk.
  destruct (py_slice pts idx1 idx2 !! k) as [pt'|] eqn:Hpt; [|discriminate].
  cbn in Hk. injection Hk as <- <-.
  apply py_slice_lookup in Hpt as [Hpt Hlt]; [|lia..].
  apply py_slice_lookup in Hp3 as [Hp3 _]; [|rewrite ?Hl3; lia..].
  unfold with_z in Hp3.
  apply lookup_zip_with_Some in Hp3 as (pt0 & z & -> & Hpt0 & Hzk).
  rewrite Hpt in Hpt0. injection Hpt0 as <-.
  cbn [fst snd].
  assert (IMPORT_SHP.point_z elev idx1 idx2 (Z.of_nat k) = Ok z) as ->; [|reflexivity].
  destruct elev as [f | zs |]; cbn [IMPORT_SHP.point_z all_z] in *.
  - apply lookup_replicate in Hzk as [-> _]. reflexivity.
  - apply py_index_lookup. apply py_slice_lookup; [lia | |split; assumption].
    rewrite (Hz zs eq_refl). lia.
  - apply lookup_replicate in Hzk as [-> _]. reflexivity.
Qed.

Lemma concat_slices {A} (l : list A) (bounds : list Z) (m : nat) (b : Z) :
  bounds !! 0%nat = Some 0 →
  (∀ j a c, bounds !! j = Some a → bounds !! S j = Some c → 0 <= a <= c) →
  bounds !! m = Some b →
  concat (List.map (fun j => take (Z.to_nat (default 0 (bounds !! S j)
                                             - default 0 (bounds !! j)))
                               (drop (Z.to_nat (default 0 (bounds !! j))) l))
                   (seq 0 m))
  = take (Z.to_nat b) l.
Proof.
  intros H0 Hs. revert b. induction m as [|m IH]; intros b Hb.
  - rewrite H0 in Hb. injection Hb as <-. reflexivity.
  - destruct (bounds !! m) as [a|] eqn:Ha.
    2:{ apply lookup_ge_None in Ha. apply lookup_lt_Some in Hb. lia. }
    pose proof (Hs m a b Ha Hb) as Hab.
    rewrite seq_S, List.map_app, concat_app, (IH a eq_refl).
    cbn [Nat.add List.map concat]. rewrite app_nil_r, Ha, Hb.
    change (default 0 (Some a)) with a. change (default 0 (Some b)) with b.
    rewrite take_take_drop. f_equal. lia.
Qed.

(** X30: the parts of a feature share out its points.  When the list of
    part indices starts with 0, does not decrease and stays within the
    number of points (and a shape with [z] has one for each point), the
    loop over the parts succeeds, and the [geom] lists of the parts put
    end to end are the points of the shape in order, each with its third
    coordinate and shifted: no point is lost and none is taken twice. *)
Theorem parts_geom_partition (meters_per_degree : Q) (angCoords : bool) (dx dy : Q)
    (pts : list (Q * Q)) (partsIdx : list Z) (elev : IMPORT_SHP.elevation) :
  partsIdx !! 0%nat = Some 0 →
  (∀ j a c, partsIdx !! j = Some a → partsIdx !! S j = Some c → a <= c) →
  (∀ a, a ∈ partsIdx → a <= Z.of_nat (length pts)) →
  (∀ zs, elev = IMPORT_SHP.ZGeom zs → length zs = length pts) →
  ∃ geoms : list (list IMPORT_SHP.point3),
    IMPORT_SHP.parts_geom meters_per_degree angCoords dx dy pts partsIdx elev = Ok geoms
    ∧ length geoms = length partsIdx
    ∧ concat geoms
      = IMPORT_SHP.shift meters_per_degree angCoords dx dy
          <$> with_z pts (all_z elev (length pts)).
Proof.
  intros H0 Hsorted Hbound Hz.
  set (n := Z.of_nat (length pts)).
  set (bounds := partsIdx ++ [n]).
  set (all3 := with_z pts (all_z elev (length pts))).
  assert (length all3 = length pts) as Hl3.
  { unfold all3, with_z. rewrite length_zip_with, (all_z_length _ _ Hz). lia. }
  assert (∀ j a, partsIdx !! j = Some a → 0 <= a <= n) as Hrange.
  { intros j. induction j as [|j IH]; intros a Ha.
    - rewrite H0 in Ha. injection Ha as <-. unfold n. lia.
    - split; [|apply Hbound, list_elem_of_lookup; eauto].
      destruct (partsIdx !! j) as [a0|] eqn:Ha0.
      + pose proof (IH a0 eq_refl). pose proof (Hsorted j a0 a Ha0 Ha). lia.
      + apply lookup_ge_None in Ha0. apply lookup_lt_Some in Ha. lia. }
  assert (∀ j a c, bounds !! j = Some a → bounds !! S j = Some c → 0 <= a <= c ∧ c <= n)
    as Hb.
  { intros j a c Ha Hc. unfold bounds in Ha, Hc.
    assert (j < length partsIdx)%nat as Hj.
    { apply lookup_lt_Some in Hc. rewrite length_app in Hc. cbn in Hc. lia. }
    rewrite lookup_app_l in Ha by exact Hj.
    destruct (Hrange j a Ha) as [Ha0 Han].
    destruct (decide (S j < length partsIdx)%nat) as [Hlt | Hge].
    - rewrite lookup_app_l in Hc by exact Hlt.
      pose proof (Hsorted j a c Ha Hc). pose proof (Hrange (S j) c Hc). lia.
    - rewrite lookup_app_r in Hc by lia.
      replace (S j - length partsIdx)%nat with 0%nat in Hc by lia.
      cbn in Hc. injection Hc as <-. lia. }
  set (part := fun j : nat =>
                 take (Z.to_nat (default 0 (bounds !! S j) - default 0 (bounds !! j)))
                      (drop (Z.to_nat (default 0 (bounds !! j))) all3)).
  exists (List.map (fun j => IMPORT_SHP.shift meters_per_degree angCoords dx dy <$> part j)
                   (seq 0 (length partsIdx))).
  split; [|split].
  - unfold IMPORT_SHP.parts_geom. apply mapM_Forall2.
    unfold py_range. rewrite Nat2Z.id.
    apply Forall2_fmap_l, Forall2_fmap_r, Forall_Forall2_diag, Forall_forall.
    intros j Hj. apply list_elem_of_In, in_seq in Hj. destruct Hj as [_ Hj]. cbn in Hj.
    destruct (lookup_lt_is_Some_2 partsIdx j Hj) as [a Ha].
    assert (bounds !! j = Some a) as Hba
      by (unfold bounds; rewrite lookup_app_l by exact Hj; exact Ha).
    assert (is_Some (bounds !! S j)) as [c Hc].
    { apply lookup_lt_is_Some_2. unfold bounds. rewrite length_app. cbn. lia. }
    destruct (Hb j a c Hba Hc) as [Hac Hcn].
    unfold compose. cbv beta. unfold IMPORT_SHP.part_geom. cbv zeta.
    rewrite (py_index_lookup _ _ _ Ha). cbn [mbind result_bind].
    assert ((if Z.of_nat j + 1 =? Z.of_nat (length partsIdx)
             then Ok (Z.of_nat (length pts))
             else py_index partsIdx (Z.of_nat j + 1)) = Ok c) as ->.
    { unfold bounds in Hc.
      destruct (Z.eqb_spec (Z.of_nat j + 1) (Z.of_nat (length partsIdx))) as [E | E].
      - rewrite lookup_app_r in Hc by lia.
        replace (S j - length partsIdx)%nat with 0%nat in Hc by lia.
        cbn in Hc. injection Hc as <-. reflexivity.
      - rewrite lookup_app_l in Hc by lia.
        replace (Z.of_nat j + 1) with (Z.of_nat (S j)) by lia.
        apply py_index_lookup. exact Hc. }
    cbn [mbind result_bind].
    rewrite (part_points pts elev a c Hz Hac Hcn). cbn [mbind result_bind].
    fold all3. rewrite py_slice_valid by (fold n in Hcn; lia).
    unfold part. rewrite Hba, Hc. reflexivity.
  - rewrite length_map, length_seq. reflexivity.
  - assert (concat (List.map part (seq 0 (length partsIdx))) = all3) as Hcat.
    { unfold part.
      rewrite (concat_slices all3 bounds (length partsIdx) n).
      - apply take_ge. unfold n. lia.
      - unfold bounds. destruct partsIdx; [discriminate H0 | exact H0].
      - intros j a c Ha Hc. destruct (Hb j a c Ha Hc). lia.
      - unfold bounds. rewrite lookup_app_r by lia.
        rewrite Nat.sub_diag. reflexivity. }
    rewrite <- Hcat.
    generalize (seq 0 (length partsIdx)). intros js.
    induction js as [|j js IH]; [reflexivity|].
    cbn [List.map concat]. rewrite fmap_app, IH. reflexivity.
Qed.

Lemma parts_geom_partition_witness :
  ∃ geoms : list (list IMPORT_SHP.point3),
    IMPORT_SHP.parts_geom 111319 true 0 0 two_rings [0; 4]
      (IMPORT_SHP.ZGeom [1; 2; 3; 4; 5; 6; 7; 8]%Q) = Ok geoms
    ∧ length geoms = 2%nat
    ∧ length (concat geoms) = 8%nat.
Proof.
  destruct (parts_geom_partition 111319 true 0 0 two_rings [0; 4]
              (IMPORT_SHP.ZGeom [1; 2; 3; 4; 5; 6; 7; 8]%Q))
    as (geoms & Hrun & Hlen & Hcat).
  - reflexivity.
  - intros [|[|j]] a c Ha Hc; cbn in Ha, Hc; try discriminate.
    injection Ha as <-. injection Hc as <-. lia.
  - intros a Ha. cbn.
    apply elem_of_cons in Ha as [-> | Ha]; [lia|].
    apply list_elem_of_singleton in Ha as ->. lia.
  - intros zs E. injection E as <-. reflexivity.
  - exists geoms. split; [exact Hrun|]. split; [exact Hlen|].
    rewrite Hcat. reflexivity.
Defined.
